(** * Service configuration, proxy orchestration and the categorizer loop

    A shallow embedding of the Go sources:
    - package [configuration]: the service topology ([Service], [Controller],
      [ControllerInstance], [Proxy], [Extension]) with [Validate],
      [GetController], [GetFirstController], [GetExtension], and the
      execution [Context] with [Host];
    - package [proxy]: [prepareConfiguration] and [Prepare];
    - package [categorizer]: the [categorize] goroutine.

    Go strings are [string], [uint64] is [Z] with the wrap-around written
    out at conversions, an [error] is [option string] ([None] is [nil], the
    string is what [Error()] prints), slices are lists. *)

From Stdlib Require Import ZArith.
From stdpp Require Import base tactics option list numbers strings gmap.

#[local] Open Scope Z_scope.

(** Go's [error]: [nil] or a message. *)
Definition error : Type := option string.

(** [len(s)] of a Go string. *)
Definition len (s : string) : nat := String.length s.

(** [uint64(x)]: conversion of an integer to 64 bits, wrapping around. *)
Definition uint64 (x : Z) : Z := x `mod` 2 ^ 64.

(** ** package configuration: the topology model *)

Module ControllerInstance.
(** The struct is declared with [Port] and [Instance]; the proxy
    orchestrator also writes a [Name] field, so the record carries the
    three of them. *)
Record t : Type := mk { Port : Z; Name : string; Instance : string }.
End ControllerInstance.

Module Controller.
Record t : Type := mk {
  Type_ : string;
  Name : string;
  Instances : list ControllerInstance.t
}.

(** The zero value of the struct ([var c configuration.Controller]). *)
Definition zero : t := mk "" "" [].

Definition withInstances (c : t) (l : list ControllerInstance.t) : t :=
  mk (Type_ c) (Name c) l.
End Controller.

Module Proxy.
Record t : Type := mk { Name : string; Port : Z }.
End Proxy.

Module Extension.
(** Declared with [Name] and [Port]; the orchestrator reads [Url]. *)
Record t : Type := mk { Name : string; Url : string; Port : Z }.
End Extension.

Module Service.
(** Declared with [Name]; the orchestrator's composite literal sets [Url].
    The record carries both, every other field as declared. *)
Record t : Type := mk {
  Type_ : string;
  Name : string;
  Url : string;
  Instance : string;
  Controllers : list Controller.t;
  Proxies : list Proxy.t;
  Extensions : list Extension.t;
  Pipelines : list string
}.

Definition withControllers (s : t) (l : list Controller.t) : t :=
  mk (Type_ s) (Name s) (Url s) (Instance s) l
     (Proxies s) (Extensions s) (Pipelines s).
End Service.

(** A method with a pointer receiver: it may read and write the receiver,
    and returns a value. *)
Definition Method (S A : Type) : Type := S -> A * S.

Definition ret {S A : Type} (a : A) : Method S A := fun s => (a, s).

Definition bind {S A B : Type} (m : Method S A) (k : A -> Method S B)
  : Method S B :=
  fun s => let (a, s') := m s in k a s'.

(** Reading a field of the receiver. *)
Definition field {S A : Type} (f : S -> A) : Method S A := fun s => (f s, s).

(** The functions of package [configuration] that the sources call and do
    not contain: the two type validators. *)
Class TypeValidators : Type := {
  ValidateServiceType : string -> error;
  ValidateControllerType : string -> error
}.

Section Topology.
Context `{TypeValidators}.

(** The loop of [Validate] over [s.Controllers]: the first controller
    whose type is refused ends the loop with the wrapped error. *)
Fixpoint validateControllers (cs : list Controller.t) : error :=
  match cs with
  | [] => None
  | c :: cs' =>
      match ValidateControllerType (Controller.Type_ c) with
      | Some err => Some ("controller.ValidateControllerType: " +:+ err)
      | None => validateControllers cs'
      end
  end.

(** [func (s * Service) Validate() error] *)
Definition Validate : Method Service.t error :=
  bind (field Service.Type_) (fun ty =>
    match ValidateServiceType ty with
    | Some err => ret (Some ("identity.ValidateServiceType: " +:+ err))
    | None =>
        bind (field Service.Controllers) (fun cs =>
          ret (validateControllers cs))
    end).
End Topology.

(** The loop of [GetController]: the first controller of that name. *)
Fixpoint findController (name : string) (cs : list Controller.t)
  : option Controller.t :=
  match cs with
  | [] => None
  | c :: cs' =>
      if decide (Controller.Name c = name) then Some c
      else findController name cs'
  end.

(** [func (s * Service) GetController(name string)], returning a [Controller] pointer and an [error] *)
Definition GetController (s : Service.t) (name : string)
  : option Controller.t * error :=
  match findController name (Service.Controllers s) with
  | Some c => (Some c, None)
  | None =>
      (None,
       Some ("'" +:+ name +:+ "' controller was not found in '"
             +:+ Service.Name s +:+ "' service's configuration"))
  end.

(** [func (s * Service) GetFirstController()] *)
Definition GetFirstController (s : Service.t) : option Controller.t * error :=
  match Service.Controllers s with
  | [] =>
      (None,
       Some ("service '" +:+ Service.Name s
             +:+ "' doesn't have any controllers in yaml file"))
  | controller :: _ => (Some controller, None)
  end.

(** The loop of [GetExtension]. *)
Fixpoint findExtension (name : string) (es : list Extension.t)
  : option Extension.t :=
  match es with
  | [] => None
  | e :: es' =>
      if decide (Extension.Name e = name) then Some e
      else findExtension name es'
  end.

(** [func (s * Service) GetExtension(name string)], returning an [Extension] pointer and an [error] *)
Definition GetExtension (s : Service.t) (name : string)
  : option Extension.t * error :=
  match findExtension name (Service.Extensions s) with
  | Some e => (Some e, None)
  | None =>
      (None,
       Some ("'" +:+ name +:+ "' extension was not found in '"
             +:+ Service.Name s +:+ "' service's configuration"))
  end.

(** ** package configuration: the execution context *)

Definition DevContext : string := "development".
Definition DefaultContext : string := "default".

Module Context.
Record t : Type := mk {
  Type_ : string;
  Src : string;
  Bin : string;
  Data : string
}.
End Context.

(** [func (context * Context) Host() string] *)
Definition Host (context : Context.t) : string :=
  if decide (Context.Type_ context = DevContext) then "localhost"
  else "0.0.0.0".

(** ** package proxy: the orchestrator *)

(** [SourceName] of this type should be listed within the controllers in
    the configuration. *)
Definition SourceName : string := "source".

(** [DestinationName] likewise. *)
Definition DestinationName : string := "destination".

Module Config.
(** [configuration.Config] as far as the orchestrator uses it: the name,
    the service, and the number of ports [GetFreePort] has handed out so
    far (the part of the world that [GetFreePort] changes). *)
Record t : Type := mk {
  Name : string;
  Service : Service.t;
  allocated : nat
}.

Definition withService (config : t) (s : Service.t) : t :=
  mk (Name config) s (allocated config).
End Config.

(** The calls the orchestrator makes on its source, a [controller.Interface]
    whose implementations are outside the sources. *)
Inductive SourceCall : Type :=
  | AddConfig (c : Controller.t)
  | RequireExtension (url : string)
  | AddExtensionConfig (e : Extension.t).

Module Source.
(** A source controller: what [ControllerType()] answers and the calls
    received so far, oldest first. *)
Record t : Type := mk { ControllerType : string; calls : list SourceCall }.

Definition call (source : t) (c : SourceCall) : t :=
  mk (ControllerType source) (calls source ++ [c]).
End Source.

Module ProxyController.
(** The proxy's own [Controller]: the destination type it requires and
    the configurations given to [RegisterDestination], oldest first. *)
Record t : Type := mk {
  requiredDestination : string;
  registered : list Controller.t
}.

Definition RegisterDestination (controller : t) (c : Controller.t) : t :=
  mk (requiredDestination controller) (registered controller ++ [c]).
End ProxyController.

Module ProxyService.
(** [type Proxy struct] of package proxy; [source] is [None] for the nil
    interface. The logger is left out. *)
Record t : Type := mk {
  configuration : Config.t;
  source : option Source.t;
  Controller : ProxyController.t
}.

Definition withConfiguration (service : t) (config : Config.t) : t :=
  mk config (source service) (Controller service).

Definition withSource (service : t) (src : option Source.t) : t :=
  mk (configuration service) src (Controller service).

Definition withController (service : t) (c : ProxyController.t) : t :=
  mk (configuration service) (source service) c.
End ProxyService.

(** What the orchestrator takes from outside the sources: constants and
    functions of package [configuration], and the allocator of free ports. *)
Class Externals : Type := {
  (** [configuration.ProxyType] *)
  ProxyType : string;
  (** [configuration.UnknownType] *)
  UnknownType : string;
  (** [configuration.GetCurrentPath()], a path and an error *)
  GetCurrentPath : string * error;
  (** the port that the call number [k] (from 0) of [GetFreePort] yields *)
  FreePort : nat -> Z;
  (** [func (s * Service) SetController(controller Controller)] *)
  SetController : Controller.t -> Service.t -> Service.t;
  (** [extension()], that is [configuration.NewInternalExtension(ControllerName)] *)
  extension : Extension.t
}.

(** How a call of a Go function ends: it returns (a value and the proxy as
    the call left it), the process exits through [logger.Fatal], or the
    goroutine panics. *)
Inductive Outcome (A : Type) : Type :=
  | Returned (a : A) (service : ProxyService.t)
  | Exited
  | Panicked.
Arguments Returned {A} a service.
Arguments Exited {A}.
Arguments Panicked {A}.

(** Inside [prepareConfiguration]: go on with a value, return an error (with
    the [Config] as it is at that point), exit, or panic. *)
Inductive Step (A : Type) : Type :=
  | Next (a : A)
  | Fail (err : string) (config : Config.t)
  | Fatal
  | Panic.
Arguments Next {A} a.
Arguments Fail {A} err config.
Arguments Fatal {A}.
Arguments Panic {A}.

#[global] Instance Step_bind : MBind Step := fun A B f m =>
  match m with
  | Next a => f a
  | Fail err config => Fail err config
  | Fatal => Fatal
  | Panic => Panic
  end.

Section Orchestrator.
Context `{Externals}.

(** Modelled from the spec: [GetFreePort] is absent from the sources; the
    spec speaks of a freshly allocated free port. The call yields the next
    port of [FreePort] and counts it. *)
Definition GetFreePort (config : Config.t) : Z * Config.t :=
  (FreePort (Config.allocated config),
   Config.mk (Config.Name config) (Config.Service config)
             (S (Config.allocated config))).

(** Lines 163-176: the service type. *)
Definition checkServiceType (config : Config.t) : Step Service.t :=
  let serviceConfig := Config.Service config in
  if decide (len (Service.Type_ serviceConfig) = 0%nat) then
    match GetCurrentPath with
    | (_, Some _) => Fatal
    | (exePath, None) =>
        Next (Service.mk ProxyType "" exePath (Config.Name config +:+ " 1")
                         [] [] [] [])
    end
  else if decide (Service.Type_ serviceConfig = ProxyType) then
    Next serviceConfig
  else
    Fail ("service type is overwritten. It's not proxy its '"
          +:+ Service.Type_ serviceConfig +:+ "'") config.

(** One turn of the loop of lines 182-188. *)
Definition pick (found : Controller.t * Controller.t) (c : Controller.t)
  : Controller.t * Controller.t :=
  let (sourceConfig, destinationConfig) := found in
  if decide (Controller.Name c = SourceName) then (c, destinationConfig)
  else if decide (Controller.Name c = DestinationName) then (sourceConfig, c)
  else (sourceConfig, destinationConfig).

(** Lines 180-188: [sourceConfig] and [destinationConfig] after the loop. *)
Definition selectControllers (cs : list Controller.t)
  : Controller.t * Controller.t :=
  fold_left pick cs (Controller.zero, Controller.zero).

(** Calling a method of the source: a nil interface panics. *)
Definition nonNil (source : option Source.t) : Step Source.t :=
  match source with
  | Some src => Next src
  | None => Panic
  end.

(** Lines 190-202. *)
Definition checkSource (config : Config.t) (sourceType : string)
    (serviceConfig : Service.t) (sourceConfig : Controller.t)
  : Step (Service.t * Controller.t) :=
  if decide (len (Controller.Type_ sourceConfig) = 0%nat) then
    let sourceConfig := Controller.mk sourceType SourceName [] in
    Next (Service.withControllers serviceConfig
            (Service.Controllers serviceConfig ++ [sourceConfig]),
          sourceConfig)
  else if decide (Controller.Type_ sourceConfig = sourceType) then
    Next (serviceConfig, sourceConfig)
  else
    Fail ("source expected to be of " +:+ sourceType
          +:+ " type, but in the config it's "
          +:+ Controller.Type_ sourceConfig +:+ " of type") config.

(** Lines 204-216. *)
Definition checkDestination (config : Config.t) (requiredDestination : string)
    (serviceConfig : Service.t) (destinationConfig : Controller.t)
  : Step (Service.t * Controller.t) :=
  if decide (len (Controller.Type_ destinationConfig) = 0%nat) then
    let destinationConfig :=
      Controller.mk requiredDestination DestinationName [] in
    Next (Service.withControllers serviceConfig
            (Service.Controllers serviceConfig ++ [destinationConfig]),
          destinationConfig)
  else if decide (Controller.Type_ destinationConfig = requiredDestination)
  then Next (serviceConfig, destinationConfig)
  else
    Fail ("destination expected to be of " +:+ requiredDestination
          +:+ " type, but in the config it's "
          +:+ Controller.Type_ destinationConfig +:+ " of type") config.

(** Lines 220-233 for the source and 235-248 for the destination: the two
    blocks are the same text, error message included, up to the variable
    they work on. *)
Definition checkInstances (config : Config.t) (controllerConfig : Controller.t)
  : Step (Config.t * Controller.t) :=
  match Controller.Instances controllerConfig with
  | [] =>
      let (port, config) := GetFreePort config in
      let sourceInstance :=
        ControllerInstance.mk (uint64 port)
          (Controller.Name controllerConfig)
          (Controller.Name controllerConfig +:+ "1") in
      Next (config,
            Controller.withInstances controllerConfig
              (Controller.Instances controllerConfig ++ [sourceInstance]))
  | first :: _ =>
      if decide (ControllerInstance.Port first = 0) then
        Fail "the port should not be 0 in the source" config
      else Next (config, controllerConfig)
  end.

(** The body of [prepareConfiguration] up to its return. *)
Definition prepareSteps (service : ProxyService.t) : Step Config.t :=
  let config := ProxyService.configuration service in
  serviceConfig ← checkServiceType config;
  let (sourceConfig, destinationConfig) :=
    selectControllers (Service.Controllers serviceConfig) in
  source ← nonNil (ProxyService.source service);
  '(serviceConfig, sourceConfig) ←
    checkSource config (Source.ControllerType source)
                serviceConfig sourceConfig;
  '(serviceConfig, destinationConfig) ←
    checkDestination config
      (ProxyController.requiredDestination (ProxyService.Controller service))
      serviceConfig destinationConfig;
  '(config, sourceConfig) ← checkInstances config sourceConfig;
  '(config, destinationConfig) ← checkInstances config destinationConfig;
  let serviceConfig := SetController sourceConfig serviceConfig in
  let serviceConfig := SetController destinationConfig serviceConfig in
  Next (Config.withService config serviceConfig).

(** [func (service * Proxy) prepareConfiguration() error] *)
Definition prepareConfiguration (service : ProxyService.t) : Outcome error :=
  match prepareSteps service with
  | Next config => Returned None (ProxyService.withConfiguration service config)
  | Fail err config =>
      Returned (Some err) (ProxyService.withConfiguration service config)
  | Fatal => Exited
  | Panic => Panicked
  end.

(** [func (service * Proxy) registerDestination()] *)
Definition registerDestination (service : ProxyService.t) : ProxyService.t :=
  match findController DestinationName
          (Service.Controllers
             (Config.Service (ProxyService.configuration service))) with
  | Some c =>
      ProxyService.withController service
        (ProxyController.RegisterDestination
           (ProxyService.Controller service) c)
  | None => service
  end.

(** A call on [service.source], which is not nil where this is used. *)
Definition onSource (service : ProxyService.t) (c : SourceCall)
  : ProxyService.t :=
  ProxyService.withSource service
    (option_map (fun src => Source.call src c) (ProxyService.source service)).

(** [func (service * Proxy) registerSource()] *)
Definition registerSource (service : ProxyService.t) : ProxyService.t :=
  match findController SourceName
          (Service.Controllers
             (Config.Service (ProxyService.configuration service))) with
  | Some c => onSource service (AddConfig c)
  | None => service
  end.

(** [func (service * Proxy) Prepare() error] *)
Definition Prepare (service : ProxyService.t) : Outcome error :=
  match ProxyService.source service with
  | None =>
      Returned (Some "missing source. call service.SetDefaultSource") service
  | Some _ =>
      if decide (ProxyController.requiredDestination
                   (ProxyService.Controller service) = UnknownType)
      then
        Returned
          (Some "missing the required destination. call service.Controller.RequireDestination")
          service
      else
        match prepareConfiguration service with
        | Returned (Some err) service =>
            Returned (Some ("prepareConfiguration: " +:+ err)) service
        | Returned None service =>
            let service := registerDestination service in
            let service := registerSource service in
            let proxyExtension := extension in
            let service :=
              onSource service
                (RequireExtension (Extension.Url proxyExtension)) in
            let service :=
              onSource service (AddExtensionConfig proxyExtension) in
            Returned None service
        | Exited => Exited
        | Panicked => Panicked
        end
  end.
End Orchestrator.

(** ** package categorizer: the [categorize] goroutines

    One goroutine runs [categorize] for each smartcontract. The goroutines
    share [manager.pusher]; everything else in the function is local to the
    call, the mutex [mu] included. The model is a small-step one: a world
    holds the goroutines, the mutexes that are locked, the calls of
    [SendMessage] that are in progress on the shared socket, and the events
    observed so far. *)

Module Smartcontract.
Record t : Type := mk {
  NetworkId : string;
  Address : string;
  CategorizedBlockNumber : Z;
  CategorizedBlockTimestamp : Z
}.
End Smartcontract.

(** The values of the [Parameters] map of the pushed request. *)
Inductive Value (Logs : Type) : Type :=
  | SmartcontractsValue (l : list Smartcontract.t)
  | LogsValue (l : Logs).
Arguments SmartcontractsValue {Logs} l.
Arguments LogsValue {Logs} l.

(** [message.Request] *)
Record Request (Logs : Type) : Type := mkRequest {
  Command : string;
  Parameters : list (string * Value Logs)
}.
Arguments mkRequest {Logs} Command Parameters.
Arguments Command {Logs} r.
Arguments Parameters {Logs} r.

(** What [categorize] takes from outside the sources. The answers of the
    upstream and of the socket are indexed by the goroutine and by the
    number of the call in that goroutine (from 0). *)
Class Upstream : Type := {
  Logs : Type;
  (** [spaghetti_log.RemoteLogFilter(sock, timestamp, addresses)]: the new
      logs, or the message of the error *)
  RemoteLogFilter : nat -> nat -> Z -> list string -> Logs + string;
  (** [spaghetti_log.RecentBlock(new_logs)] *)
  RecentBlock : Logs -> Z * Z;
  (** [sm.SetBlockParameter(block_number, block_timestamp)] *)
  SetBlockParameter : Z -> Z -> Smartcontract.t -> Smartcontract.t;
  (** [push.ToString()], the string (its error is dropped by the caller) *)
  ToString : Request Logs -> string;
  (** [manager.pusher.SendMessage(request_string)]: the error it returns *)
  SendMessage : nat -> nat -> string -> error
}.

Section Categorizer.
Context `{Upstream}.

(** Where a goroutine stands in the body of [categorize]. *)
Inductive Pc : Type :=
  | AtFetch                          (* line 33 *)
  | AtRetrySleep                     (* line 38 *)
  | AtLock (request_string : string) (* line 59 *)
  | AtSend (request_string : string) (* line 60, before the call *)
  | InSend (request_string : string) (* line 60, inside SendMessage *)
  | AtUnlock (err : error)           (* lines 61-64 *)
  | AtSleep.                         (* line 66 *)

Record Goroutine : Type := mkGoroutine {
  sm : Smartcontract.t;
  pc : Pc;
  fetches : nat;   (* calls of RemoteLogFilter made so far *)
  sends : nat      (* calls of SendMessage completed so far *)
}.

Inductive Event : Type :=
  | Fetched (g : nat) (timestamp : Z) (addresses : list string)
  | Slept (g : nat) (seconds : Z)
  | Locked (g : nat) (mutex : nat)
  | Unlocked (g : nat) (mutex : nat)
  | SendBegan (g : nat) (request_string : string)
  | SendEnded (g : nat) (request_string : string)
  | PanicRaised (g : nat) (err : string).

Record World : Type := mkWorld {
  goroutines : list Goroutine;
  locked : list nat;            (* the mutexes that are held *)
  inflight : list nat;          (* goroutines inside pusher.SendMessage *)
  panicked : option string;     (* a panic ends the whole process *)
  trace : list Event            (* oldest first *)
}.

Section Step.
(** The mutex on which goroutine [g] synchronises. *)
Variable mutexOf : nat -> nat.

(** One atomic step of goroutine [g]; [None] when it cannot move: no
    such goroutine, the mutex is held, or the process has panicked. *)
Definition stepWith (g : nat) (w : World) : option World :=
  match panicked w, goroutines w !! g with
  | None, Some gr =>
      let update gr' := <[g := gr']> (goroutines w) in
      match pc gr with
      | AtFetch =>
          let timestamp := Smartcontract.CategorizedBlockTimestamp (sm gr) in
          let addresses := [Smartcontract.Address (sm gr)] in
          let ev := Fetched g timestamp addresses in
          match RemoteLogFilter g (fetches gr) timestamp addresses with
          | inr _ =>
              Some (mkWorld
                      (update (mkGoroutine (sm gr) AtRetrySleep
                                 (S (fetches gr)) (sends gr)))
                      (locked w) (inflight w) None (trace w ++ [ev]))
          | inl new_logs =>
              let (block_number, block_timestamp) := RecentBlock new_logs in
              let sm' := SetBlockParameter block_number block_timestamp (sm gr) in
              let push :=
                mkRequest ""
                  [("smartcontracts", SmartcontractsValue [sm']);
                   ("logs", LogsValue new_logs)] in
              Some (mkWorld
                      (update (mkGoroutine sm' (AtLock (ToString push))
                                 (S (fetches gr)) (sends gr)))
                      (locked w) (inflight w) None (trace w ++ [ev]))
          end
      | AtRetrySleep =>
          Some (mkWorld
                  (update (mkGoroutine (sm gr) AtFetch (fetches gr) (sends gr)))
                  (locked w) (inflight w) None (trace w ++ [Slept g 10]))
      | AtLock request_string =>
          if decide (mutexOf g ∈ locked w) then None
          else
            Some (mkWorld
                    (update (mkGoroutine (sm gr) (AtSend request_string)
                               (fetches gr) (sends gr)))
                    (mutexOf g :: locked w) (inflight w) None
                    (trace w ++ [Locked g (mutexOf g)]))
      | AtSend request_string =>
          Some (mkWorld
                  (update (mkGoroutine (sm gr) (InSend request_string)
                             (fetches gr) (sends gr)))
                  (locked w) (g :: inflight w) None
                  (trace w ++ [SendBegan g request_string]))
      | InSend request_string =>
          Some (mkWorld
                  (update (mkGoroutine (sm gr)
                             (AtUnlock (SendMessage g (sends gr) request_string))
                             (fetches gr) (S (sends gr))))
                  (locked w) (filter (fun g' => g' ≠ g) (inflight w)) None
                  (trace w ++ [SendEnded g request_string]))
      | AtUnlock err =>
          let locked' := filter (fun m => m ≠ mutexOf g) (locked w) in
          match err with
          | Some msg =>
              Some (mkWorld (goroutines w) locked' (inflight w) (Some msg)
                      (trace w ++ [Unlocked g (mutexOf g); PanicRaised g msg]))
          | None =>
              Some (mkWorld
                      (update (mkGoroutine (sm gr) AtSleep
                                 (fetches gr) (sends gr)))
                      locked' (inflight w) None
                      (trace w ++ [Unlocked g (mutexOf g)]))
          end
      | AtSleep =>
          Some (mkWorld
                  (update (mkGoroutine (sm gr) AtFetch (fetches gr) (sends gr)))
                  (locked w) (inflight w) None (trace w ++ [Slept g 1]))
      end
  | _, _ => None
  end.

(** A schedule names the goroutine that moves at each step. *)
Fixpoint runWith (schedule : list nat) (w : World) : option World :=
  match schedule with
  | [] => Some w
  | g :: rest =>
      match stepWith g w with
      | Some w' => runWith rest w'
      | None => None
      end
  end.
End Step.

(** [var mu sync.Mutex] stands in the body of [categorize]: every call,
    hence every goroutine, has a mutex of its own. *)
Definition mu (g : nat) : nat := g.

Definition step : nat -> World -> option World := stepWith mu.
Definition run : list nat -> World -> option World := runWith mu.

(** The lock as the spec words it: one mutex for all the goroutines. *)
Definition sharedMutex (g : nat) : nat := 0%nat.

(** The world when a goroutine has been started for each smartcontract. *)
Definition start (smartcontracts : list Smartcontract.t) : World :=
  mkWorld (map (fun s => mkGoroutine s AtFetch 0 0) smartcontracts)
          [] [] None [].
End Categorizer.

(** ** Messages *)

(** [mentions x msg]: the text [x] occurs in [msg]. *)
Fixpoint mentions (x msg : string) : bool :=
  String.prefix x msg ||
  match msg with
  | EmptyString => false
  | String _ msg' => mentions x msg'
  end.

(** The error of a method's result and the receiver after the call. *)
Definition errorOf {S : Type} (r : error * S) : error := r.1.
Definition receiverAfter {S : Type} (r : error * S) : S := r.2.

(** ** Sample surroundings

    Concrete values for what the sources leave out, used to run the
    definitions on examples. *)

(** Modelled from the spec: [ValidateServiceType] and
    [ValidateControllerType] are absent from the sources. The spec has a
    recognized set of service types (the proxy type among them) and of
    disciplines (request-reply and push-pull), and a descriptive error
    that identifies the offending name. *)
Definition sampleValidators : TypeValidators := {|
  ValidateServiceType ty :=
    if decide (ty ∈ ["proxy"; "independent"; "extension"]) then None
    else Some ("'" +:+ ty +:+ "' is not a recognized service type");
  ValidateControllerType ty :=
    if decide (ty ∈ ["Replier"; "Pusher"]) then None
    else Some ("'" +:+ ty +:+ "' is not a recognized controller type")
|}.

(** [SetController] by appending. *)
Definition appendController (c : Controller.t) (s : Service.t) : Service.t :=
  Service.withControllers s (Service.Controllers s ++ [c]).

(** [SetController] by replacing the controllers of that name where they
    stand, and appending when there is none. *)
Definition replaceController (c : Controller.t) (s : Service.t) : Service.t :=
  Service.withControllers s
    (match findController (Controller.Name c) (Service.Controllers s) with
     | Some _ =>
         map (fun c' => if decide (Controller.Name c' = Controller.Name c)
                        then c else c')
             (Service.Controllers s)
     | None => Service.Controllers s ++ [c]
     end).

(** Modelled from the spec: the constants [ProxyType] and [UnknownType],
    [GetCurrentPath], [GetFreePort], [SetController] and [extension] are
    absent from the sources. The spec writes the proxy type "proxy". *)
Definition sampleExternals (set : Controller.t -> Service.t -> Service.t)
  : Externals := {|
  ProxyType := "proxy";
  UnknownType := "";
  GetCurrentPath := ("/srv/proxy", None);
  FreePort k := 8000 + Z.of_nat k;
  SetController := set;
  extension := Extension.mk "proxy_controller" "proxy_controller" 0
|}.

(** The same, when the path of the executable cannot be found. *)
Definition lostExternals : Externals := {|
  ProxyType := "proxy";
  UnknownType := "";
  GetCurrentPath := ("", Some "no executable");
  FreePort k := 8000 + Z.of_nat k;
  SetController := appendController;
  extension := Extension.mk "proxy_controller" "proxy_controller" 0
|}.

(** The same surroundings with an allocator that yields port 0. *)
Definition zeroPortExternals : Externals := {|
  ProxyType := "proxy";
  UnknownType := "";
  GetCurrentPath := ("/srv/proxy", None);
  FreePort k := 0;
  SetController := replaceController;
  extension := Extension.mk "proxy_controller" "proxy_controller" 0
|}.

(** ** Notions for the orchestrator *)

(** The service declares no controller named [source] and none named
    [destination]. *)
Definition undeclared (s : Service.t) : Prop :=
  forall c, c ∈ Service.Controllers s ->
    Controller.Name c ≠ SourceName /\ Controller.Name c ≠ DestinationName.

Section OrchestratorNotions.
Context `{Externals}.

(** The proxy is set up for [Prepare]: it has a source, a required
    destination type, and the types in play are not the empty string. *)
Definition ready (service : ProxyService.t) (src : Source.t) : Prop :=
  let dstType :=
    ProxyController.requiredDestination (ProxyService.Controller service) in
  ProxyService.source service = Some src /\
  dstType ≠ UnknownType /\
  ProxyType ≠ "" /\ Source.ControllerType src ≠ "" /\ dstType ≠ "".



(** The controller that [prepareConfiguration] makes up under [name], with
    its one instance on [port]. *)
Definition synthesized (type name : string) (port : Z) : Controller.t :=
  Controller.mk type name
    [ControllerInstance.mk (uint64 port) name (name +:+ "1")].
End OrchestratorNotions.

(** A proxy named [edge] with a replier for source and a pusher required
    for destination, around the declared service. *)
Definition edge (declared : Service.t) : ProxyService.t :=
  ProxyService.mk (Config.mk "edge" declared 0)
    (Some (Source.mk "Replier" [])) (ProxyController.mk "Pusher" []).


(** ** Notions for the categorizer *)

Section CategorizerNotions.
Context `{Upstream}.

(** The request that [categorize] pushes for the logs it fetched, and the
    smartcontract as [SetBlockParameter] leaves it. *)
Definition updated (contract : Smartcontract.t) (new_logs : Logs)
  : Smartcontract.t :=
  SetBlockParameter (RecentBlock new_logs).1 (RecentBlock new_logs).2 contract.

Definition pushed (contract : Smartcontract.t) (new_logs : Logs) : string :=
  ToString (mkRequest ""
              [("smartcontracts", SmartcontractsValue [updated contract new_logs]);
               ("logs", LogsValue new_logs)]).

(** The events of [n] failed fetches in a row. *)
Definition retries (g : nat) (contract : Smartcontract.t) (n : nat)
  : list Event :=
  concat (repeat [Fetched g (Smartcontract.CategorizedBlockTimestamp contract)
                    [Smartcontract.Address contract];
                  Slept g 10] n).

(** The goroutine is between [mu.Lock()] and [mu.Unlock()]. *)
Definition critical (p : Pc) : bool :=
  match p with
  | AtSend _ | InSend _ | AtUnlock _ => true
  | _ => false
  end.

(** The goroutine is inside [SendMessage]. *)
Definition sending (p : Pc) : bool :=
  match p with
  | InSend _ => true
  | _ => false
  end.

Record Exclusive (w : World) : Prop := {
  excl_one : forall g1 g2 gr1 gr2,
    goroutines w !! g1 = Some gr1 -> goroutines w !! g2 = Some gr2 ->
    critical (pc gr1) = true -> critical (pc gr2) = true -> g1 = g2;
  excl_locked : forall g gr,
    goroutines w !! g = Some gr -> critical (pc gr) = true ->
    0%nat ∈ locked w;
  excl_inflight :
    inflight w = [] \/
    exists g gr, inflight w = [g] /\ goroutines w !! g = Some gr /\
                 sending (pc gr) = true
}.

(** Two calls of [SendMessage] on the shared socket overlap. *)
Definition Overlap (w : World) : Prop := (2 <= length (inflight w))%nat.
End CategorizerNotions.

(** Modelled from the spec: a fake upstream and a fake transport, as in the
    spec's producer-loop simulation. The logs are the (number, timestamp)
    pairs of their blocks; [fetch] and [send] script the answers. *)
Definition sampleUpstream (fetch : nat -> nat -> list (Z * Z) + string)
    (send : nat -> nat -> error) : Upstream := {|
  Logs := list (Z * Z);
  RemoteLogFilter g k _ _ := fetch g k;
  RecentBlock new_logs := List.last new_logs (0, 0);
  SetBlockParameter block_number block_timestamp sm :=
    Smartcontract.mk (Smartcontract.NetworkId sm) (Smartcontract.Address sm)
                     block_number block_timestamp;
  ToString push :=
    "push " +:+
    String.concat ","
      (flat_map (fun kv => match kv.2 with
                           | SmartcontractsValue l => map Smartcontract.Address l
                           | LogsValue _ => []
                           end) (Parameters push));
  SendMessage g k _ := send g k
|}.

Definition nft : Smartcontract.t := Smartcontract.mk "imx" "0xA1" 0 0.
Definition coin : Smartcontract.t := Smartcontract.mk "imx" "0xB2" 0 0.


(** ** package configuration: making the context *)

Definition SrcKey : string := "SERVICE_DEPS_SRC".
Definition BinKey : string := "SERVICE_DEPS_BIN".
Definition DataKey : string := "SERVICE_DEPS_DATA".

Module ContextConfig.
(** [configuration.Config] as the context functions use it: what
    [config.viper.GetString] answers for a key, and the [Context] field
    ([None] for nil). The logger only prints. *)
Record t : Type := mk { viper : string -> string; Context : option Context.t }.
End ContextConfig.

(** [func newContext(config * Config) * Context] *)
Definition newContext (config : ContextConfig.t) : Context.t :=
  let srcPath := ContextConfig.viper config SrcKey in
  let dataPath := ContextConfig.viper config DataKey in
  let binPath := ContextConfig.viper config BinKey in
  (Context.mk "" srcPath binPath dataPath).

(** [func setDevContext(config * Config)] *)
Definition setDevContext (config : ContextConfig.t) : ContextConfig.t :=
  let context := newContext config in
  let context :=
    (Context.mk DevContext (Context.Src context) (Context.Bin context)
                (Context.Data context)) in
  ContextConfig.mk (ContextConfig.viper config) (Some context).

(** ** package proxy: the rest of the orchestrator *)

Module ProxyDescriptor.
(** [configuration.Proxy] as [ServiceToProxy] fills it, with [Url],
    [Instance] and [Port] (the declaration among the sources has [Name] and
    [Port]). *)
Record t : Type := mk { Url : string; Instance : string; Port : Z }.

(** [configuration.Proxy{}] *)
Definition zero : t := mk "" "" 0.
End ProxyDescriptor.

Section Conversion.
Context `{Externals}.

End Conversion.

(** What the orchestrator takes from package [controller] and from its own
    [newController], which are outside the sources. *)
Class ControllerPackage : Type := {
  (** [configuration.ReplierType] *)
  ReplierType : string;
  (** [configuration.PusherType] *)
  PusherType : string;
  (** [controller.NewReplier(service.logger)]: the controller or the message
      of the error *)
  NewReplier : Source.t + string;
  (** [controller.NewPull(service.logger)] *)
  NewPull : Source.t + string;
  (** [newController(logger.Child("controller"))] *)
  newController : ProxyController.t
}.

Section Sources.
Context `{ControllerPackage}.

(** [func New(config * configuration.Config, parent * log.Logger) * Proxy] *)
Definition New (config : Config.t) : ProxyService.t :=
  ProxyService.mk config None newController.

(** [func (service * Proxy) SetCustomSource(source controller.Interface) error] *)
Definition SetCustomSource (service : ProxyService.t)
    (source : option Source.t) : error * ProxyService.t :=
  (None, ProxyService.withSource service source).

(** [func (service * Proxy) SetDefaultSource(controllerType configuration.Type) error] *)
Definition SetDefaultSource (service : ProxyService.t)
    (controllerType : string) : error * ProxyService.t :=
  let made : Source.t + string :=
    if decide (controllerType = ReplierType) then
      match NewReplier with
      | inr err =>
          inr ("failed to create a source as controller.NewReplier: " +:+ err)
      | inl sourceController => inl sourceController
      end
    else if decide (controllerType = PusherType) then
      match NewPull with
      | inr err =>
          inr ("failed to create a source as controller.NewPull: " +:+ err)
      | inl sourceController => inl sourceController
      end
    else
      inr ("the '" +:+ controllerType +:+ "' controller type not supported") in
  match made with
  | inr err => (Some err, service)
  | inl source =>
      match SetCustomSource service (Some source) with
      | (Some err, service) =>
          (Some ("failed to add source controller: " +:+ err), service)
      | (None, service) => (None, service)
      end
  end.
End Sources.

(** Modelled from the spec: the constructors of package [controller] and
    [newController] are absent from the sources; the spec has a
    request-reply and a push-pull discipline and a destination type that is
    recorded later by [RequireDestination]. *)
Definition sampleControllers : ControllerPackage := {|
  ReplierType := "Replier";
  PusherType := "Pusher";
  NewReplier := inl (Source.mk "Replier" []);
  NewPull := inr "no socket";
  newController := ProxyController.mk "" []
|}.

(** ** Notions for the schedules of the categorizer *)

(** The goroutine has locked its mutex and has not yet come to the unlock. *)
Definition insideLock (p : Pc) : bool :=
  match p with
  | AtSend _ | InSend _ => true
  | _ => false
  end.

(** The goroutine has fetched its logs and has not yet begun to send them. *)
Definition aboutToSend (p : Pc) : nat :=
  match p with
  | AtLock _ | AtSend _ => 1
  | _ => 0
  end.

Definition isFetched (g : nat) (ev : Event) : bool :=
  match ev with
  | Fetched g' _ _ => bool_decide (g' = g)
  | _ => false
  end.

Definition isSendBegan (g : nat) (ev : Event) : bool :=
  match ev with
  | SendBegan g' _ => bool_decide (g' = g)
  | _ => false
  end.

(** The goroutine that an event belongs to. *)
Definition goroutineOf (ev : Event) : nat :=
  match ev with
  | Fetched g _ _ | Slept g _ | Locked g _ | Unlocked g _
  | SendBegan g _ | SendEnded g _ | PanicRaised g _ => g
  end.

(** How many events of the trace satisfy [p]. *)
Definition occurrences (p : Event -> bool) (t : list Event) : nat :=
  length (filter (fun ev => p ev = true) t).

(** What every world reached from [start] satisfies under the mutexes of
    the code. *)
Record Reached (n : nat) (w : World) : Prop := {
  reached_size : length (goroutines w) = n;
  reached_locked : forall m, m ∈ locked w ->
    exists gr, goroutines w !! m = Some gr /\ critical (pc gr) = true;
  reached_inflight : forall g, g ∈ inflight w ->
    exists gr, goroutines w !! g = Some gr /\ sending (pc gr) = true;
  reached_inside : forall g gr, goroutines w !! g = Some gr ->
    insideLock (pc gr) = true -> g ∈ locked w;
  reached_sends : forall g gr, goroutines w !! g = Some gr ->
    (occurrences (isSendBegan g) (trace w) + aboutToSend (pc gr)
     <= occurrences (isFetched g) (trace w))%nat
}.

(** ** package vault *)

Module AppConfig.
(** The configuration handed to [vault.New], by what its accessors
    [GetBool], [GetString] and [Exist] answer for a key. *)
Record t : Type := mk {
  GetBool : string -> bool;
  GetString : string -> string;
  Exist : string -> bool
}.
End AppConfig.

(** A Go value of type [interface{}] held in a secret: a string, or
    something else (kept by its printed form). *)
Inductive Any : Type :=
  | AString (s : string)
  | AOther (shown : string).

(** What the vault takes from the Hashicorp client, from zmq and from [fmt],
    all outside the sources. *)
Class VaultWorld : Type := {
  Client : Type;
  Secret : Type;
  AppRoleAuth : Type;
  (** [hashicorp.NewClient(config)] for the config with this address *)
  NewClient : string -> Client + string;
  (** [client.SetToken(token)] *)
  SetToken : string -> Client -> Client;
  (** [approle.NewAppRoleAuth(role_id, secret id from the file, ...)] *)
  NewAppRoleAuth : string -> string -> AppRoleAuth + string;
  (** [client.Auth().Login(ctx, appRoleAuth)]: the secret (nil or not) and
      the error *)
  Login : Client -> AppRoleAuth -> option Secret * error;
  (** [client.KVv2(path).Get(ctx, secret_name)]: the data of the secret *)
  KVGet : Client -> string -> string -> gmap string Any + string;
  (** the text of ["%T %#v"] for a value and itself *)
  describe : option Any -> string
}.

(** [message.Reply] *)
Record Reply : Type := mkReply {
  Status : string;
  Message : string;
  ReplyParameters : list (string * string)
}.

(** What [RunController] hands to [socket.SendMessage]: the string of
    [message.Fail(text)] or the string of a reply. *)
Inductive Outgoing : Type :=
  | FailOf (text : string)
  | ReplyOf (reply : Reply).

(** A request as [RunController] reads it: the command, and what
    [request.Parameters.GetString] gives for [bucket] and [key] (errors of
    receiving and parsing are dropped by the code). *)
Record Incoming : Type := mkIncoming {
  IncomingCommand : string;
  bucket : string;
  key : string
}.

Module Vault.
Section WithWorld.
Context `{VaultWorld}.

(** [type Vault struct], the [context] left out. *)
Record t : Type := mk {
  client : Client;
  path : string;
  approle_role_id : string;
  approle_secret_id_file : string;
  database_path : string;
  auth_token : option Secret;
  database_auth_token : option Secret
}.

(** [func (v * Vault) login(ctx context.Context)] *)
Definition login (v : t) : option Secret * error :=
  match NewAppRoleAuth (approle_role_id v) (approle_secret_id_file v) with
  | inr err =>
      (None,
       Some ("unable to initialize approle authentication method: " +:+ err))
  | inl appRoleAuth =>
      match Login (client v) appRoleAuth with
      | (_, Some err) =>
          (None, Some ("unable to login using approle auth method: " +:+ err))
      | (None, None) => (None, Some "no approle info was returned after login")
      | (Some authInfo, None) => (Some authInfo, None)
      end
  end.

(** [func New(app_config * configuration.Config) ( * Vault, error)] *)
Definition New (app_config : option AppConfig.t) : option t * error :=
  match app_config with
  | None => (None, Some "missing configuration file")
  | Some app_config =>
      let secure := AppConfig.GetBool app_config "SDS_VAULT_SECURE" in
      let host := AppConfig.GetString app_config "SDS_VAULT_HOST" in
      let port := AppConfig.GetString app_config "SDS_VAULT_PORT" in
      let path := AppConfig.GetString app_config "SDS_VAULT_PATH" in
      let database_path :=
        AppConfig.GetString app_config "SDS_VAULT_DATABASE_PATH" in
      let checked : string * string * string + string :=
        if secure then
          let address := "https://" +:+ host +:+ ":" +:+ port in
          if negb (AppConfig.Exist app_config "SDS_VAULT_APPROLE_ROLE_ID") then
            inr "missing 'SDS_VAULT_APPROLE_ROLE_ID' environment variable"
          else
            let approle_role_id :=
              AppConfig.GetString app_config "SDS_VAULT_APPROLE_ROLE_ID" in
            if negb (AppConfig.Exist app_config
                       "SDS_VAULT_APPROLE_SECRET_ID_FILE") then
              inr "missing 'SDS_VAULT_APPROLE_SECRET_ID_FILE' environment variable"
            else
              inl (address, approle_role_id,
                   AppConfig.GetString app_config
                     "SDS_VAULT_APPROLE_SECRET_ID_FILE")
        else
          let address := "http://" +:+ host +:+ ":" +:+ port in
          if negb (AppConfig.Exist app_config "SDS_VAULT_TOKEN") then
            inr "missing 'SDS_VAULT_TOKEN' environment variable"
          else inl (address, "", "") in
      match checked with
      | inr err => (None, Some err)
      | inl (address, approle_role_id, approle_secret_id_file) =>
          match NewClient address with
          | inr err => (None, Some err)
          | inl client =>
              let vault :=
                mk client path approle_role_id approle_secret_id_file
                   database_path None None in
              if secure then
                match login vault with
                | (_, Some err) => (None, Some ("vault login error: " +:+ err))
                | (token, None) =>
                    (Some (mk client path approle_role_id
                              approle_secret_id_file database_path token None),
                     None)
                end
              else
                (Some (mk (SetToken
                             (AppConfig.GetString app_config "SDS_VAULT_TOKEN")
                             client)
                          path approle_role_id approle_secret_id_file
                          database_path None None),
                 None)
          end
      end
  end.

(** [func (v * Vault) get_string(secret_name string, key string) (string, error)] *)
Definition get_string (v : t) (secret_name key : string) : string * error :=
  match KVGet (client v) (path v) secret_name with
  | inr err => ("", Some err)
  | inl data =>
      match data !! key with
      | Some (AString value) => (value, None)
      | other =>
          ("", Some ("vault error. failed to get the key " +:+ describe other))
      end
  end.

(** What the loop of [RunController] builds for a [GetString] request. *)
Definition answer (v : t) (request : Incoming) : Outgoing :=
  match get_string v (bucket request) (key request) with
  | (_, Some err) =>
      FailOf ("invalid smartcontract developer request " +:+ err)
  | (value, None) => ReplyOf (mkReply "OK" "" [("value", value)])
  end.

(** The loop of [RunController] on the requests it receives, in order;
    [send k out] is the error of the call number [k] of
    [socket.SendMessage]. The result has the messages sent and the panic
    that ended the loop, if one did. *)
Fixpoint serve (send : nat -> Outgoing -> error) (v : t)
    (requests : list Incoming) (k : nat) (sent : list Outgoing)
  : list Outgoing * option string :=
  match requests with
  | [] => (sent, None)
  | request :: rest =>
      if decide (IncomingCommand request = "GetString") then
        let out := answer v request in
        match send k out with
        | Some err => (sent, Some ("failed to reply: %w" +:+ err))
        | None => serve send v rest (S k) (sent ++ [out])
        end
      else (sent, Some "vault doesnt support this kind of command")
  end.

(** [func (v * Vault) RunController()]: the socket is made and bound, then
    the loop serves. *)
Definition RunController (newSocket bind : error)
    (send : nat -> Outgoing -> error) (v : t) (requests : list Incoming)
  : list Outgoing * option string :=
  match newSocket with
  | Some err => ([], Some err)
  | None =>
      match bind with
      | Some err => ([], Some ("error to bind socket for: " +:+ err))
      | None => serve send v requests 0 []
      end
  end.
End WithWorld.
End Vault.

(** Modelled from the spec: a stand-in for the secret store and its client,
    which the spec keeps outside the core. A client is its address and its
    token; the store has one secret, [db], with a string and a number. *)
Definition sampleVaultWorld (loggedIn : option string * error) : VaultWorld := {|
  Client := string * string;
  Secret := string;
  AppRoleAuth := string * string;
  NewClient address := inl (address, "");
  SetToken token client := (client.1, token);
  NewAppRoleAuth role file := inl (role, file);
  Login _ _ := loggedIn;
  KVGet _ _ secret_name :=
    if decide (secret_name = "db")
    then inl (<["user" := AString "admin"]> (<["port" := AOther "5432"]> ∅))
    else inr "secret not found";
  describe value :=
    match value with
    | None => "<nil> <nil>"
    | Some (AString s) => "string " +:+ s
    | Some (AOther shown) => "int " +:+ shown
    end
|}.

(** A configuration whose accessors answer from a list of pairs; the flag
    [SDS_VAULT_SECURE] is on when it is held with the value [true]. *)
Definition sampleAppConfig (held : list (string * string)) : AppConfig.t := {|
  AppConfig.GetBool k := bool_decide ((k, "true") ∈ held);
  AppConfig.GetString k := default "" (snd <$> find (fun kv => bool_decide (kv.1 = k)) held);
  AppConfig.Exist k := bool_decide (k ∈ held.*1)
|}.

(** ** package categorizer: pushing the smartcontracts of a network *)

(** What [push_to_network_service] takes from outside the sources. *)
Class NetworkWorld : Type := {
  InprocService : Type;
  (** [crud.SelectAllByCondition] for the condition on this network id: the
      smartcontracts selected or the message of the error *)
  SelectAllByCondition : string -> list Smartcontract.t + string;
  (** [categorizer_process.CategorizerEndpoint(network.Id)] *)
  CategorizerEndpoint : string -> string;
  (** [service.InprocessFromUrl(url)] *)
  InprocessFromUrl : string -> InprocService + string;
  (** [NEW_CATEGORIZED_SMARTCONTRACTS.RequestRouter] with the request that
      carries these smartcontracts: the error it returns *)
  RequestRouter : InprocService -> list Smartcontract.t -> error
}.

Section Push.
Context `{NetworkWorld}.

(** The calls that leave [push_to_network_service]. *)
Inductive NetworkCall : Type :=
  | Selected (network_id : string)
  | Resolved (url : string)
  | Requested (target : InprocService) (smartcontracts : list Smartcontract.t).

(** [func push_to_network_service(logger, database_client, network, client_socket) error],
    with the calls made, oldest first; only [network.Id] is used. *)
Definition push_to_network_service (network_id : string)
  : error * list NetworkCall :=
  match SelectAllByCondition network_id with
  | inr err =>
      (Some ("crud.SelectAllByCondition: " +:+ err), [Selected network_id])
  | inl smartcontracts =>
      if decide (length smartcontracts = 0%nat) then
        (None, [Selected network_id])
      else
        let url := CategorizerEndpoint network_id in
        match InprocessFromUrl url with
        | inr err =>
            (Some ("service.InprocessFromUrl(url): " +:+ err),
             [Selected network_id; Resolved url])
        | inl categorizer_service =>
            let calls :=
              [Selected network_id; Resolved url;
               Requested categorizer_service smartcontracts] in
            match RequestRouter categorizer_service smartcontracts with
            | Some err =>
                (Some ("blockchain_command.NEW_CATEGORIZED_SMARTCONTRACTS.RequestRouter: "
                       +:+ err),
                 calls)
            | None => (None, calls)
            end
        end
  end.
End Push.

(** ** package proxy: running *)

(** The command line as [Run] and [generateConfiguration] read it, and the
    writing of the service file; package [argument] and [WriteService] are
    outside the sources. *)
Class CommandLine : Type := {
  (** [argument.Exist(argument.BuildConfiguration)] *)
  BuildConfiguration : bool;
  (** [argument.Value(argument.Path)] *)
  PathValue : string + string;
  (** [argument.Value(argument.Url)] *)
  UrlValue : string + string;
  (** [service.configuration.WriteService(path)] on the configuration as it
      is at the call *)
  WriteService : string -> Config.t -> error
}.

(** How [Run] goes on: the service file was written (what and where) and
    [Run] returned; the process ended through [Fatal]; or the two serve
    loops were started. *)
Inductive Ran : Type :=
  | Generated (service : ProxyService.t) (path : string) (written : Service.t)
  | RunExited
  | Serving.

Section Running.
Context `{CommandLine}.

(** [service.configuration.Service.Url = url] *)
Definition setUrl (service : ProxyService.t) (url : string) : ProxyService.t :=
  let config := ProxyService.configuration service in
  let s := Config.Service config in
  ProxyService.withConfiguration service
    (Config.withService config
       (Service.mk (Service.Type_ s) (Service.Name s) url (Service.Instance s)
          (Service.Controllers s) (Service.Proxies s) (Service.Extensions s)
          (Service.Pipelines s))).

(** [func (service * Proxy) generateConfiguration()] *)
Definition generateConfiguration (service : ProxyService.t) : Ran :=
  match PathValue with
  | inr _ => RunExited
  | inl path =>
      match UrlValue with
      | inr _ => RunExited
      | inl url =>
          let service := setUrl service url in
          match WriteService path (ProxyService.configuration service) with
          | Some _ => RunExited
          | None =>
              Generated service path
                (Config.Service (ProxyService.configuration service))
          end
      end
  end.

(** [func (service * Proxy) Run()]; the serve loops themselves are not
    followed. *)
Definition Run (service : ProxyService.t) : Ran :=
  if BuildConfiguration then generateConfiguration service else Serving.
End Running.

(** Modelled from the spec: sample answers of the database and of the
    network service, and a sample command line. *)
Definition sampleNetworkWorld (stored : list Smartcontract.t) : NetworkWorld := {|
  InprocService := string;
  SelectAllByCondition network_id :=
    inl (filter (fun s => Smartcontract.NetworkId s = network_id) stored);
  CategorizerEndpoint network_id := "inproc://categorizer_" +:+ network_id;
  InprocessFromUrl url := inl url;
  RequestRouter _ _ := None
|}.

Definition sampleCommandLine : CommandLine := {|
  BuildConfiguration := true;
  PathValue := inl "./service.yml";
  UrlValue := inl "github.com/ahmetson/edge";
  WriteService _ _ := None
|}.


(** * Theorems *)

(** ** Occurrences in messages *)

Lemma prefix_app (x post : string) : String.prefix x (x +:+ post) = true.
Proof.
  induction x as [|a x IH]; simpl.
  - by destruct post.
  - destruct (Ascii.ascii_dec a a); [exact IH | done].
Qed.

Lemma mentions_app_r (x pre msg : string) :
  mentions x msg = true -> mentions x (pre +:+ msg) = true.
Proof.
  intros Hm. induction pre as [|a pre IH]; simpl; [done|].
  rewrite IH. apply orb_true_r.
Qed.

Lemma mentions_head (x post : string) : mentions x (x +:+ post) = true.
Proof.
  pose proof (prefix_app x post) as Hp.
  destruct (x +:+ post); unfold mentions; fold mentions; by rewrite Hp.
Qed.

Lemma prefix_length (x msg : string) :
  String.prefix x msg = true -> (String.length x <= String.length msg)%nat.
Proof.
  revert msg. induction x as [|a x IH]; intros msg Hp; simpl; [lia|].
  destruct msg as [|b msg]; simpl in Hp; [done|].
  destruct (Ascii.ascii_dec a b); [|done].
  specialize (IH _ Hp). simpl. lia.
Qed.

Lemma mentions_length (x msg : string) :
  mentions x msg = true -> (String.length x <= String.length msg)%nat.
Proof.
  induction msg as [|b msg IH]; unfold mentions; fold mentions; intros Hm.
  - apply orb_true_iff in Hm as [Hm|Hm]; [by apply prefix_length | done].
  - apply orb_true_iff in Hm as [Hm|Hm]; [by apply prefix_length|].
    specialize (IH Hm). simpl. lia.
Qed.

Lemma length_append (a b : string) :
  String.length (a +:+ b) = (String.length a + String.length b)%nat.
Proof. induction a as [|c a IH]; simpl; [done | by rewrite IH]. Qed.

#[local] Ltac occurs := repeat first [apply mentions_head | apply mentions_app_r].

(** ** The topology model *)

Section TopologyFacts.
Context `{TypeValidators}.

Lemma findController_none (name : string) (cs : list Controller.t) :
  (forall c, c ∈ cs -> Controller.Name c ≠ name) ->
  findController name cs = None.
Proof.
  induction cs as [|c cs IH]; intros Hno; simpl; [done|].
  destruct (decide (Controller.Name c = name)) as [E|_].
  - exfalso. apply (Hno c); [left | done].
  - apply IH. intros c' Hin. apply Hno. by right.
Qed.

Lemma findExtension_none (name : string) (es : list Extension.t) :
  (forall e, e ∈ es -> Extension.Name e ≠ name) ->
  findExtension name es = None.
Proof.
  induction es as [|e es IH]; intros Hno; simpl; [done|].
  destruct (decide (Extension.Name e = name)) as [E|_].
  - exfalso. apply (Hno e); [left | done].
  - apply IH. intros e' Hin. apply Hno. by right.
Qed.

(** [Validate] has no assignment to its receiver. *)
Lemma Validate_receiver (s : Service.t) : receiverAfter (Validate s) = s.
Proof.
  unfold Validate, bind, field, ret, receiverAfter.
  by destruct (ValidateServiceType (Service.Type_ s)).
Qed.

Lemma validateControllers_first_refused (cs : list Controller.t)
    (c : Controller.t) :
  c ∈ cs -> ValidateControllerType (Controller.Type_ c) ≠ None ->
  exists before first after err,
    cs = before ++ first :: after /\
    (forall b, b ∈ before ->
       ValidateControllerType (Controller.Type_ b) = None) /\
    ValidateControllerType (Controller.Type_ first) = Some err /\
    validateControllers cs
    = Some ("controller.ValidateControllerType: " +:+ err).
Proof.
  induction cs as [|c0 cs IH]; intros Hin Hbad; [by apply elem_of_nil in Hin|].
  simpl. destruct (ValidateControllerType (Controller.Type_ c0)) as [err|] eqn:E.
  - exists [], c0, cs, err. repeat split; [|done].
    intros b Hb. by apply elem_of_nil in Hb.
  - apply elem_of_cons in Hin as [->|Hin]; [congruence|].
    destruct (IH Hin Hbad) as (before & first & after & err & -> & Hb & He & Hv).
    exists (c0 :: before), first, after, err. repeat split; [|done|done].
    intros b Hin'. apply elem_of_cons in Hin' as [->|Hin']; auto.
Qed.

Lemma validateControllers_types (cs cs' : list Controller.t) :
  map Controller.Type_ cs' = map Controller.Type_ cs ->
  validateControllers cs' = validateControllers cs.
Proof.
  revert cs'. induction cs as [|c cs IH]; intros [|c' cs'] E; try done.
  simpl in *. injection E as -> E. by rewrite (IH _ E).
Qed.
End TopologyFacts.

(** C7. When the validator of service types refuses the declared type of a
    service, [Validate] returns an error (the validator's message behind the
    prefix [identity.ValidateServiceType: ]); and whatever it returns,
    [Validate] leaves its receiver as it was. *)
Theorem Validate_service_type `{TypeValidators} (s : Service.t) (err : string) :
  ValidateServiceType (Service.Type_ s) = Some err ->
  errorOf (Validate s) = Some ("identity.ValidateServiceType: " +:+ err) /\
  forall s' : Service.t, receiverAfter (Validate s') = s'.
Proof.
  intros Hbad. split; [|apply Validate_receiver].
  unfold Validate, bind, field, ret, errorOf. by rewrite Hbad.
Qed.

Lemma Validate_service_type_witness :
  let s := Service.mk "gateway" "edge" "" "edge 1"
             [Controller.mk "Replier" "source" []] [] [] ["main"] in
  errorOf (@Validate sampleValidators s)
  = Some "identity.ValidateServiceType: 'gateway' is not a recognized service type"
  /\ receiverAfter (@Validate sampleValidators s) = s.
Proof.
  intros s.
  destruct (@Validate_service_type sampleValidators s
              "'gateway' is not a recognized service type") as [He Hr].
  - reflexivity.
  - split; [exact He | apply Hr].
Defined.

(** C4, as amended. When a controller of the service has a type that the
    validator of controller types refuses, [Validate] returns an error. If
    the validator of service types refuses the type of the service, the
    error is its message behind the prefix [identity.ValidateServiceType: ];
    otherwise it is, behind the prefix [controller.ValidateControllerType: ],
    the message of the validator for the type of the first controller, in
    the order of declaration, whose type is refused. The error is the same
    for any two services with the same type and the same list of controller
    types: the names of the controllers have no part in it. *)
Theorem Validate_controller_type `{TypeValidators}
    (s : Service.t) (c : Controller.t) :
  c ∈ Service.Controllers s ->
  ValidateControllerType (Controller.Type_ c) ≠ None ->
  (exists msg, errorOf (Validate s) = Some msg) /\
  (forall e, ValidateServiceType (Service.Type_ s) = Some e ->
     errorOf (Validate s) = Some ("identity.ValidateServiceType: " +:+ e)) /\
  (ValidateServiceType (Service.Type_ s) = None ->
   exists before first after err,
     Service.Controllers s = before ++ first :: after /\
     (forall b, b ∈ before ->
        ValidateControllerType (Controller.Type_ b) = None) /\
     ValidateControllerType (Controller.Type_ first) = Some err /\
     errorOf (Validate s)
     = Some ("controller.ValidateControllerType: " +:+ err)) /\
  (forall s' : Service.t,
     Service.Type_ s' = Service.Type_ s ->
     map Controller.Type_ (Service.Controllers s')
     = map Controller.Type_ (Service.Controllers s) ->
     errorOf (Validate s') = errorOf (Validate s)).
Proof.
  intros Hin Hbad.
  destruct (validateControllers_first_refused _ _ Hin Hbad)
    as (before & first & after & err & Hcs & Hb & He & Hv).
  unfold Validate, bind, field, ret, errorOf. simpl.
  split; [|split; [|split]].
  - destruct (ValidateServiceType (Service.Type_ s)); simpl; eauto.
  - by intros e ->.
  - intros ->. simpl. by exists before, first, after, err.
  - intros s' -> Htypes.
    destruct (ValidateServiceType (Service.Type_ s)); simpl; [done|].
    by apply validateControllers_types.
Qed.

Lemma Validate_controller_type_witness :
  let news := Controller.mk "Broadcast" "news" [] in
  let s := Service.mk "proxy" "edge" "" "edge 1"
             [Controller.mk "Replier" "source" []; news;
              Controller.mk "Router" "hub" []] [] [] [] in
  errorOf (@Validate sampleValidators s)
  = Some "controller.ValidateControllerType: 'Broadcast' is not a recognized controller type".
Proof.
  intros news s.
  destruct (@Validate_controller_type sampleValidators s
              (Controller.mk "Router" "hub" []))
    as (_ & _ & Hfirst & _).
  - right. right. left.
  - discriminate.
  - destruct Hfirst as (before & first & after & err & Hcs & Hb & He & Hv);
      [reflexivity|].
    rewrite Hv. f_equal. f_equal.
    destruct before as [|b0 before].
    { injection Hcs as <- _. vm_compute in He. discriminate. }
    injection Hcs as <- Hcs.
    destruct before as [|b1 before].
    { injection Hcs as <- _. vm_compute in He. by injection He as <-. }
    injection Hcs as <- Hcs.
    specialize (Hb news ltac:(right; left)). vm_compute in Hb. discriminate.
Defined.

(** C4 as it is worded fails: a controller named [gateway] with a type that
    is refused makes [Validate] return an error in which the name
    [gateway] does not occur. *)
Lemma Validate_error_omits_controller_name :
  let c := Controller.mk "Broadcast" "gateway" [] in
  let s := Service.mk "proxy" "edge" "" "edge 1" [c] [] [] [] in
  c ∈ Service.Controllers s /\
  @ValidateControllerType sampleValidators (Controller.Type_ c) ≠ None /\
  ~ (exists msg, errorOf (@Validate sampleValidators s) = Some msg /\
                 mentions (Controller.Name c) msg = true).
Proof.
  intros c s. split; [left|]. split; [discriminate|].
  intros (msg & Hmsg & Hname). vm_compute in Hmsg.
  injection Hmsg as <-. vm_compute in Hname. discriminate.
Qed.

(** Whatever the validator of controller types, a type that it refuses can
    be carried by a controller whose name is not in the error of
    [Validate]. *)
Lemma Validate_error_blind_to_names `{TypeValidators} (st ty : string) :
  ValidateServiceType st = None ->
  ValidateControllerType ty ≠ None ->
  exists (name msg : string),
    errorOf (Validate (Service.mk st "" "" "" [Controller.mk ty name []] [] [] []))
    = Some msg /\
    mentions name msg = false.
Proof.
  intros Hst Hty.
  destruct (ValidateControllerType ty) as [err|] eqn:E; [|done].
  exists (("controller.ValidateControllerType: " +:+ err) +:+ "!"),
         ("controller.ValidateControllerType: " +:+ err).
  split.
  - unfold Validate, bind, field, ret, errorOf. simpl. rewrite Hst. simpl.
    by rewrite E.
  - destruct (mentions _ _) eqn:Hm; [|done].
    apply mentions_length in Hm. rewrite length_append in Hm. simpl in Hm. lia.
Qed.

(** C8. For a name that no controller of the service bears,
    [GetController] returns no controller and an error whose message holds
    both the name asked for and the name of the service; [GetExtension]
    does the same for a name that no extension bears. *)
Theorem lookups_of_absent_names (s : Service.t) (name : string) :
  ((forall c, c ∈ Service.Controllers s -> Controller.Name c ≠ name) ->
   exists msg,
     GetController s name = (None, Some msg) /\
     msg = "'" +:+ name +:+ "' controller was not found in '"
           +:+ Service.Name s +:+ "' service's configuration" /\
     mentions name msg = true /\ mentions (Service.Name s) msg = true) /\
  ((forall e, e ∈ Service.Extensions s -> Extension.Name e ≠ name) ->
   exists msg,
     GetExtension s name = (None, Some msg) /\
     msg = "'" +:+ name +:+ "' extension was not found in '"
           +:+ Service.Name s +:+ "' service's configuration" /\
     mentions name msg = true /\ mentions (Service.Name s) msg = true).
Proof.
  split; intros Hno; eexists; (split; [|split; [reflexivity|]]).
  - unfold GetController. by rewrite findController_none.
  - split; occurs.
  - unfold GetExtension. by rewrite findExtension_none.
  - split; occurs.
Qed.

Lemma lookups_of_absent_names_witness :
  let s := Service.mk "proxy" "edge" "" "edge 1"
             [Controller.mk "Replier" "source" []] []
             [Extension.mk "cache" "" 4000] [] in
  GetController s "missing"
  = (None, Some "'missing' controller was not found in 'edge' service's configuration")
  /\ GetExtension s "missing"
  = (None, Some "'missing' extension was not found in 'edge' service's configuration").
Proof.
  intros s. destruct (lookups_of_absent_names s "missing") as [Hc He]. split.
  - destruct Hc as (msg & Hget & -> & _); [|exact Hget].
    intros c Hin. apply list_elem_of_singleton in Hin as ->. discriminate.
  - destruct He as (msg & Hget & -> & _); [|exact Hget].
    intros e Hin. apply list_elem_of_singleton in Hin as ->. discriminate.
Defined.

(** C9. [Host] answers the loopback name for a context of type
    [development] and the all-interfaces address for one of type
    [default], and it depends on nothing of the context but its type. *)
Theorem Host_by_type (context : Context.t) :
  (Context.Type_ context = DevContext -> Host context = "localhost") /\
  (Context.Type_ context = DefaultContext -> Host context = "0.0.0.0") /\
  (forall other : Context.t,
     (Context.Type_ other = Context.Type_ context) ->
     Host other = Host context).
Proof.
  unfold Host. repeat split.
  - intros ->. done.
  - intros ->. done.
  - intros other ->. done.
Qed.

Lemma Host_by_type_witness :
  Host (Context.mk "development" "/deps/.src" "/deps/.bin" "/deps/.data")
  = "localhost"
  /\ Host (Context.mk "default" "/deps/.src" "/deps/.bin" "/deps/.data")
  = "0.0.0.0".
Proof.
  split.
  - apply (Host_by_type
             (Context.mk "development" "/deps/.src" "/deps/.bin" "/deps/.data")).
    reflexivity.
  - apply (Host_by_type
             (Context.mk "default" "/deps/.src" "/deps/.bin" "/deps/.data")).
    reflexivity.
Defined.

(** ** The orchestrator *)

Section OrchestratorFacts.
Context `{Externals}.

Lemma len_zero (t : string) : len t = 0%nat <-> t = "".
Proof. destruct t; simpl; split; intros; done. Qed.

Lemma fold_pick_neither (cs : list Controller.t) (found : Controller.t * Controller.t) :
  (forall c, c ∈ cs ->
     Controller.Name c ≠ SourceName /\ Controller.Name c ≠ DestinationName) ->
  fold_left pick cs found = found.
Proof.
  revert found. induction cs as [|c cs IH]; intros found Hno; simpl; [done|].
  destruct (Hno c) as [Hs Hd]; [left|].
  rewrite IH.
  - unfold pick. destruct found. by rewrite !decide_False.
  - intros c' Hin. apply Hno. by right.
Qed.

Lemma selectControllers_undeclared (s : Service.t) :
  undeclared s ->
  selectControllers (Service.Controllers s) = (Controller.zero, Controller.zero).
Proof. intros Hun. by apply fold_pick_neither. Qed.

Lemma withConfiguration_same (service : ProxyService.t) :
  ProxyService.withConfiguration service (ProxyService.configuration service)
  = service.
Proof. by destruct service. Qed.


Lemma checkServiceType_empty (config : Config.t) (exePath : string) :
  Service.Type_ (Config.Service config) = "" ->
  GetCurrentPath = (exePath, None) ->
  checkServiceType config
  = Next (Service.mk ProxyType "" exePath (Config.Name config +:+ " 1")
                     [] [] [] []).
Proof.
  intros Hty Hpath. unfold checkServiceType.
  rewrite decide_True by (by apply len_zero). by rewrite Hpath.
Qed.

Lemma checkServiceType_proxy (config : Config.t) :
  Service.Type_ (Config.Service config) = ProxyType -> ProxyType ≠ "" ->
  checkServiceType config = Next (Config.Service config).
Proof.
  intros Hty Hne. unfold checkServiceType.
  rewrite decide_False by (rewrite len_zero; congruence).
  by rewrite decide_True.
Qed.

Lemma checkServiceType_other (config : Config.t) :
  Service.Type_ (Config.Service config) ≠ "" ->
  Service.Type_ (Config.Service config) ≠ ProxyType ->
  checkServiceType config
  = Fail ("service type is overwritten. It's not proxy its '"
          +:+ Service.Type_ (Config.Service config) +:+ "'") config.
Proof.
  intros Hne Hty. unfold checkServiceType.
  rewrite decide_False by (by rewrite len_zero).
  by rewrite decide_False.
Qed.

(** The controllers that the orchestrator makes up. *)
Lemma prepareSteps_synthesize (service : ProxyService.t) (src : Source.t)
    (base : Service.t) :
  let config := ProxyService.configuration service in
  let k := Config.allocated config in
  let dstType :=
    ProxyController.requiredDestination (ProxyService.Controller service) in
  let source0 := Controller.mk (Source.ControllerType src) SourceName [] in
  let destination0 := Controller.mk dstType DestinationName [] in
  let source1 :=
    synthesized (Source.ControllerType src) SourceName (FreePort k) in
  let destination1 :=
    synthesized dstType DestinationName (FreePort (S k)) in
  checkServiceType config = Next base ->
  selectControllers (Service.Controllers base)
  = (Controller.zero, Controller.zero) ->
  ProxyService.source service = Some src ->
  prepareSteps service
  = Next (Config.mk (Config.Name config)
            (SetController destination1
               (SetController source1
                  (Service.withControllers base
                     ((Service.Controllers base ++ [source0])
                        ++ [destination0]))))
            (S (S k))).
Proof.
  intros config k dstType source0 destination0 source1 destination1
         Hbase Hsel Hsrc.
  unfold prepareSteps. fold config. rewrite Hbase. simpl.
  rewrite Hsel, Hsrc. reflexivity.
Qed.

(** The controllers that the orchestrator finds complete. *)
Lemma prepareSteps_found (service : ProxyService.t) (src : Source.t)
    (base : Service.t) (sourceConfig destinationConfig : Controller.t) :
  let config := ProxyService.configuration service in
  let dstType :=
    ProxyController.requiredDestination (ProxyService.Controller service) in
  checkServiceType config = Next base ->
  selectControllers (Service.Controllers base)
  = (sourceConfig, destinationConfig) ->
  ProxyService.source service = Some src ->
  Controller.Type_ sourceConfig = Source.ControllerType src ->
  Controller.Type_ destinationConfig = dstType ->
  Source.ControllerType src ≠ "" -> dstType ≠ "" ->
  (exists i, Controller.Instances sourceConfig !! 0%nat = Some i /\
             ControllerInstance.Port i ≠ 0) ->
  (exists i, Controller.Instances destinationConfig !! 0%nat = Some i /\
             ControllerInstance.Port i ≠ 0) ->
  prepareSteps service
  = Next (Config.withService config
            (SetController destinationConfig
               (SetController sourceConfig base))).
Proof.
  intros config dstType Hbase Hsel Hsrc Hst Hdt Hsne Hdne
         (i & Hi & Hip) (j & Hj & Hjp).
  unfold prepareSteps. fold config. rewrite Hbase. simpl.
  rewrite Hsel, Hsrc. simpl.
  unfold checkSource.
  rewrite decide_False by (rewrite len_zero; congruence).
  rewrite decide_True by done. simpl.
  unfold checkDestination.
  rewrite decide_False by (rewrite len_zero; congruence).
  rewrite decide_True by done. simpl.
  unfold checkInstances.
  destruct (Controller.Instances sourceConfig) as [|i' ?]; [done|].
  injection Hi as ->. rewrite decide_False by done. simpl.
  destruct (Controller.Instances destinationConfig) as [|j' ?]; [done|].
  injection Hj as ->. rewrite decide_False by done. reflexivity.
Qed.


(** [Prepare] after a [prepareConfiguration] that returned nil: the
    registrations touch the source and the proxy's controller only. *)
Lemma Prepare_next (service : ProxyService.t) (src : Source.t)
    (config' : Config.t) :
  ProxyService.source service = Some src ->
  ProxyController.requiredDestination (ProxyService.Controller service)
  ≠ UnknownType ->
  prepareSteps service = Next config' ->
  exists service' src',
    Prepare service = Returned None service' /\
    ProxyService.configuration service' = config' /\
    ProxyService.source service' = Some src' /\
    Source.ControllerType src' = Source.ControllerType src /\
    ProxyController.requiredDestination (ProxyService.Controller service')
    = ProxyController.requiredDestination (ProxyService.Controller service).
Proof.
  intros Hsrc Hdst Hsteps.
  unfold Prepare, prepareConfiguration.
  rewrite Hsrc, decide_False, Hsteps by done.
  unfold registerSource, registerDestination, onSource. simpl.
  destruct (findController DestinationName _); simpl;
    destruct (findController SourceName _); simpl; rewrite Hsrc; simpl;
    eexists _, _; repeat split.
Qed.

Lemma Prepare_fail (service : ProxyService.t) (src : Source.t)
    (err : string) (config' : Config.t) :
  ProxyService.source service = Some src ->
  ProxyController.requiredDestination (ProxyService.Controller service)
  ≠ UnknownType ->
  prepareSteps service = Fail err config' ->
  Prepare service
  = Returned (Some ("prepareConfiguration: " +:+ err))
             (ProxyService.withConfiguration service config').
Proof.
  intros Hsrc Hdst Hsteps. unfold Prepare, prepareConfiguration.
  by rewrite Hsrc, decide_False, Hsteps.
Qed.









Lemma fold_pick_keeps_source (after : list Controller.t)
    (found : Controller.t * Controller.t) :
  (forall c, c ∈ after -> Controller.Name c ≠ SourceName) ->
  (fold_left pick after found).1 = found.1.
Proof.
  revert found. induction after as [|a after IH]; intros found Hafter; [done|].
  cbn [fold_left]. rewrite IH by (intros c Hin; apply Hafter; by right).
  unfold pick. destruct found as [s0 d0].
  rewrite decide_False by (apply Hafter; left).
  by destruct (decide (Controller.Name a = DestinationName)).
Qed.

(** The last controller of a name is the one the loop keeps. *)
Lemma selectControllers_last_source (before after : list Controller.t)
    (c : Controller.t) :
  Controller.Name c = SourceName ->
  (forall c', c' ∈ after -> Controller.Name c' ≠ SourceName) ->
  (selectControllers (before ++ c :: after)).1 = c.
Proof.
  intros Hname Hafter. unfold selectControllers.
  rewrite fold_left_app. cbn [fold_left].
  rewrite fold_pick_keeps_source by done.
  unfold pick. destruct (fold_left _ before _) as [s0 d0].
  by rewrite decide_True.
Qed.

(** C2, as amended. When the declared service type is not empty, and the
    last controller named [source] has a type that is not empty and a first
    instance on port 0, [Prepare] returns an error and leaves the proxy as
    it was: the configuration has no destination controller or instance
    added, and no port was drawn. *)
Theorem Prepare_source_port_zero (service : ProxyService.t)
    (before after : list Controller.t) (sourceConfig : Controller.t)
    (first : ControllerInstance.t) (rest : list ControllerInstance.t) :
  let declared := Config.Service (ProxyService.configuration service) in
  Service.Type_ declared ≠ "" ->
  Service.Controllers declared = before ++ sourceConfig :: after ->
  Controller.Name sourceConfig = SourceName ->
  (forall c, c ∈ after -> Controller.Name c ≠ SourceName) ->
  Controller.Type_ sourceConfig ≠ "" ->
  Controller.Instances sourceConfig = first :: rest ->
  ControllerInstance.Port first = 0 ->
  exists msg, Prepare service = Returned (Some msg) service.
Proof.
  intros declared Hty Hcs Hname Hafter Hct Hinst Hport.
  unfold Prepare.
  destruct (ProxyService.source service) as [src|] eqn:Hsrc; [|eauto].
  destruct (decide (_ = UnknownType)) as [|Hdst]; [eauto|].
  assert (exists err,
            prepareSteps service
            = Fail err (ProxyService.configuration service)) as [err Hsteps].
  { unfold prepareSteps, checkServiceType. fold declared.
    rewrite decide_False by (by rewrite len_zero).
    destruct (decide (Service.Type_ declared = ProxyType)); [|simpl; eauto].
    simpl.
    pose proof (selectControllers_last_source before after sourceConfig
                  Hname Hafter) as Hsel.
    rewrite <- Hcs in Hsel.
    destruct (selectControllers (Service.Controllers declared))
      as [sc dc]. simpl in Hsel. subst sc.
    rewrite Hsrc. simpl. unfold checkSource.
    rewrite decide_False by (by rewrite len_zero).
    destruct (decide (Controller.Type_ sourceConfig = _)); [|simpl; eauto].
    simpl. unfold checkDestination.
    destruct (decide (len (Controller.Type_ dc) = 0%nat)); simpl.
    - unfold checkInstances. rewrite Hinst, decide_True by done. simpl. eauto.
    - destruct (decide (Controller.Type_ dc = _)); [|simpl; eauto].
      simpl. unfold checkInstances.
      rewrite Hinst, decide_True by done. simpl. eauto. }
  unfold prepareConfiguration. rewrite Hsteps, withConfiguration_same. eauto.
Qed.


Lemma checkServiceType_lost (config : Config.t) :
  Service.Type_ (Config.Service config) = "" ->
  GetCurrentPath.2 ≠ None ->
  checkServiceType config = Fatal.
Proof.
  intros Hty Hpath. unfold checkServiceType.
  rewrite decide_True by (by apply len_zero).
  by destruct GetCurrentPath as [exePath [e|]].
Qed.

Lemma Prepare_exits (service : ProxyService.t) (src : Source.t) :
  ProxyService.source service = Some src ->
  ProxyController.requiredDestination (ProxyService.Controller service)
  ≠ UnknownType ->
  prepareSteps service = Fatal ->
  Prepare service = Exited.
Proof.
  intros Hsrc Hdst Hsteps. unfold Prepare, prepareConfiguration.
  by rewrite Hsrc, decide_False, Hsteps.
Qed.

(** C10, as amended. When the declared service type is empty and the path
    of the executable is at hand, [prepareConfiguration], on a proxy that
    has a source, goes on with a service made of the proxy type, that path
    as url and the generated instance name, with no controller, proxy,
    extension or pipeline: what was declared beside the empty type is gone
    before the source and the destination are looked up. The two
    controllers it makes up are appended to that service and handed to
    [SetController], and the result is stored. When the path of the
    executable cannot be found the process exits and nothing is replaced;
    on a proxy without a source the call panics. *)
Theorem empty_type_starts_afresh (service : ProxyService.t) :
  let config := ProxyService.configuration service in
  let k := Config.allocated config in
  let dstType :=
    ProxyController.requiredDestination (ProxyService.Controller service) in
  Service.Type_ (Config.Service config) = "" ->
  (forall (src : Source.t) (exePath : string),
     let srcType := Source.ControllerType src in
     let fresh :=
       Service.mk ProxyType "" exePath (Config.Name config +:+ " 1")
                  [] [] [] [] in
     GetCurrentPath = (exePath, None) ->
     ProxyService.source service = Some src ->
     checkServiceType config = Next fresh /\
     prepareConfiguration service
     = Returned None
         (ProxyService.withConfiguration service
            (Config.mk (Config.Name config)
               (SetController
                  (synthesized dstType DestinationName (FreePort (S k)))
                  (SetController (synthesized srcType SourceName (FreePort k))
                     (Service.withControllers fresh
                        [Controller.mk srcType SourceName [];
                         Controller.mk dstType DestinationName []])))
               (S (S k))))) /\
  (GetCurrentPath.2 ≠ None -> prepareConfiguration service = Exited) /\
  (GetCurrentPath.2 = None -> ProxyService.source service = None ->
   prepareConfiguration service = Panicked).
Proof.
  intros config k dstType Hty. split; [|split].
  - intros src exePath srcType fresh Hpath Hsrc.
    pose proof (checkServiceType_empty config exePath Hty Hpath) as Hbase.
    split; [exact Hbase|].
    unfold prepareConfiguration.
    by rewrite (prepareSteps_synthesize service src fresh Hbase eq_refl Hsrc).
  - intros Hpath. unfold prepareConfiguration, prepareSteps. fold config.
    by rewrite (checkServiceType_lost config Hty Hpath).
  - intros Hpath Hsrc. destruct GetCurrentPath as [exePath e] eqn:E.
    simpl in Hpath. subst e.
    unfold prepareConfiguration, prepareSteps. fold config.
    rewrite (checkServiceType_empty config exePath Hty E). simpl.
    by rewrite Hsrc.
Qed.

(** C3, as amended. For a proxy with a source and a required destination:
    if the declared service type is empty and the path of the executable is
    at hand, the check of the type goes on, without an error, with a
    service of the proxy type whose instance name is the configuration's
    name followed by [ 1], and [Prepare] returns nil; the stored service
    has that type and instance name when [SetController] leaves them
    alone. If the declared type is empty and the path of the executable
    cannot be found, the process exits. If the declared type is neither
    empty nor the proxy type, [Prepare] returns the error of the type
    check, and the proxy is as it was. *)
Theorem Prepare_service_type (service : ProxyService.t) (src : Source.t) :
  let config := ProxyService.configuration service in
  let declared := Config.Service config in
  ProxyService.source service = Some src ->
  ProxyController.requiredDestination (ProxyService.Controller service)
  ≠ UnknownType ->
  (forall exePath : string,
     Service.Type_ declared = "" ->
     GetCurrentPath = (exePath, None) ->
     checkServiceType config
     = Next (Service.mk ProxyType "" exePath (Config.Name config +:+ " 1")
                        [] [] [] []) /\
     exists service',
       Prepare service = Returned None service' /\
       ((forall c s, Service.Type_ (SetController c s) = Service.Type_ s /\
                     Service.Instance (SetController c s) = Service.Instance s) ->
        let completed := Config.Service (ProxyService.configuration service') in
        Service.Type_ completed = ProxyType /\
        Service.Instance completed = Config.Name config +:+ " 1")) /\
  (Service.Type_ declared = "" -> GetCurrentPath.2 ≠ None ->
   Prepare service = Exited) /\
  (Service.Type_ declared ≠ "" ->
   Service.Type_ declared ≠ ProxyType ->
   Prepare service
   = Returned
       (Some ("prepareConfiguration: "
              +:+ "service type is overwritten. It's not proxy its '"
              +:+ Service.Type_ declared +:+ "'"))
       service).
Proof.
  intros config declared Hsrc Hdst. split; [|split].
  - intros exePath Hty Hpath.
    pose proof (checkServiceType_empty config exePath Hty Hpath) as Hbase.
    split; [exact Hbase|].
    pose proof (prepareSteps_synthesize service src _ Hbase eq_refl Hsrc)
      as Hsteps.
    destruct (Prepare_next service src _ Hsrc Hdst Hsteps)
      as (service' & _ & Hprep & Hconf & _).
    exists service'. split; [exact Hprep|]. intros Hframe.
    rewrite Hconf. simpl. split.
    + by rewrite !(proj1 (Hframe _ _)).
    + by rewrite !(proj2 (Hframe _ _)).
  - intros Hty Hpath. apply (Prepare_exits service src Hsrc Hdst).
    unfold prepareSteps. fold config.
    by rewrite (checkServiceType_lost config Hty Hpath).
  - intros Hne Hty.
    assert (prepareSteps service
            = Fail ("service type is overwritten. It's not proxy its '"
                    +:+ Service.Type_ declared +:+ "'") config) as Hsteps.
    { unfold prepareSteps. fold config.
      by rewrite (checkServiceType_other config Hne Hty). }
    rewrite (Prepare_fail service src _ _ Hsrc Hdst Hsteps).
    by rewrite withConfiguration_same.
Qed.

End OrchestratorFacts.


(** With [SetController] appending, the second [Prepare] still returns nil
    and draws no port, and the service has two controllers more. *)
Example Prepare_twice_appending :
  let declared := Service.mk "proxy" "edge" "" "edge 1" [] [] [] [] in
  exists service1 service2,
    @Prepare (sampleExternals appendController) (edge declared)
    = Returned None service1 /\
    @Prepare (sampleExternals appendController) service1
    = Returned None service2 /\
    Config.allocated (ProxyService.configuration service1) = 2%nat /\
    Config.allocated (ProxyService.configuration service2) = 2%nat /\
    length (Service.Controllers
              (Config.Service (ProxyService.configuration service1))) = 4%nat /\
    length (Service.Controllers
              (Config.Service (ProxyService.configuration service2))) = 6%nat.
Proof.
  intros declared. eexists _, _.
  split; [vm_compute; reflexivity|].
  split; [vm_compute; reflexivity|].
  repeat split.
Qed.

(** With an allocator that yields port 0 the two controllers are made up
    on port 0, and the second [Prepare] returns the error of the port. *)
Example Prepare_twice_with_port_zero :
  let declared := Service.mk "proxy" "edge" "" "edge 1" [] [] [] [] in
  exists service1,
    @Prepare zeroPortExternals (edge declared) = Returned None service1 /\
    Service.Controllers (Config.Service (ProxyService.configuration service1))
    = [Controller.mk "Replier" "source"
         [ControllerInstance.mk 0 "source" "source1"];
       Controller.mk "Pusher" "destination"
         [ControllerInstance.mk 0 "destination" "destination1"]] /\
    @Prepare zeroPortExternals service1
    = Returned
        (Some "prepareConfiguration: the port should not be 0 in the source")
        service1.
Proof.
  intros declared. eexists.
  split; [vm_compute; reflexivity|]. split; reflexivity.
Qed.

(** With a source whose type is the empty string, the second [Prepare]
    takes the source it made up as absent and draws a port more. *)
Example Prepare_twice_with_untyped_source :
  let declared := Service.mk "proxy" "edge" "" "edge 1" [] [] [] [] in
  let service :=
    ProxyService.mk (Config.mk "edge" declared 0)
      (Some (Source.mk "" [])) (ProxyController.mk "Pusher" []) in
  exists service1 service2,
    @Prepare (sampleExternals replaceController) service
    = Returned None service1 /\
    @Prepare (sampleExternals replaceController) service1
    = Returned None service2 /\
    Config.allocated (ProxyService.configuration service1) = 2%nat /\
    Config.allocated (ProxyService.configuration service2) = 3%nat.
Proof.
  intros declared service. eexists _, _.
  split; [vm_compute; reflexivity|].
  split; [vm_compute; reflexivity|]. split; reflexivity.
Qed.

(** A proxy that is not set up: without a required destination [Prepare]
    returns an error before it looks at the configuration. *)
Example Prepare_without_required_destination :
  let declared := Service.mk "proxy" "edge" "" "edge 1" [] [] [] [] in
  let service :=
    ProxyService.mk (Config.mk "edge" declared 0)
      (Some (Source.mk "Replier" [])) (ProxyController.mk "" []) in
  @Prepare (sampleExternals replaceController) service
  = Returned
      (Some "missing the required destination. call service.Controller.RequireDestination")
      service.
Proof. reflexivity. Qed.


Lemma Prepare_source_port_zero_witness :
  let declared :=
    Service.mk "proxy" "edge" "" "edge 1"
      [Controller.mk "Replier" "source"
         [ControllerInstance.mk 0 "source" "source1"]] [] [] [] in
  @Prepare (sampleExternals replaceController) (edge declared)
  = Returned (Some "prepareConfiguration: the port should not be 0 in the source")
             (edge declared).
Proof.
  intros declared.
  destruct (@Prepare_source_port_zero (sampleExternals replaceController)
              (edge declared) [] []
              (Controller.mk "Replier" "source"
                 [ControllerInstance.mk 0 "source" "source1"])
              (ControllerInstance.mk 0 "source" "source1") [])
    as [msg Hmsg].
  - discriminate.
  - reflexivity.
  - reflexivity.
  - intros c Hin. by apply elem_of_nil in Hin.
  - discriminate.
  - reflexivity.
  - reflexivity.
  - rewrite Hmsg. vm_compute in Hmsg. by injection Hmsg as <-.
Defined.

(** C2 as it is worded fails: when the declared service type is empty, the
    declared source on port 0 is dropped with the rest of the declaration;
    [Prepare] returns nil, and both controllers are made up on two fresh
    ports. *)
Lemma Prepare_drops_source_declared_with_empty_type :
  let zeroPort := Controller.mk "Replier" "source"
                    [ControllerInstance.mk 0 "source" "source1"] in
  let declared := Service.mk "" "edge" "" "edge 1" [zeroPort] [] [] [] in
  exists service',
    zeroPort ∈ Service.Controllers declared /\
    @Prepare (sampleExternals replaceController) (edge declared)
    = Returned None service' /\
    Config.allocated (ProxyService.configuration service') = 2%nat /\
    Service.Controllers (Config.Service (ProxyService.configuration service'))
    = [Controller.mk "Replier" "source"
         [ControllerInstance.mk 8000 "source" "source1"];
       Controller.mk "Pusher" "destination"
         [ControllerInstance.mk 8001 "destination" "destination1"]].
Proof.
  intros zeroPort declared. eexists. split; [left|].
  split; [vm_compute; reflexivity|]. split; reflexivity.
Qed.

(** A declared source whose own type is empty is taken as absent. *)
Example Prepare_replaces_source_without_type :
  let declared :=
    Service.mk "proxy" "edge" "" "edge 1"
      [Controller.mk "" "source" [ControllerInstance.mk 0 "source" "source1"]]
      [] [] [] in
  exists service',
    @Prepare (sampleExternals replaceController) (edge declared)
    = Returned None service' /\
    Config.allocated (ProxyService.configuration service') = 2%nat.
Proof. eexists. split; [vm_compute; reflexivity | reflexivity]. Qed.

(** Of two controllers named source the loop keeps the last. *)
Example Prepare_keeps_last_source :
  let declared :=
    Service.mk "proxy" "edge" "" "edge 1"
      [Controller.mk "Replier" "source" [ControllerInstance.mk 0 "source" "a"];
       Controller.mk "Replier" "source" [ControllerInstance.mk 4000 "source" "b"]]
      [] [] [] in
  exists service',
    @Prepare (sampleExternals appendController) (edge declared)
    = Returned None service'.
Proof. eexists. vm_compute. reflexivity. Qed.

Lemma empty_type_starts_afresh_witness :
  let declared :=
    Service.mk "" "edge" "old" "old 7"
      [Controller.mk "Replier" "admin" [ControllerInstance.mk 4000 "admin" "admin1"]]
      [Proxy.mk "front" 80] [Extension.mk "cache" "" 4001] ["main"] in
  Config.Service
    (ProxyService.configuration
       (match @prepareConfiguration (sampleExternals appendController)
                (edge declared) with
        | Returned _ service' => service'
        | _ => edge declared
        end))
  = Service.mk "proxy" "" "/srv/proxy" "edge 1"
      [Controller.mk "Replier" "source" [];
       Controller.mk "Pusher" "destination" [];
       Controller.mk "Replier" "source"
         [ControllerInstance.mk 8000 "source" "source1"];
       Controller.mk "Pusher" "destination"
         [ControllerInstance.mk 8001 "destination" "destination1"]]
      [] [] [].
Proof.
  intros declared.
  destruct (@empty_type_starts_afresh (sampleExternals appendController)
              (edge declared)) as [Hfresh _]; [reflexivity|].
  destruct (Hfresh (Source.mk "Replier" []) "/srv/proxy") as [_ Hprep];
    [reflexivity | reflexivity |].
  rewrite Hprep. reflexivity.
Defined.

(** C10 as it is worded fails: when the path of the executable cannot be
    found, [prepareConfiguration] on a service with the empty type ends the
    process; the declared service is not replaced and nothing is made
    up. *)
Lemma prepareConfiguration_without_executable_path :
  let declared :=
    Service.mk "" "edge" "old" "old 7"
      [Controller.mk "Replier" "admin" [ControllerInstance.mk 4000 "admin" "admin1"]]
      [Proxy.mk "front" 80] [Extension.mk "cache" "" 4001] ["main"] in
  Service.Type_ declared = "" /\
  @prepareConfiguration lostExternals (edge declared) = Exited /\
  ~ (exists result service',
       @prepareConfiguration lostExternals (edge declared)
       = Returned result service').
Proof.
  intros declared. split; [reflexivity|]. split; [reflexivity|].
  intros (result & service' & Hret). vm_compute in Hret. discriminate.
Qed.

Lemma Prepare_service_type_witness :
  (exists service',
     @Prepare (sampleExternals appendController)
       (edge (Service.mk "" "edge" "" "" [] [] [] [])) = Returned None service' /\
     Service.Type_ (Config.Service (ProxyService.configuration service'))
     = "proxy" /\
     Service.Instance (Config.Service (ProxyService.configuration service'))
     = "edge 1") /\
  @Prepare lostExternals (edge (Service.mk "" "edge" "" "" [] [] [] []))
  = Exited /\
  @Prepare (sampleExternals appendController)
    (edge (Service.mk "extension" "edge" "" "" [] [] [] []))
  = Returned
      (Some "prepareConfiguration: service type is overwritten. It's not proxy its 'extension'")
      (edge (Service.mk "extension" "edge" "" "" [] [] [] [])).
Proof.
  split; [|split].
  - destruct (@Prepare_service_type (sampleExternals appendController)
                (edge (Service.mk "" "edge" "" "" [] [] [] []))
                (Source.mk "Replier" [])) as [Hempty _];
      [reflexivity | discriminate |].
    destruct (Hempty "/srv/proxy") as (_ & service' & Hprep & Hkept);
      [reflexivity | reflexivity |].
    exists service'. split; [exact Hprep|].
    apply Hkept. intros c s. split; reflexivity.
  - destruct (@Prepare_service_type lostExternals
                (edge (Service.mk "" "edge" "" "" [] [] [] []))
                (Source.mk "Replier" [])) as (_ & Hlost & _);
      [reflexivity | discriminate |].
    apply Hlost; [reflexivity | discriminate].
  - destruct (@Prepare_service_type (sampleExternals appendController)
                (edge (Service.mk "extension" "edge" "" "" [] [] [] []))
                (Source.mk "Replier" [])) as (_ & _ & Hother);
      [reflexivity | discriminate |].
    apply Hother; discriminate.
Defined.

(** C3 as it is worded fails: when the path of the executable cannot be
    found, [Prepare] on a service with the empty type ends the process; it
    returns nothing, and no type is set. *)
Lemma Prepare_without_executable_path :
  let declared := Service.mk "" "edge" "" "" [] [] [] [] in
  Service.Type_ declared = "" /\
  @Prepare lostExternals (edge declared) = Exited /\
  ~ (exists result service',
       @Prepare lostExternals (edge declared) = Returned result service').
Proof.
  intros declared. split; [reflexivity|]. split; [reflexivity|].
  intros (result & service' & Hret). vm_compute in Hret. discriminate.
Qed.

(** ** The categorizer *)

Section CategorizerFacts.
Context `{Upstream}.

Lemma step_fetch_fails (g : nat) (w : World) (gr : Goroutine) (e : string) :
  panicked w = None -> goroutines w !! g = Some gr -> pc gr = AtFetch ->
  RemoteLogFilter g (fetches gr)
    (Smartcontract.CategorizedBlockTimestamp (sm gr))
    [Smartcontract.Address (sm gr)] = inr e ->
  step g w
  = Some (mkWorld
            (<[g := mkGoroutine (sm gr) AtRetrySleep (S (fetches gr)) (sends gr)]>
               (goroutines w))
            (locked w) (inflight w) None
            (trace w ++ [Fetched g (Smartcontract.CategorizedBlockTimestamp (sm gr))
                           [Smartcontract.Address (sm gr)]])).
Proof.
  intros Hp Hg Hpc He. unfold step, stepWith. by rewrite Hp, Hg, Hpc, He.
Qed.

Lemma step_fetch_succeeds (g : nat) (w : World) (gr : Goroutine)
    (new_logs : Logs) :
  panicked w = None -> goroutines w !! g = Some gr -> pc gr = AtFetch ->
  RemoteLogFilter g (fetches gr)
    (Smartcontract.CategorizedBlockTimestamp (sm gr))
    [Smartcontract.Address (sm gr)] = inl new_logs ->
  step g w
  = Some (mkWorld
            (<[g := mkGoroutine (updated (sm gr) new_logs)
                      (AtLock (pushed (sm gr) new_logs))
                      (S (fetches gr)) (sends gr)]> (goroutines w))
            (locked w) (inflight w) None
            (trace w ++ [Fetched g (Smartcontract.CategorizedBlockTimestamp (sm gr))
                           [Smartcontract.Address (sm gr)]])).
Proof.
  intros Hp Hg Hpc He. unfold step, stepWith, pushed, updated.
  rewrite Hp, Hg, Hpc, He. by destruct (RecentBlock new_logs).
Qed.

Lemma runWith_app (mutexOf : nat -> nat) (first second : list nat) (w : World) :
  runWith mutexOf (first ++ second) w
  = match runWith mutexOf first w with
    | Some w' => runWith mutexOf second w'
    | None => None
    end.
Proof.
  revert w. induction first as [|g first IH]; intros w; simpl; [done|].
  by destruct (stepWith mutexOf g w).
Qed.

(** C5, on the code as it is. Each goroutine of [categorize] locks the
    mutex of its own call, so the lock of one does not hold back another:
    when two goroutines have each fetched their logs, the schedule in which
    the first fetches, locks and enters [SendMessage] and the second then
    does the same leaves both inside [SendMessage] on the shared socket. *)
Theorem categorize_sends_overlap (a b : Smartcontract.t) (la lb : Logs) :
  RemoteLogFilter 0 0 (Smartcontract.CategorizedBlockTimestamp a)
    [Smartcontract.Address a] = inl la ->
  RemoteLogFilter 1 0 (Smartcontract.CategorizedBlockTimestamp b)
    [Smartcontract.Address b] = inl lb ->
  exists w,
    run [0; 0; 0; 1; 1; 1]%nat (start [a; b]) = Some w /\
    locked w = [mu 1; mu 0] /\
    inflight w = [1; 0]%nat /\
    Overlap w /\
    trace w
    = [Fetched 0 (Smartcontract.CategorizedBlockTimestamp a)
         [Smartcontract.Address a];
       Locked 0 (mu 0); SendBegan 0 (pushed a la);
       Fetched 1 (Smartcontract.CategorizedBlockTimestamp b)
         [Smartcontract.Address b];
       Locked 1 (mu 1); SendBegan 1 (pushed b lb)].
Proof.
  intros Ha Hb. unfold run, start, pushed, updated. simpl.
  unfold stepWith. simpl.
  rewrite Ha. destruct (RecentBlock la). simpl.
  rewrite Hb. destruct (RecentBlock lb). simpl.
  eexists. split; [reflexivity|]. repeat split. unfold Overlap. simpl. lia.
Qed.

(** *** One mutex for all the goroutines *)

Lemma lookup_update (gs : list Goroutine) (g g2 : nat) (gr gr' x : Goroutine) :
  gs !! g = Some gr -> <[g := gr']> gs !! g2 = Some x ->
  (g2 = g /\ x = gr') \/ (g2 ≠ g /\ gs !! g2 = Some x).
Proof.
  intros Hg Hx. destruct (decide (g2 = g)) as [->|Hne].
  - left. split; [done|].
    rewrite list_lookup_insert_eq in Hx by (by eapply lookup_lt_Some).
    by injection Hx.
  - right. split; [done|]. by rewrite list_lookup_insert_ne in Hx.
Qed.

(** A step that moves goroutine [g] to [p'] and changes neither the
    locked mutexes nor the calls in progress keeps the invariant when
    [g] is outside the critical part before and after. *)
Lemma Exclusive_outside (w : World) (g : nat) (gr : Goroutine)
    (gr' : Goroutine) (t : list Event) :
  Exclusive w -> goroutines w !! g = Some gr ->
  critical (pc gr) = false -> critical (pc gr') = false ->
  Exclusive (mkWorld (<[g := gr']> (goroutines w)) (locked w) (inflight w)
                     None t).
Proof.
  intros [Hone Hlock Hfly] Hg Hout Hout'. split; simpl.
  - intros g1 g2 gr1 gr2 H1 H2 C1 C2.
    destruct (lookup_update _ _ _ _ _ _ Hg H1) as [[-> ->]|[? H1']];
      [congruence|].
    destruct (lookup_update _ _ _ _ _ _ Hg H2) as [[-> ->]|[? H2']];
      [congruence|]. eauto.
  - intros g1 gr1 H1 C1.
    destruct (lookup_update _ _ _ _ _ _ Hg H1) as [[-> ->]|[? H1']];
      [congruence|]. eauto.
  - destruct Hfly as [?|(g' & gr0 & Hin & Hg' & Hs)]; [by left|].
    right. exists g', gr0. split; [done|]. split; [|done].
    rewrite list_lookup_insert_ne; [done|].
    intros ->. rewrite Hg in Hg'. injection Hg' as ->.
    destruct (pc gr0); simpl in *; congruence.
Qed.

Lemma sharedMutex_step (g : nat) (w w' : World) :
  stepWith sharedMutex g w = Some w' ->
  (length (inflight w) <= 1)%nat /\ (panicked w = None -> Exclusive w) ->
  (length (inflight w') <= 1)%nat /\ (panicked w' = None -> Exclusive w').
Proof.
  unfold stepWith. intros Hstep [Hlen Hinv].
  destruct (panicked w) eqn:Hp; [done|]. specialize (Hinv eq_refl).
  destruct (goroutines w !! g) as [gr|] eqn:Hg; [|done].
  assert (forall w0, Exclusive w0 -> (length (inflight w0) <= 1)%nat) as Hshort.
  { intros w0 [_ _ [->|(? & ? & -> & _)]]; simpl; lia. }
  destruct (pc gr) eqn:Hpc.
  - (* AtFetch *)
    destruct (RemoteLogFilter _ _ _ _).
    + destruct (RecentBlock _). injection Hstep as <-.
      split; [done|]. intros _. apply Exclusive_outside with gr; try done.
      by rewrite Hpc.
    + injection Hstep as <-.
      split; [done|]. intros _. apply Exclusive_outside with gr; try done.
      by rewrite Hpc.
  - (* AtRetrySleep *)
    injection Hstep as <-.
    split; [done|]. intros _. apply Exclusive_outside with gr; try done.
    by rewrite Hpc.
  - (* AtLock *)
    destruct (decide (sharedMutex g ∈ locked w)) as [|Hfree]; [done|].
    injection Hstep as <-. destruct Hinv as [Hone Hlock Hfly].
    assert (forall g1 gr1, goroutines w !! g1 = Some gr1 ->
                           critical (pc gr1) = true -> False) as Hnone.
    { intros g1 gr1 H1 C1. apply Hfree. by eapply Hlock. }
    split; [done|]. intros _. split; simpl.
    + intros g1 g2 gr1 gr2 H1 H2 C1 C2.
      destruct (lookup_update _ _ _ _ _ _ Hg H1) as [[-> ->]|[? H1']];
        [|exfalso; eauto].
      destruct (lookup_update _ _ _ _ _ _ Hg H2) as [[-> ->]|[? H2']];
        [done|exfalso; eauto].
    + intros. left.
    + destruct Hfly as [?|(g' & gr0 & Hin & Hg' & Hs)]; [by left|].
      exfalso. apply (Hnone g' gr0 Hg'). by destruct (pc gr0).
  - (* AtSend *)
    injection Hstep as <-. destruct Hinv as [Hone Hlock Hfly].
    assert (critical (pc gr) = true) as Hcrit by (by rewrite Hpc).
    assert (inflight w = []) as Hempty.
    { destruct Hfly as [?|(g' & gr0 & Hin & Hg' & Hs)]; [done|].
      assert (g' = g) as -> by (eapply Hone; eauto; by destruct (pc gr0)).
      rewrite Hg in Hg'. injection Hg' as <-. by rewrite Hpc in Hs. }
    rewrite Hempty. split; [simpl; lia|]. intros _. split; simpl.
    + intros g1 g2 gr1 gr2 H1 H2 C1 C2.
      destruct (lookup_update _ _ _ _ _ _ Hg H1) as [[-> ->]|[? H1']];
        destruct (lookup_update _ _ _ _ _ _ Hg H2) as [[-> ->]|[? H2']];
        eauto.
    + intros g1 gr1 H1 C1.
      destruct (lookup_update _ _ _ _ _ _ Hg H1) as [[-> ->]|[? H1']]; eauto.
    + right. eexists g, _. split; [done|].
      split; [apply list_lookup_insert_eq; by eapply lookup_lt_Some | done].
  - (* InSend *)
    injection Hstep as <-. destruct Hinv as [Hone Hlock Hfly].
    assert (critical (pc gr) = true) as Hcrit by (by rewrite Hpc).
    assert (filter (fun g' => g' ≠ g) (inflight w) = []) as Hempty.
    { destruct Hfly as [->|(g' & gr0 & -> & Hg' & Hs)]; [done|].
      assert (g' = g) as -> by (eapply Hone; eauto; by destruct (pc gr0)).
      rewrite filter_cons, decide_False by (intros Hne; by apply Hne). done. }
    rewrite Hempty. split; [simpl; lia|]. intros _. split; simpl.
    + intros g1 g2 gr1 gr2 H1 H2 C1 C2.
      destruct (lookup_update _ _ _ _ _ _ Hg H1) as [[-> ->]|[? H1']];
        destruct (lookup_update _ _ _ _ _ _ Hg H2) as [[-> ->]|[? H2']];
        eauto.
    + intros g1 gr1 H1 C1.
      destruct (lookup_update _ _ _ _ _ _ Hg H1) as [[-> ->]|[? H1']]; eauto.
    + by left.
  - (* AtUnlock *)
    destruct Hinv as [Hone Hlock Hfly].
    assert (critical (pc gr) = true) as Hcrit by (by rewrite Hpc).
    assert (inflight w = []) as Hempty.
    { destruct Hfly as [?|(g' & gr0 & Hin & Hg' & Hs)]; [done|].
      assert (g' = g) as -> by (eapply Hone; eauto; by destruct (pc gr0)).
      rewrite Hg in Hg'. injection Hg' as <-. by rewrite Hpc in Hs. }
    destruct err as [msg|]; injection Hstep as <-; simpl.
    + split; [done|]. done.
    + rewrite Hempty. split; [simpl; lia|]. intros _. split; simpl.
      * intros g1 g2 gr1 gr2 H1 H2 C1 C2.
        destruct (lookup_update _ _ _ _ _ _ Hg H1) as [[-> ->]|[Hne H1']];
          [done|]. exfalso. apply Hne. eauto.
      * intros g1 gr1 H1 C1.
        destruct (lookup_update _ _ _ _ _ _ Hg H1) as [[-> ->]|[Hne H1']];
          [done|]. exfalso. apply Hne. eauto.
      * by left.
  - (* AtSleep *)
    injection Hstep as <-.
    split; [done|]. intros _. apply Exclusive_outside with gr; try done.
    by rewrite Hpc.
Qed.

(** With one mutex for all the goroutines, as the spec words the lock, no
    schedule makes two sends overlap. *)
Lemma sharedMutex_excludes (smartcontracts : list Smartcontract.t)
    (schedule : list nat) (w : World) :
  runWith sharedMutex schedule (start smartcontracts) = Some w ->
  ~ Overlap w.
Proof.
  intros Hrun.
  assert ((length (inflight w) <= 1)%nat /\ (panicked w = None -> Exclusive w))
    as [Hlen _]; [|unfold Overlap; lia].
  assert ((length (inflight (start smartcontracts)) <= 1)%nat /\
          (panicked (start smartcontracts) = None ->
           Exclusive (start smartcontracts))) as Hstart.
  { split; [simpl; lia|]. intros _. split; simpl.
    - intros g1 g2 gr1 gr2 H1 _ C1 _.
      rewrite list_lookup_fmap in H1.
      destruct (smartcontracts !! g1); simpl in H1; [|done].
      injection H1 as <-. done.
    - intros g gr H1 C1.
      rewrite list_lookup_fmap in H1.
      destruct (smartcontracts !! g); simpl in H1; [|done].
      injection H1 as <-. done.
    - by left. }
  revert Hrun Hstart. generalize (start smartcontracts).
  induction schedule as [|g schedule IH]; intros w0 Hrun Hinv; simpl in Hrun.
  - by injection Hrun as <-.
  - destruct (stepWith sharedMutex g w0) as [w1|] eqn:Hstep; [|done].
    apply (IH w1 Hrun). by eapply sharedMutex_step.
Qed.
End CategorizerFacts.

Lemma categorize_sends_overlap_witness :
  let upstream := sampleUpstream (fun _ _ => inl [(7, 70)]) (fun _ _ => None) in
  exists w,
    @run upstream [0; 0; 0; 1; 1; 1]%nat (start [nft; coin]) = Some w /\
    inflight w = [1; 0]%nat /\
    trace w = [Fetched 0 0 ["0xA1"]; Locked 0 0; SendBegan 0 "push 0xA1";
               Fetched 1 0 ["0xB2"]; Locked 1 1; SendBegan 1 "push 0xB2"].
Proof.
  intros upstream.
  destruct (@categorize_sends_overlap upstream nft coin [(7, 70)] [(7, 70)])
    as (w & Hrun & _ & Hfly & _ & Htrace); [reflexivity | reflexivity |].
  exists w. split; [exact Hrun|]. split; [exact Hfly | exact Htrace].
Defined.

(** The same schedule under one mutex for all: the second goroutine cannot
    take the lock while the first is sending. *)
Example sharedMutex_blocks_second_sender :
  @runWith (sampleUpstream (fun _ _ => inl [(7, 70)]) (fun _ _ => None))
    sharedMutex [0; 0; 0; 1; 1]%nat (start [nft; coin]) = None.
Proof. reflexivity. Qed.

Section TopologyMore.
Context `{TypeValidators}.

Lemma validateControllers_nil (cs : list Controller.t) :
  validateControllers cs = None <->
  forall c, c ∈ cs -> ValidateControllerType (Controller.Type_ c) = None.
Proof.
  induction cs as [|c cs IH]; simpl.
  - split; [|done]. intros _ c Hin. by apply elem_of_nil in Hin.
  - destruct (ValidateControllerType (Controller.Type_ c)) eqn:E.
    + split; [done|]. intros Hall. specialize (Hall c ltac:(left)). congruence.
    + rewrite IH. split.
      * intros Hall c' Hin. apply elem_of_cons in Hin as [->|Hin]; auto.
      * intros Hall c' Hin. apply Hall. by right.
Qed.

(** X1. [Validate] returns nil exactly when the validator of service types
    accepts the type of the service and the validator of controller types
    accepts the type of every controller. Proxies, extensions and pipelines
    are not looked at. *)
Theorem Validate_nil_iff (s : Service.t) :
  errorOf (Validate s) = None <->
  ValidateServiceType (Service.Type_ s) = None /\
  forall c, c ∈ Service.Controllers s ->
    ValidateControllerType (Controller.Type_ c) = None.
Proof.
  unfold Validate, bind, field, ret, errorOf. simpl.
  destruct (ValidateServiceType (Service.Type_ s)); simpl.
  - split; [done | by intros [? _]].
  - rewrite validateControllers_nil. split; [by split | by intros [_ ?]].
Qed.

Lemma validateControllers_first (before after : list Controller.t)
    (c : Controller.t) (err : string) :
  (forall c', c' ∈ before -> ValidateControllerType (Controller.Type_ c') = None) ->
  ValidateControllerType (Controller.Type_ c) = Some err ->
  validateControllers (before ++ c :: after)
  = Some ("controller.ValidateControllerType: " +:+ err).
Proof.
  intros Hbefore Hc. induction before as [|b before IH]; simpl.
  - by rewrite Hc.
  - rewrite (Hbefore b) by left. apply IH. intros c' Hin. apply Hbefore. by right.
Qed.

(** X2. The order of the checks in [Validate]: a refused service type gives
    the error of the service type whatever the controllers are; with an
    accepted service type, the error is that of the first controller, in
    the order of declaration, whose type is refused. *)
Theorem Validate_reports_first_refusal (s : Service.t) :
  (forall err, ValidateServiceType (Service.Type_ s) = Some err ->
     errorOf (Validate s) = Some ("identity.ValidateServiceType: " +:+ err)) /\
  (forall before c after err,
     ValidateServiceType (Service.Type_ s) = None ->
     Service.Controllers s = before ++ c :: after ->
     (forall c', c' ∈ before ->
        ValidateControllerType (Controller.Type_ c') = None) ->
     ValidateControllerType (Controller.Type_ c) = Some err ->
     errorOf (Validate s)
     = Some ("controller.ValidateControllerType: " +:+ err)).
Proof.
  unfold Validate, bind, field, ret, errorOf. simpl. split.
  - by intros err ->.
  - intros before c after err -> -> Hbefore Hc. simpl.
    by apply validateControllers_first.
Qed.
End TopologyMore.

Lemma Validate_nil_iff_witness :
  errorOf (@Validate sampleValidators
             (Service.mk "proxy" "edge" "" "edge 1"
                [Controller.mk "Replier" "source" [];
                 Controller.mk "Pusher" "destination" []]
                [Proxy.mk "front" 80] [] ["main"])) = None.
Proof.
  apply (@Validate_nil_iff sampleValidators). split; [reflexivity|].
  intros c Hin.
  apply elem_of_cons in Hin as [->|Hin]; [reflexivity|].
  apply list_elem_of_singleton in Hin as ->. reflexivity.
Defined.

Lemma Validate_reports_first_refusal_witness :
  errorOf (@Validate sampleValidators
             (Service.mk "proxy" "edge" "" "edge 1"
                [Controller.mk "Replier" "source" [];
                 Controller.mk "Broadcast" "news" [];
                 Controller.mk "Router" "hub" []]
                [] [] []))
  = Some "controller.ValidateControllerType: 'Broadcast' is not a recognized controller type".
Proof.
  apply (proj2 (@Validate_reports_first_refusal sampleValidators _)
           [Controller.mk "Replier" "source" []]
           (Controller.mk "Broadcast" "news" [])
           [Controller.mk "Router" "hub" []]).
  - reflexivity.
  - reflexivity.
  - intros c Hin. apply list_elem_of_singleton in Hin as ->. reflexivity.
  - reflexivity.
Defined.

(** The controllers of a name, in the order of declaration. *)
Lemma findController_first (name : string) (cs : list Controller.t) :
  findController name cs
  = head (filter (fun c => Controller.Name c = name) cs).
Proof.
  induction cs as [|c cs IH]; simpl; [done|].
  rewrite filter_cons. by destruct (decide (Controller.Name c = name)).
Qed.

Lemma findController_Some (name : string) (cs : list Controller.t)
    (c : Controller.t) :
  findController name cs = Some c <->
  exists before after,
    cs = before ++ c :: after /\ Controller.Name c = name /\
    forall c', c' ∈ before -> Controller.Name c' ≠ name.
Proof.
  split.
  - revert c. induction cs as [|c0 cs IH]; intros c Hf; simpl in Hf; [done|].
    destruct (decide (Controller.Name c0 = name)) as [E|E].
    + injection Hf as <-. exists [], cs. split; [done|]. split; [done|].
      intros c' Hin. by apply elem_of_nil in Hin.
    + destruct (IH c Hf) as (before & after & -> & Hn & Hb).
      exists (c0 :: before), after. split; [done|]. split; [done|].
      intros c' Hin. apply elem_of_cons in Hin as [->|Hin]; auto.
  - intros (before & after & -> & Hn & Hb).
    induction before as [|b before IH]; simpl.
    + by rewrite decide_True.
    + rewrite decide_False by (apply Hb; left).
      apply IH. intros c' Hin. apply Hb. by right.
Qed.

(** X3. [GetController] returns a controller exactly when it is the first
    one of the list, in the order of declaration, that bears the name: with
    several controllers of one name the later ones are never returned. It
    returns a controller or an error, never both and never neither. *)
Theorem GetController_first_match (s : Service.t) (name : string) :
  (forall c,
     GetController s name = (Some c, None) <->
     exists before after,
       Service.Controllers s = before ++ c :: after /\
       Controller.Name c = name /\
       forall c', c' ∈ before -> Controller.Name c' ≠ name) /\
  ((exists c, GetController s name = (Some c, None)) \/
   (exists msg, GetController s name = (None, Some msg))) /\
  ((exists msg, GetController s name = (None, Some msg)) <->
   forall c, c ∈ Service.Controllers s -> Controller.Name c ≠ name).
Proof.
  unfold GetController. split; [|split].
  - intros c. rewrite <- findController_Some.
    destruct (findController name (Service.Controllers s)); split; congruence.
  - destruct (findController name (Service.Controllers s)); eauto.
  - split.
    + intros [msg Hmsg] c Hin Hname.
      destruct (findController name (Service.Controllers s)) eqn:E; [done|].
      apply list_elem_of_split in Hin as (l1 & l2 & Hsplit).
      clear Hmsg. rewrite Hsplit in E. clear Hsplit.
      induction l1 as [|b l1 IH]; simpl in E.
      * by rewrite decide_True in E.
      * destruct (decide (Controller.Name b = name)); [done | auto].
    + intros Hno. rewrite findController_none by done. eauto.
Qed.

Lemma GetController_first_match_witness :
  let first := Controller.mk "Replier" "source" [] in
  let second := Controller.mk "Replier" "source"
                  [ControllerInstance.mk 4000 "source" "source1"] in
  GetController (Service.mk "proxy" "edge" "" "" [first; second] [] [] [])
                "source"
  = (Some first, None).
Proof.
  intros first second.
  apply (proj1 (GetController_first_match _ "source")).
  exists [], [second]. split; [reflexivity|]. split; [reflexivity|].
  intros c Hin. by apply elem_of_nil in Hin.
Defined.

(** X4. [GetFirstController] returns an error exactly when the service has
    no controller, and the message holds the name of the service; otherwise
    it returns the controller declared first, and [GetController] asked for
    the name of that controller returns the same one. *)
Theorem GetFirstController_first (s : Service.t) :
  (Service.Controllers s = [] ->
   exists msg, GetFirstController s = (None, Some msg) /\
               mentions (Service.Name s) msg = true) /\
  (forall c rest,
     Service.Controllers s = c :: rest ->
     GetFirstController s = (Some c, None) /\
     GetController s (Controller.Name c) = (Some c, None)).
Proof.
  unfold GetFirstController, GetController. split.
  - intros ->. eexists. split; [reflexivity|].
    apply (mentions_app_r _ "service '"). apply mentions_head.
  - intros c rest ->. simpl. by rewrite decide_True.
Qed.

Lemma GetFirstController_first_witness :
  GetFirstController (Service.mk "proxy" "edge" "" "" [] [] [] [])
  = (None, Some "service 'edge' doesn't have any controllers in yaml file")
  /\ GetFirstController
       (Service.mk "proxy" "edge" "" ""
          [Controller.mk "Pusher" "destination" [];
           Controller.mk "Replier" "source" []] [] [] [])
     = (Some (Controller.mk "Pusher" "destination" []), None).
Proof.
  split.
  - destruct (proj1 (GetFirstController_first
                       (Service.mk "proxy" "edge" "" "" [] [] [] [])) eq_refl)
      as (msg & Hget & _).
    rewrite Hget. vm_compute in Hget. by injection Hget as <-.
  - apply (proj2 (GetFirstController_first
                    (Service.mk "proxy" "edge" "" ""
                       [Controller.mk "Pusher" "destination" [];
                        Controller.mk "Replier" "source" []] [] [] []))
             _ [Controller.mk "Replier" "source" []] eq_refl).
Defined.

Lemma findExtension_Some (name : string) (es : list Extension.t)
    (e : Extension.t) :
  findExtension name es = Some e <->
  exists before after,
    es = before ++ e :: after /\ Extension.Name e = name /\
    forall e', e' ∈ before -> Extension.Name e' ≠ name.
Proof.
  split.
  - revert e. induction es as [|e0 es IH]; intros e Hf; simpl in Hf; [done|].
    destruct (decide (Extension.Name e0 = name)) as [E|E].
    + injection Hf as <-. exists [], es. split; [done|]. split; [done|].
      intros e' Hin. by apply elem_of_nil in Hin.
    + destruct (IH e Hf) as (before & after & -> & Hn & Hb).
      exists (e0 :: before), after. split; [done|]. split; [done|].
      intros e' Hin. apply elem_of_cons in Hin as [->|Hin]; auto.
  - intros (before & after & -> & Hn & Hb).
    induction before as [|b before IH]; simpl.
    + by rewrite decide_True.
    + rewrite decide_False by (apply Hb; left).
      apply IH. intros e' Hin. apply Hb. by right.
Qed.

(** X5. [GetExtension] returns an extension exactly when it is the first of
    the list that bears the name; the extension returned bears the name
    asked for and belongs to the service. *)
Theorem GetExtension_first_match (s : Service.t) (name : string)
    (e : Extension.t) :
  (GetExtension s name = (Some e, None) <->
   exists before after,
     Service.Extensions s = before ++ e :: after /\
     Extension.Name e = name /\
     forall e', e' ∈ before -> Extension.Name e' ≠ name) /\
  (GetExtension s name = (Some e, None) ->
   Extension.Name e = name /\ e ∈ Service.Extensions s).
Proof.
  assert (GetExtension s name = (Some e, None) <->
          findExtension name (Service.Extensions s) = Some e) as Hget.
  { unfold GetExtension.
    destruct (findExtension name (Service.Extensions s)); split; congruence. }
  split.
  - by rewrite Hget, findExtension_Some.
  - rewrite Hget, findExtension_Some.
    intros (before & after & -> & Hn & _). split; [done|].
    apply elem_of_app. right. left.
Qed.

Lemma GetExtension_first_match_witness :
  GetExtension
    (Service.mk "proxy" "edge" "" "" [] []
       [Extension.mk "cache" "" 4000; Extension.mk "cache" "" 4001] [])
    "cache"
  = (Some (Extension.mk "cache" "" 4000), None).
Proof.
  apply (proj1 (GetExtension_first_match _ "cache" (Extension.mk "cache" "" 4000))).
  exists [], [Extension.mk "cache" "" 4001].
  split; [reflexivity|]. split; [reflexivity|].
  intros e Hin. by apply elem_of_nil in Hin.
Defined.

(** ** The execution context *)

(** X6. [Host] answers [localhost] for the type [development] and for no
    other: every other type, the empty and the unknown ones included, gets
    [0.0.0.0]. The context that [setDevContext] installs has the type
    [development], hence the host [localhost], and the three paths that the
    configuration holds under the three keys, whatever context was there
    before; a context fresh from [newContext] has no type yet and the host
    [0.0.0.0]. *)
Theorem Host_of_made_contexts (config : ContextConfig.t) (context : Context.t) :
  (Host context = "localhost" <-> Context.Type_ context = DevContext) /\
  (Host context = "0.0.0.0" <-> Context.Type_ context ≠ DevContext) /\
  (Context.Type_ (newContext config) = "") /\
  Host (newContext config) = "0.0.0.0" /\
  exists made,
    ContextConfig.Context (setDevContext config) = Some made /\
    Host made = "localhost" /\
    (Context.Src made = ContextConfig.viper config "SERVICE_DEPS_SRC") /\
    (Context.Bin made = ContextConfig.viper config "SERVICE_DEPS_BIN") /\
    (Context.Data made = ContextConfig.viper config "SERVICE_DEPS_DATA").
Proof.
  unfold Host. split; [|split; [|split; [|split]]].
  - destruct (decide (Context.Type_ context = DevContext)); split; done.
  - destruct (decide (Context.Type_ context = DevContext)); split; done.
  - reflexivity.
  - reflexivity.
  - eexists. split; [reflexivity|]. by repeat split.
Qed.

(** ** The orchestrator: conversion, sources, and what [Prepare] keeps *)

Section ConversionFacts.
Context `{Externals}.


End ConversionFacts.


Section SourceFacts.
Context `{Externals} `{ControllerPackage}.

(** X8. The call sequence of the orchestrator. [Prepare] on a proxy straight
    from [New] returns the error that asks for [SetDefaultSource], and the
    proxy stays as it was. [SetDefaultSource] returns nil exactly when the
    type is the replier type and [NewReplier] gave a controller, or the type
    is the pusher type (and not the replier type) and [NewPull] gave one;
    the proxy then has that controller for source and nothing else changed.
    When it returns an error the proxy is as it was, and for a type that is
    neither of the two the message holds the type. *)
Theorem source_call_sequence (config : Config.t) (service : ProxyService.t)
    (controllerType : string) :
  Prepare (New config)
  = Returned (Some "missing source. call service.SetDefaultSource")
             (New config) /\
  (forall service',
     SetDefaultSource service controllerType = (None, service') <->
     exists source,
       service' = ProxyService.withSource service (Some source) /\
       ((controllerType = ReplierType /\ NewReplier = inl source) \/
        (controllerType ≠ ReplierType /\ controllerType = PusherType /\
         NewPull = inl source))) /\
  (forall err service',
     SetDefaultSource service controllerType = (Some err, service') ->
     service' = service) /\
  (controllerType ≠ ReplierType -> controllerType ≠ PusherType ->
   exists err,
     SetDefaultSource service controllerType = (Some err, service) /\
     mentions controllerType err = true).
Proof.
  split; [reflexivity|]. unfold SetDefaultSource, SetCustomSource.
  split; [|split].
  - intros service'.
    destruct (decide (controllerType = ReplierType)) as [Hr|Hr].
    + destruct NewReplier as [source|err] eqn:E; split.
      * intros [= <-]. exists source. split; [done|]. by left.
      * intros (source' & -> & [[_ [= <-]]|[? _]]); done.
      * done.
      * intros (source' & -> & [[_ ?]|[? _]]); done.
    + destruct (decide (controllerType = PusherType)) as [Hp|Hp].
      * destruct NewPull as [source|err] eqn:E; split.
        -- intros [= <-]. exists source. split; [done|]. by right.
        -- intros (source' & -> & [[? _]|(_ & _ & [= <-])]); done.
        -- done.
        -- intros (source' & -> & [[? _]|(_ & _ & ?)]); done.
      * split; [done|]. intros (source' & -> & [[? _]|(_ & ? & _)]); done.
  - intros err service'.
    destruct (decide (controllerType = ReplierType)).
    + destruct NewReplier; simpl; congruence.
    + destruct (decide (controllerType = PusherType)).
      * destruct NewPull; simpl; congruence.
      * congruence.
  - intros Hr Hp. rewrite !decide_False by done.
    eexists. split; [reflexivity|].
    apply (mentions_app_r _ "the '"). apply mentions_head.
Qed.
End SourceFacts.

Lemma source_call_sequence_witness :
  @SetDefaultSource sampleControllers (@New sampleControllers (Config.mk "edge"
     (Service.mk "" "" "" "" [] [] [] []) 0)) "Replier"
  = (None,
     ProxyService.mk (Config.mk "edge" (Service.mk "" "" "" "" [] [] [] []) 0)
       (Some (Source.mk "Replier" [])) (ProxyController.mk "" []))
  /\ (exists err,
        @SetDefaultSource sampleControllers
          (edge (Service.mk "" "" "" "" [] [] [] [])) "Publisher"
        = (Some err, edge (Service.mk "" "" "" "" [] [] [] [])) /\
        mentions "Publisher" err = true).
Proof.
  split.
  - apply (proj1 (proj2 (@source_call_sequence (sampleExternals appendController)
                           sampleControllers
                           (Config.mk "edge" (Service.mk "" "" "" "" [] [] [] []) 0)
                           _ "Replier"))).
    exists (Source.mk "Replier" []). split; [reflexivity|]. left. by split.
  - apply (proj2 (proj2 (proj2 (@source_call_sequence
                           (sampleExternals appendController) sampleControllers
                           (Config.mk "edge" (Service.mk "" "" "" "" [] [] [] []) 0)
                           _ "Publisher"))));
      discriminate.
Defined.

Section PrepareFacts.
Context `{Externals}.

Lemma checkInstances_cases (config : Config.t) (c : Controller.t) :
  match checkInstances config c with
  | Next (config', c') =>
      Config.Name config' = Config.Name config /\
      Config.Service config' = Config.Service config /\
      Controller.Name c' = Controller.Name c /\
      Controller.Type_ c' = Controller.Type_ c /\
      ((Controller.Instances c = [] /\
        Config.allocated config' = S (Config.allocated config) /\
        Controller.Instances c'
        = [ControllerInstance.mk (uint64 (FreePort (Config.allocated config)))
             (Controller.Name c) (Controller.Name c +:+ "1")]) \/
       (Controller.Instances c ≠ [] /\ config' = config /\ c' = c))
  | Fail err config' =>
      config' = config /\ err = "the port should not be 0 in the source" /\
      exists first, Controller.Instances c !! 0%nat = Some first /\
                    ControllerInstance.Port first = 0
  | Fatal | Panic => False
  end.
Proof.
  unfold checkInstances.
  destruct (Controller.Instances c) as [|first rest] eqn:E; simpl.
  - repeat split. by left.
  - destruct (decide (ControllerInstance.Port first = 0)).
    + repeat split. eauto.
    + repeat split. by right.
Qed.

(** What the body of [prepareConfiguration] can come to. *)
Lemma prepareSteps_cases (service : ProxyService.t) :
  let config := ProxyService.configuration service in
  match prepareSteps service with
  | Next config' =>
      Config.Name config' = Config.Name config /\
      (Config.allocated config <= Config.allocated config'
       <= Config.allocated config + 2)%nat /\
      ProxyService.source service ≠ None
  | Fail err config' =>
      Config.Name config' = Config.Name config /\
      Config.Service config' = Config.Service config /\
      (Config.allocated config' = Config.allocated config \/
       Config.allocated config' = S (Config.allocated config))
  | Fatal =>
      Service.Type_ (Config.Service config) = "" /\ GetCurrentPath.2 ≠ None
  | Panic => ProxyService.source service = None
  end.
Proof.
  intros config. unfold prepareSteps. fold config.
  unfold checkServiceType.
  destruct (decide (len (Service.Type_ (Config.Service config)) = 0%nat))
    as [Hlen|Hlen].
  { destruct GetCurrentPath as [exePath [e|]] eqn:Hpath; simpl.
    { split; [by apply len_zero | done]. }
    destruct (ProxyService.source service) as [src|]; simpl; [|done].
    repeat split; simpl; try lia. done. }
  destruct (decide (Service.Type_ (Config.Service config) = ProxyType));
    simpl; [|by repeat split; auto].
  destruct (selectControllers _) as [sc dc].
  destruct (ProxyService.source service) as [src|]; simpl; [|done].
  unfold checkSource.
  assert (forall service0 sc0,
    match
      '(serviceConfig, destinationConfig) ←
        checkDestination config
          (ProxyController.requiredDestination (ProxyService.Controller service))
          service0 dc;
      '(config0, sourceConfig) ← checkInstances config sc0;
      '(config1, destinationConfig0) ← checkInstances config0 destinationConfig;
      Next (Config.withService config1
              (SetController destinationConfig0
                 (SetController sourceConfig serviceConfig)))
    with
    | Next config' =>
        Config.Name config' = Config.Name config /\
        (Config.allocated config <= Config.allocated config'
         <= Config.allocated config + 2)%nat /\ Some src ≠ None
    | Fail _ config' =>
        Config.Name config' = Config.Name config /\
        Config.Service config' = Config.Service config /\
        (Config.allocated config' = Config.allocated config \/
         Config.allocated config' = S (Config.allocated config))
    | Fatal => Service.Type_ (Config.Service config) = "" /\ GetCurrentPath.2 ≠ None
    | Panic => Some src = None
    end) as Hrest.
  { intros service0 sc0.
    assert (forall service1 dc1,
      match
        '(config0, sourceConfig) ← checkInstances config sc0;
        '(config1, destinationConfig0) ← checkInstances config0 dc1;
        Next (Config.withService config1
                (SetController destinationConfig0
                   (SetController sourceConfig service1)))
      with
      | Next config' =>
          Config.Name config' = Config.Name config /\
          (Config.allocated config <= Config.allocated config'
           <= Config.allocated config + 2)%nat /\ Some src ≠ None
      | Fail _ config' =>
          Config.Name config' = Config.Name config /\
          Config.Service config' = Config.Service config /\
          (Config.allocated config' = Config.allocated config \/
           Config.allocated config' = S (Config.allocated config))
      | Fatal => Service.Type_ (Config.Service config) = "" /\ GetCurrentPath.2 ≠ None
      | Panic => Some src = None
      end) as Hinst.
    { intros service1 dc1.
      pose proof (checkInstances_cases config sc0) as H1.
      destruct (checkInstances config sc0) as [[config0 sc1]|e0 c0| |];
        simpl; [|by destruct H1 as (-> & _); auto|done|done].
      destruct H1 as (Hn0 & Hs0 & _ & _ & Ha0).
      pose proof (checkInstances_cases config0 dc1) as H2.
      destruct (checkInstances config0 dc1) as [[config1 dc2]|e1 c1| |];
        simpl; [| |done|done].
      - destruct H2 as (Hn1 & Hs1 & _ & _ & Ha1). simpl.
        split; [congruence|]. split; [|done].
        destruct Ha0 as [(_ & E0 & _)|(_ & E0 & _)];
          destruct Ha1 as [(_ & E1 & _)|(_ & E1 & _)];
          simpl; rewrite ?E1, ?E0; lia.
      - destruct H2 as (-> & _). split; [done|]. split; [done|].
        destruct Ha0 as [(_ & E0 & _)|(_ & E0 & _)]; rewrite E0; auto. }
    unfold checkDestination.
    destruct (decide (len (Controller.Type_ dc) = 0%nat));
      [exact (Hinst _ _)|].
    destruct (decide (Controller.Type_ dc = _)); [exact (Hinst _ _)|].
    simpl. auto. }
  destruct (decide (len (Controller.Type_ sc) = 0%nat)); [exact (Hrest _ _)|].
  destruct (decide (Controller.Type_ sc = _)); [exact (Hrest _ _)|].
  simpl. auto.
Qed.



(** X10. What [Prepare] leaves behind. When it returns an error, the
    declared service, the source and the proxy's controller are as they
    were; at most one port was drawn. When it returns nil it drew at most
    two ports. In both cases the name of the configuration is kept. *)
Theorem Prepare_keeps (service service' : ProxyService.t) (result : error) :
  Prepare service = Returned result service' ->
  let config := ProxyService.configuration service in
  let config' := ProxyService.configuration service' in
  Config.Name config' = Config.Name config /\
  (Config.allocated config <= Config.allocated config'
   <= Config.allocated config + 2)%nat /\
  (result ≠ None ->
   Config.Service config' = Config.Service config /\
   ProxyService.source service' = ProxyService.source service /\
   ProxyService.Controller service' = ProxyService.Controller service /\
   (Config.allocated config' <= Config.allocated config + 1)%nat).
Proof.
  pose proof (prepareSteps_cases service) as Hcases. simpl in Hcases.
  unfold Prepare, prepareConfiguration.
  destruct (ProxyService.source service) as [src|] eqn:Hsrc.
  2:{ intros [= <- <-]. simpl. rewrite Hsrc. repeat split; lia. }
  destruct (decide (_ = UnknownType)) as [Hdst|Hdst].
  { intros [= <- <-]. simpl. rewrite Hsrc. repeat split; lia. }
  destruct (prepareSteps service) as [config1|err config1| |]; [| |done|done].
  - intros [= <- <-]. destruct Hcases as (Hn & Ha & _).
    unfold registerSource, registerDestination, onSource. simpl.
    destruct (findController DestinationName _); simpl;
      destruct (findController SourceName _); simpl;
      (split; [done|]); (split; [done|]); done.
  - intros [= <- <-]. destruct Hcases as (Hn & Hs & Ha). simpl.
    split; [done|]. split; [lia|]. intros _. rewrite Hsrc.
    repeat split; try done. lia.
Qed.

Lemma Prepare_steps_fail (service : ProxyService.t) (src : Source.t)
    (err : string) (config' : Config.t) :
  ProxyService.source service = Some src ->
  ProxyController.requiredDestination (ProxyService.Controller service)
  ≠ UnknownType ->
  prepareSteps service = Fail err config' ->
  Prepare service
  = Returned (Some ("prepareConfiguration: " +:+ err))
             (ProxyService.withConfiguration service config').
Proof.
  intros Hsrc Hdst Hsteps. unfold Prepare, prepareConfiguration.
  by rewrite Hsrc, decide_False, Hsteps.
Qed.

(** X11. A declared controller of the wrong type. On a proxy with its
    source and required destination and a service of the proxy type: when
    the controller that the lookup keeps under [source] has a type that is
    neither empty nor the type of the proxy's source, [Prepare] returns an
    error that holds both types; when the source passes and the controller
    kept under [destination] has a type that is neither empty nor the
    required one, it returns the like error for the destination. The proxy
    is as it was in both cases. *)
Theorem Prepare_type_mismatch (service : ProxyService.t) (src : Source.t)
    (sourceConfig destinationConfig : Controller.t) :
  let declared := Config.Service (ProxyService.configuration service) in
  let srcType := Source.ControllerType src in
  let dstType :=
    ProxyController.requiredDestination (ProxyService.Controller service) in
  ProxyService.source service = Some src ->
  dstType ≠ UnknownType ->
  Service.Type_ declared = ProxyType -> ProxyType ≠ "" ->
  selectControllers (Service.Controllers declared)
  = (sourceConfig, destinationConfig) ->
  (Controller.Type_ sourceConfig ≠ "" ->
   Controller.Type_ sourceConfig ≠ srcType ->
   Prepare service
   = Returned
       (Some ("prepareConfiguration: source expected to be of " +:+ srcType
              +:+ " type, but in the config it's "
              +:+ Controller.Type_ sourceConfig +:+ " of type"))
       service) /\
  (Controller.Type_ sourceConfig = "" \/
   Controller.Type_ sourceConfig = srcType ->
   Controller.Type_ destinationConfig ≠ "" ->
   Controller.Type_ destinationConfig ≠ dstType ->
   Prepare service
   = Returned
       (Some ("prepareConfiguration: destination expected to be of "
              +:+ dstType +:+ " type, but in the config it's "
              +:+ Controller.Type_ destinationConfig +:+ " of type"))
       service).
Proof.
  intros declared srcType dstType Hsrc Hdst Hty Hpne Hsel.
  pose proof (checkServiceType_proxy _ Hty Hpne) as Hbase.
  split.
  - intros Hne Hmis.
    erewrite Prepare_steps_fail; [by rewrite withConfiguration_same|done|done|].
    unfold prepareSteps. rewrite Hbase. simpl. fold declared.
    rewrite Hsel, Hsrc. simpl. unfold checkSource.
    rewrite decide_False by (by rewrite len_zero).
    by rewrite decide_False.
  - intros Hpass Hne Hmis.
    erewrite Prepare_steps_fail; [by rewrite withConfiguration_same|done|done|].
    unfold prepareSteps. rewrite Hbase. simpl. fold declared.
    rewrite Hsel, Hsrc. simpl. unfold checkSource, checkDestination.
    destruct Hpass as [Hempty|Hsame].
    + rewrite decide_True by (by rewrite len_zero). simpl.
      rewrite decide_False by (by rewrite len_zero).
      by rewrite decide_False.
    + destruct (decide (len (Controller.Type_ sourceConfig) = 0%nat)); simpl.
      * rewrite decide_False by (by rewrite len_zero).
        by rewrite decide_False.
      * rewrite decide_True by done. simpl.
        rewrite decide_False by (by rewrite len_zero).
        by rewrite decide_False.
Qed.

(** X12. A declared destination on port 0. On a proxy that is set up and a
    service of the proxy type whose source passes the type check: when the
    controller kept under [destination] has the required type and a first
    instance on port 0, [Prepare] returns the port error, whose text speaks
    of the source. If the source had no instance, a port had been drawn
    for it by then and is lost: the count of ports goes up by one while the
    declared service stays as it was; if the source had an instance on a
    non-zero port, no port is drawn. *)
Theorem Prepare_destination_port_zero (service : ProxyService.t)
    (src : Source.t) (sourceConfig destinationConfig : Controller.t)
    (first : ControllerInstance.t) :
  let config := ProxyService.configuration service in
  let declared := Config.Service config in
  let srcType := Source.ControllerType src in
  let dstType :=
    ProxyController.requiredDestination (ProxyService.Controller service) in
  ProxyService.source service = Some src ->
  dstType ≠ UnknownType -> dstType ≠ "" ->
  Service.Type_ declared = ProxyType -> ProxyType ≠ "" ->
  selectControllers (Service.Controllers declared)
  = (sourceConfig, destinationConfig) ->
  Controller.Type_ destinationConfig = dstType ->
  Controller.Instances destinationConfig !! 0%nat = Some first ->
  ControllerInstance.Port first = 0 ->
  (Controller.Type_ sourceConfig = "" \/
   (Controller.Type_ sourceConfig = srcType /\
    Controller.Instances sourceConfig = []) ->
   Prepare service
   = Returned
       (Some "prepareConfiguration: the port should not be 0 in the source")
       (ProxyService.withConfiguration service
          (Config.mk (Config.Name config) declared
                     (S (Config.allocated config))))) /\
  (forall own,
     Controller.Type_ sourceConfig = srcType -> srcType ≠ "" ->
     Controller.Instances sourceConfig !! 0%nat = Some own ->
     ControllerInstance.Port own ≠ 0 ->
     Prepare service
     = Returned
         (Some "prepareConfiguration: the port should not be 0 in the source")
         service).
Proof.
  intros config declared srcType dstType Hsrc Hdst Hdne Hty Hpne Hsel
         Hdt Hfirst Hzero.
  pose proof (checkServiceType_proxy _ Hty Hpne) as Hbase.
  destruct (Controller.Instances destinationConfig) as [|f rest] eqn:Hdi;
    [done|]. injection Hfirst as ->.
  assert (forall serviceConfig,
            checkDestination config dstType serviceConfig destinationConfig
            = Next (serviceConfig, destinationConfig)) as Hcd.
  { intros serviceConfig. unfold checkDestination.
    rewrite decide_False by (rewrite len_zero; congruence).
    by rewrite decide_True. }
  split.
  - intros Hsource.
    erewrite Prepare_steps_fail; [reflexivity|done|done|].
    unfold prepareSteps. fold config. rewrite Hbase. simpl. fold declared.
    rewrite Hsel, Hsrc. simpl. unfold checkSource.
    destruct Hsource as [Hempty|[Hsame Hnone]].
    + rewrite decide_True by (by rewrite len_zero). simpl.
      fold dstType. rewrite Hcd. simpl.
      unfold checkInstances. simpl. rewrite Hdi.
      by rewrite decide_True.
    + destruct (decide (len (Controller.Type_ sourceConfig) = 0%nat)); simpl.
      * fold dstType. rewrite Hcd. simpl.
        unfold checkInstances. simpl. rewrite Hdi.
        by rewrite decide_True.
      * rewrite decide_True by done. simpl. fold dstType. rewrite Hcd. simpl.
        unfold checkInstances. rewrite Hnone. simpl.
        rewrite Hdi. by rewrite decide_True.
  - intros own Hsame Hsne Hown Hnz.
    destruct (Controller.Instances sourceConfig) as [|o rest'] eqn:Hsi;
      [done|]. injection Hown as ->.
    erewrite Prepare_steps_fail; [by rewrite withConfiguration_same|done|done|].
    unfold prepareSteps. fold config. rewrite Hbase. simpl. fold declared.
    rewrite Hsel, Hsrc. simpl. unfold checkSource.
    rewrite decide_False by (rewrite len_zero; congruence).
    rewrite decide_True by done. simpl. fold dstType. rewrite Hcd. simpl.
    unfold checkInstances. rewrite Hsi.
    rewrite decide_False by done. simpl.
    rewrite Hdi. by rewrite decide_True.
Qed.

(** X13. A declared service that is complete is taken as it is. On a proxy
    that is set up, for a service of the proxy type in which the
    controllers kept under [source] and [destination] have the expected
    types and a first instance on a non-zero port each, [Prepare] returns
    nil, draws no port, and stores the declared service after handing the
    two controllers, as they are, to [SetController]. *)
Theorem Prepare_accepts_complete (service : ProxyService.t) (src : Source.t)
    (sourceConfig destinationConfig : Controller.t)
    (firstSource firstDestination : ControllerInstance.t) :
  let config := ProxyService.configuration service in
  let declared := Config.Service config in
  ready service src ->
  Service.Type_ declared = ProxyType ->
  selectControllers (Service.Controllers declared)
  = (sourceConfig, destinationConfig) ->
  Controller.Type_ sourceConfig = Source.ControllerType src ->
  Controller.Type_ destinationConfig
  = ProxyController.requiredDestination (ProxyService.Controller service) ->
  Controller.Instances sourceConfig !! 0%nat = Some firstSource ->
  ControllerInstance.Port firstSource ≠ 0 ->
  Controller.Instances destinationConfig !! 0%nat = Some firstDestination ->
  ControllerInstance.Port firstDestination ≠ 0 ->
  exists service',
    Prepare service = Returned None service' /\
    ProxyService.configuration service'
    = Config.mk (Config.Name config)
        (SetController destinationConfig (SetController sourceConfig declared))
        (Config.allocated config).
Proof.
  intros config declared (Hsrc & Hdst & Hpne & Hsne & Hdne) Hty Hsel Hst Hdt
         Hfs Hfsp Hfd Hfdp.
  pose proof (checkServiceType_proxy _ Hty Hpne) as Hbase.
  pose proof (prepareSteps_found service src declared sourceConfig
                destinationConfig Hbase Hsel Hsrc Hst Hdt Hsne Hdne
                ltac:(eauto) ltac:(eauto)) as Hsteps.
  destruct (Prepare_next service src _ Hsrc Hdst Hsteps)
    as (service' & _ & Hprep & Hconf & _).
  exists service'. split; [exact Hprep | exact Hconf].
Qed.

(** X14. Only the missing half is made up. On a proxy that is set up and a
    service of the proxy type: when the source is complete (expected type,
    first instance on a non-zero port) and no destination is kept (the
    lookup leaves the empty type), [Prepare] returns nil and draws exactly
    one port, which goes to the destination it makes up; when the
    destination is complete and no source is kept, the one port goes to
    the source. The complete controller is handed to [SetController]
    unchanged. *)
Theorem Prepare_completes_missing_half (service : ProxyService.t)
    (src : Source.t) (sourceConfig destinationConfig : Controller.t)
    (first : ControllerInstance.t) :
  let config := ProxyService.configuration service in
  let declared := Config.Service config in
  let k := Config.allocated config in
  let srcType := Source.ControllerType src in
  let dstType :=
    ProxyController.requiredDestination (ProxyService.Controller service) in
  ready service src ->
  Service.Type_ declared = ProxyType ->
  selectControllers (Service.Controllers declared)
  = (sourceConfig, destinationConfig) ->
  ControllerInstance.Port first ≠ 0 ->
  (Controller.Type_ sourceConfig = srcType ->
   Controller.Instances sourceConfig !! 0%nat = Some first ->
   Controller.Type_ destinationConfig = "" ->
   exists service',
     Prepare service = Returned None service' /\
     ProxyService.configuration service'
     = Config.mk (Config.Name config)
         (SetController (synthesized dstType DestinationName (FreePort k))
            (SetController sourceConfig
               (Service.withControllers declared
                  (Service.Controllers declared
                     ++ [Controller.mk dstType DestinationName []]))))
         (S k)) /\
  (Controller.Type_ destinationConfig = dstType ->
   Controller.Instances destinationConfig !! 0%nat = Some first ->
   Controller.Type_ sourceConfig = "" ->
   exists service',
     Prepare service = Returned None service' /\
     ProxyService.configuration service'
     = Config.mk (Config.Name config)
         (SetController destinationConfig
            (SetController (synthesized srcType SourceName (FreePort k))
               (Service.withControllers declared
                  (Service.Controllers declared
                     ++ [Controller.mk srcType SourceName []]))))
         (S k)).
Proof.
  intros config declared k srcType dstType (Hsrc & Hdst & Hpne & Hsne & Hdne)
         Hty Hsel Hport.
  pose proof (checkServiceType_proxy _ Hty Hpne) as Hbase.
  split.
  - intros Hst Hfirst Hempty.
    destruct (Controller.Instances sourceConfig) as [|f rest] eqn:Hsi; [done|].
    injection Hfirst as ->.
    assert (prepareSteps service
            = Next (Config.mk (Config.Name config)
                      (SetController
                         (synthesized dstType DestinationName (FreePort k))
                         (SetController sourceConfig
                            (Service.withControllers declared
                               (Service.Controllers declared
                                  ++ [Controller.mk dstType DestinationName []]))))
                      (S k))) as Hsteps.
    { unfold prepareSteps. fold config. rewrite Hbase. simpl. fold declared.
      rewrite Hsel, Hsrc. simpl. unfold checkSource.
      rewrite decide_False by (rewrite len_zero, Hst; exact Hsne).
      rewrite decide_True by done. simpl. unfold checkDestination.
      rewrite decide_True by (by rewrite len_zero). simpl.
      unfold checkInstances. rewrite Hsi.
      rewrite decide_False by done. reflexivity. }
    destruct (Prepare_next service src _ Hsrc Hdst Hsteps)
      as (service' & _ & Hprep & Hconf & _).
    exists service'. split; [exact Hprep | exact Hconf].
  - intros Hdt Hfirst Hempty.
    destruct (Controller.Instances destinationConfig) as [|f rest] eqn:Hdi;
      [done|]. injection Hfirst as ->.
    assert (prepareSteps service
            = Next (Config.mk (Config.Name config)
                      (SetController destinationConfig
                         (SetController
                            (synthesized srcType SourceName (FreePort k))
                            (Service.withControllers declared
                               (Service.Controllers declared
                                  ++ [Controller.mk srcType SourceName []]))))
                      (S k))) as Hsteps.
    { unfold prepareSteps. fold config. rewrite Hbase. simpl. fold declared.
      rewrite Hsel, Hsrc. simpl. unfold checkSource.
      rewrite decide_True by (by rewrite len_zero). simpl.
      unfold checkDestination.
      rewrite decide_False by (rewrite len_zero, Hdt; exact Hdne).
      rewrite decide_True by done. simpl.
      unfold checkInstances. simpl. rewrite Hdi.
      rewrite decide_False by done. reflexivity. }
    destruct (Prepare_next service src _ Hsrc Hdst Hsteps)
      as (service' & _ & Hprep & Hconf & _).
    exists service'. split; [exact Hprep | exact Hconf].
Qed.

(** X15. What a successful [Prepare] registers. When [Prepare] returns nil,
    the configuration it leaves is the one [prepareConfiguration] stored;
    the proxy's controller was given the first controller named
    [destination] of the stored service (if there is one), and the source
    received, after what it had received before: the first controller named
    [source] of the stored service (if there is one), then the requirement
    of the proxy's extension by its url, then the configuration of that
    extension. *)
Theorem Prepare_registers (service service' : ProxyService.t) :
  Prepare service = Returned None service' ->
  exists config' src,
    prepareSteps service = Next config' /\
    ProxyService.source service = Some src /\
    ProxyService.configuration service' = config' /\
    ProxyService.Controller service'
    = match findController DestinationName
              (Service.Controllers (Config.Service config')) with
      | Some c =>
          ProxyController.RegisterDestination (ProxyService.Controller service) c
      | None => ProxyService.Controller service
      end /\
    ProxyService.source service'
    = Some (Source.mk (Source.ControllerType src)
              (Source.calls src
               ++ match findController SourceName
                          (Service.Controllers (Config.Service config')) with
                  | Some c => [AddConfig c]
                  | None => []
                  end
               ++ [RequireExtension (Extension.Url extension);
                   AddExtensionConfig extension])).
Proof.
  unfold Prepare, prepareConfiguration.
  destruct (ProxyService.source service) as [src|] eqn:Hsrc; [|done].
  destruct (decide (_ = UnknownType)); [done|].
  destruct (prepareSteps service) as [config'|err config'| |]; try done.
  intros [= <-]. exists config', src. split; [done|]. split; [done|].
  unfold registerSource, registerDestination, onSource. simpl.
  destruct (findController DestinationName _); simpl;
    destruct (findController SourceName _); simpl; rewrite Hsrc; simpl;
    unfold Source.call; simpl; rewrite <- ?app_assoc; by repeat split.
Qed.
End PrepareFacts.

Lemma selectControllers_snoc (cs : list Controller.t) (c : Controller.t) :
  selectControllers (cs ++ [c]) = pick (selectControllers cs) c.
Proof. unfold selectControllers. by rewrite fold_left_app. Qed.

(** X16. The two lookups by name. [GetController], [registerSource] and
    [registerDestination] stop at the first controller of the name, in the
    order of declaration; the loop of [prepareConfiguration] goes through
    the whole list and keeps the last controller named [source] and the
    last named [destination] (the zero controller when there is none). So
    the controller that is checked and completed and the controller that
    is registered are the same when one controller bears the name. *)
Theorem lookups_first_and_last (cs : list Controller.t) :
  (forall name,
     findController name cs
     = head (filter (fun c => Controller.Name c = name) cs)) /\
  (selectControllers cs).1
  = default Controller.zero
      (last (filter (fun c => Controller.Name c = SourceName) cs)) /\
  (selectControllers cs).2
  = default Controller.zero
      (last (filter (fun c => Controller.Name c = DestinationName) cs)) /\
  (forall c,
     filter (fun c' => Controller.Name c' = SourceName) cs = [c] ->
     findController SourceName cs = Some c /\ (selectControllers cs).1 = c).
Proof.
  assert ((selectControllers cs).1
          = default Controller.zero
              (last (filter (fun c => Controller.Name c = SourceName) cs)) /\
          (selectControllers cs).2
          = default Controller.zero
              (last (filter (fun c => Controller.Name c = DestinationName) cs)))
    as [Hs Hd].
  { induction cs as [|c cs [IHs IHd]] using rev_ind; [done|].
    rewrite selectControllers_snoc, !filter_app, !filter_cons, !filter_nil.
    unfold pick. destruct (selectControllers cs) as [s0 d0]. simpl in *.
    destruct (decide (Controller.Name c = SourceName)) as [Es|Es].
    - rewrite decide_False by (rewrite Es; discriminate).
      rewrite last_snoc, app_nil_r. simpl. done.
    - destruct (decide (Controller.Name c = DestinationName)).
      + rewrite last_snoc, app_nil_r. simpl. done.
      + rewrite !app_nil_r. done. }
  split; [intros name; apply findController_first|].
  split; [exact Hs|]. split; [exact Hd|].
  intros c Hone. rewrite findController_first, Hs, Hone. done.
Qed.

Lemma Prepare_keeps_witness :
  let declared :=
    Service.mk "proxy" "edge" "" "edge 1"
      [Controller.mk "Pusher" "destination"
         [ControllerInstance.mk 0 "destination" "destination1"]] [] [] [] in
  exists service',
    @Prepare (sampleExternals appendController) (edge declared)
    = Returned
        (Some "prepareConfiguration: the port should not be 0 in the source")
        service' /\
    Config.Service (ProxyService.configuration service') = declared /\
    (Config.allocated (ProxyService.configuration service') <= 0 + 1)%nat.
Proof.
  intros declared.
  set (service' :=
         ProxyService.mk (Config.mk "edge" declared 1)
           (Some (Source.mk "Replier" [])) (ProxyController.mk "Pusher" [])).
  assert (@Prepare (sampleExternals appendController) (edge declared)
          = Returned
              (Some "prepareConfiguration: the port should not be 0 in the source")
              service') as Hprep by reflexivity.
  destruct (@Prepare_keeps (sampleExternals appendController) _ _ _ Hprep)
    as (_ & _ & Herr).
  destruct (Herr ltac:(discriminate)) as (Hservice & _ & _ & Hports).
  exists service'. split; [exact Hprep|]. split; [exact Hservice | exact Hports].
Defined.

Lemma Prepare_type_mismatch_witness :
  let declared :=
    Service.mk "proxy" "edge" "" "edge 1"
      [Controller.mk "Pusher" "source" []] [] [] [] in
  @Prepare (sampleExternals appendController) (edge declared)
  = Returned
      (Some "prepareConfiguration: source expected to be of Replier type, but in the config it's Pusher of type")
      (edge declared).
Proof.
  intros declared.
  apply (proj1 (@Prepare_type_mismatch (sampleExternals appendController)
                  (edge declared) (Source.mk "Replier" [])
                  (Controller.mk "Pusher" "source" []) Controller.zero
                  eq_refl ltac:(discriminate) eq_refl ltac:(discriminate)
                  eq_refl)); discriminate.
Defined.

Lemma Prepare_destination_port_zero_witness :
  let declared :=
    Service.mk "proxy" "edge" "" "edge 1"
      [Controller.mk "Pusher" "destination"
         [ControllerInstance.mk 0 "destination" "destination1"]] [] [] [] in
  @Prepare (sampleExternals appendController) (edge declared)
  = Returned
      (Some "prepareConfiguration: the port should not be 0 in the source")
      (ProxyService.mk (Config.mk "edge" declared 1)
         (Some (Source.mk "Replier" [])) (ProxyController.mk "Pusher" [])).
Proof.
  intros declared.
  apply (proj1 (@Prepare_destination_port_zero
                  (sampleExternals appendController)
                  (edge declared) (Source.mk "Replier" []) Controller.zero
                  (Controller.mk "Pusher" "destination"
                     [ControllerInstance.mk 0 "destination" "destination1"])
                  (ControllerInstance.mk 0 "destination" "destination1")
                  eq_refl ltac:(discriminate) ltac:(discriminate) eq_refl
                  ltac:(discriminate) eq_refl eq_refl eq_refl eq_refl)).
  by left.
Defined.

Lemma Prepare_accepts_complete_witness :
  let source := Controller.mk "Replier" "source"
                  [ControllerInstance.mk 4000 "source" "source1"] in
  let destination := Controller.mk "Pusher" "destination"
                       [ControllerInstance.mk 4001 "destination" "destination1"] in
  let declared :=
    Service.mk "proxy" "edge" "" "edge 1" [source; destination] [] [] [] in
  exists service',
    @Prepare (sampleExternals replaceController) (edge declared)
    = Returned None service' /\
    ProxyService.configuration service' = Config.mk "edge" declared 0.
Proof.
  intros source destination declared.
  destruct (@Prepare_accepts_complete (sampleExternals replaceController)
              (edge declared) (Source.mk "Replier" []) source destination
              (ControllerInstance.mk 4000 "source" "source1")
              (ControllerInstance.mk 4001 "destination" "destination1"))
    as (service' & Hprep & Hconf);
    try reflexivity; try discriminate.
  - repeat split; discriminate.
  - exists service'. split; [exact Hprep | exact Hconf].
Defined.

Lemma Prepare_completes_missing_half_witness :
  let source := Controller.mk "Replier" "source"
                  [ControllerInstance.mk 4000 "source" "source1"] in
  let declared := Service.mk "proxy" "edge" "" "edge 1" [source] [] [] [] in
  exists service',
    @Prepare (sampleExternals replaceController) (edge declared)
    = Returned None service' /\
    ProxyService.configuration service'
    = Config.mk "edge"
        (Service.mk "proxy" "edge" "" "edge 1"
           [source;
            Controller.mk "Pusher" "destination"
              [ControllerInstance.mk 8000 "destination" "destination1"]]
           [] [] [])
        1.
Proof.
  intros source declared.
  destruct (@Prepare_completes_missing_half (sampleExternals replaceController)
              (edge declared) (Source.mk "Replier" []) source Controller.zero
              (ControllerInstance.mk 4000 "source" "source1"))
    as [Hdestination _];
    try reflexivity; try discriminate.
  - repeat split; discriminate.
  - destruct Hdestination as (service' & Hprep & Hconf); try reflexivity.
    exists service'. split; [exact Hprep | exact Hconf].
Defined.

Lemma Prepare_registers_witness :
  let declared := Service.mk "proxy" "edge" "" "edge 1" [] [] [] [] in
  exists service',
    @Prepare (sampleExternals appendController) (edge declared)
    = Returned None service' /\
    ProxyService.source service'
    = Some (Source.mk "Replier"
              [AddConfig (Controller.mk "Replier" "source" []);
               RequireExtension "proxy_controller";
               AddExtensionConfig
                 (Extension.mk "proxy_controller" "proxy_controller" 0)]).
Proof.
  intros declared.
  destruct (@Prepare (sampleExternals appendController) (edge declared))
    as [[err|] service'| |] eqn:Hprep; try discriminate.
  exists service'. split; [reflexivity|].
  destruct (@Prepare_registers (sampleExternals appendController) _ _ Hprep)
    as (config' & src & Hsteps & Hsrc & _ & _ & Hcalls).
  rewrite Hcalls. vm_compute in Hsteps. injection Hsteps as <-.
  vm_compute in Hsrc. injection Hsrc as <-. reflexivity.
Defined.

(** ** The categorizer under every schedule *)

Section ScheduleFacts.
Context `{Upstream}.

Lemma run_invariant (P : World -> Prop) :
  (forall g w w', P w -> step g w = Some w' -> P w') ->
  forall schedule w w', P w -> run schedule w = Some w' -> P w'.
Proof.
  intros Hstep schedule.
  induction schedule as [|g schedule IH]; intros w w' HP Hrun.
  - by injection Hrun as <-.
  - unfold run in Hrun. simpl in Hrun. fold (step g w) in Hrun.
    destruct (step g w) as [w1|] eqn:Hs; [|done].
    apply (IH w1 w'); [by eapply Hstep | exact Hrun].
Qed.

Lemma occurrences_snoc (p : Event -> bool) (t : list Event) (ev : Event) :
  occurrences p (t ++ [ev])
  = (occurrences p t + if p ev then 1 else 0)%nat.
Proof.
  unfold occurrences. rewrite filter_app, length_app, filter_cons, filter_nil.
  destruct (p ev).
  - rewrite decide_True by done. simpl. lia.
  - rewrite decide_False by done. simpl. lia.
Qed.

Lemma Reached_start (smartcontracts : list Smartcontract.t) :
  Reached (length smartcontracts) (start smartcontracts).
Proof.
  split; simpl.
  - by rewrite length_map.
  - intros m Hin. by apply elem_of_nil in Hin.
  - intros g Hin. by apply elem_of_nil in Hin.
  - intros g gr Hg. rewrite list_lookup_fmap in Hg.
    destruct (smartcontracts !! g); simpl in Hg; [|done].
    by injection Hg as <-.
  - intros g gr Hg. rewrite list_lookup_fmap in Hg.
    destruct (smartcontracts !! g); simpl in Hg; [|done].
    injection Hg as <-. simpl. unfold occurrences. simpl. lia.
Qed.

Lemma occurrences_app (p : Event -> bool) (t u : list Event) :
  occurrences p (t ++ u) = (occurrences p t + occurrences p u)%nat.
Proof. unfold occurrences. by rewrite filter_app, length_app. Qed.

Lemma occurrences_others (p : nat -> Event -> bool) (g g2 : nat)
    (evs : list Event) :
  (forall ev, p g2 ev = true -> goroutineOf ev = g2) ->
  Forall (fun ev => goroutineOf ev = g) evs -> g2 ≠ g ->
  occurrences (p g2) evs = 0%nat.
Proof.
  intros Hp Hevs Hne. unfold occurrences.
  induction Hevs as [|ev evs Hev _ IH]; [done|].
  rewrite filter_cons. destruct (decide (p g2 ev = true)) as [E|E]; [|done].
  apply Hp in E. congruence.
Qed.

Lemma isFetched_of (g : nat) (ev : Event) :
  isFetched g ev = true -> goroutineOf ev = g.
Proof. destruct ev; simpl; try done. by intros ?%bool_decide_eq_true. Qed.

Lemma isSendBegan_of (g : nat) (ev : Event) :
  isSendBegan g ev = true -> goroutineOf ev = g.
Proof. destruct ev; simpl; try done. by intros ?%bool_decide_eq_true. Qed.

Lemma Reached_not_locked (n : nat) (w : World) (g : nat) (gr : Goroutine) :
  Reached n w -> goroutines w !! g = Some gr ->
  critical (pc gr) = false -> g ∉ locked w.
Proof.
  intros HR Hg Hc Hin. destruct (reached_locked _ _ HR _ Hin) as (gr0 & H0 & C0).
  congruence.
Qed.

Lemma Reached_not_inflight (n : nat) (w : World) (g : nat) (gr : Goroutine) :
  Reached n w -> goroutines w !! g = Some gr ->
  sending (pc gr) = false -> g ∉ inflight w.
Proof.
  intros HR Hg Hc Hin.
  destruct (reached_inflight _ _ HR _ Hin) as (gr0 & H0 & C0). congruence.
Qed.

(** A step of goroutine [g] from [gr] to [gr'] keeps the invariant when the
    mutexes, the calls in progress and the new events change in step with
    the place of [g]. *)
Lemma Reached_update (n : nat) (w : World) (g : nat) (gr gr' : Goroutine)
    (locked' inflight' : list nat) (p' : option string) (evs : list Event) :
  Reached n w -> goroutines w !! g = Some gr ->
  (forall m, m ∈ locked' -> m ∈ locked w \/ m = g) ->
  (g ∈ locked' -> critical (pc gr') = true) ->
  (forall x, x ∈ inflight' -> x ∈ inflight w \/ x = g) ->
  (g ∈ inflight' -> sending (pc gr') = true) ->
  (insideLock (pc gr') = true -> g ∈ locked') ->
  (forall m, m ≠ g -> m ∈ locked w -> m ∈ locked') ->
  Forall (fun ev => goroutineOf ev = g) evs ->
  (occurrences (isSendBegan g) evs + aboutToSend (pc gr')
   <= aboutToSend (pc gr) + occurrences (isFetched g) evs)%nat ->
  Reached n (mkWorld (<[g := gr']> (goroutines w)) locked' inflight' p'
                     (trace w ++ evs)).
Proof.
  intros HR Hg Hl Hlg Hf Hfg Hin Hkeep Hevs Hcount.
  pose proof (lookup_lt_Some _ _ _ Hg) as Hlt.
  split; simpl.
  - rewrite length_insert. apply HR.
  - intros m Hm. destruct (decide (m = g)) as [->|Hne].
    + exists gr'. split; [by apply list_lookup_insert_eq | auto].
    + rewrite list_lookup_insert_ne by done.
      destruct (Hl m Hm) as [Hold|?]; [|done].
      exact (reached_locked _ _ HR _ Hold).
  - intros x Hx. destruct (decide (x = g)) as [->|Hne].
    + exists gr'. split; [by apply list_lookup_insert_eq | auto].
    + rewrite list_lookup_insert_ne by done.
      destruct (Hf x Hx) as [Hold|?]; [|done].
      exact (reached_inflight _ _ HR _ Hold).
  - intros g2 gr2 Hg2 Hi. destruct (decide (g2 = g)) as [->|Hne].
    + rewrite list_lookup_insert_eq in Hg2 by done. injection Hg2 as <-. auto.
    + rewrite list_lookup_insert_ne in Hg2 by done.
      apply Hkeep; [done|]. exact (reached_inside _ _ HR _ _ Hg2 Hi).
  - intros g2 gr2 Hg2. rewrite !occurrences_app.
    destruct (decide (g2 = g)) as [->|Hne].
    + rewrite list_lookup_insert_eq in Hg2 by done. injection Hg2 as <-.
      pose proof (reached_sends _ _ HR _ _ Hg). lia.
    + rewrite list_lookup_insert_ne in Hg2 by done.
      rewrite (occurrences_others isSendBegan g g2 evs)
        by (done || apply isSendBegan_of).
      rewrite (occurrences_others isFetched g g2 evs)
        by (done || apply isFetched_of).
      pose proof (reached_sends _ _ HR _ _ Hg2). lia.
Qed.

Lemma occurrences_cons (p : Event -> bool) (ev : Event) (t : list Event) :
  occurrences p (ev :: t)
  = ((if p ev then 1 else 0) + occurrences p t)%nat.
Proof.
  unfold occurrences. rewrite filter_cons. destruct (p ev).
  - by rewrite decide_True.
  - by rewrite decide_False.
Qed.

#[local] Ltac settle Hnl Hnf :=
  first
    [ done
    | by auto
    | (intros ?; exfalso; solve [by apply Hnl | by apply Hnf])
    | by (let m := fresh in let Hm := fresh in
          intros m Hm; apply elem_of_cons in Hm; destruct Hm; auto)
    | by (let m := fresh in let Hm := fresh in
          intros m Hm; apply list_elem_of_filter in Hm; destruct Hm; auto)
    | by (let Hm := fresh in
          intros Hm; apply list_elem_of_filter in Hm; destruct Hm; auto)
    | by (intros ? ? ?; apply list_elem_of_filter)
    | by (intros; left)
    | by (intros; right)
    | by repeat constructor
    | (rewrite ?occurrences_cons; unfold occurrences; simpl;
       rewrite ?bool_decide_true by done; simpl; lia) ].

Lemma Reached_step (n g : nat) (w w' : World) :
  Reached n w -> step g w = Some w' -> Reached n w'.
Proof.
  intros HR. unfold step, stepWith.
  destruct (panicked w) eqn:Hp; [done|].
  destruct (goroutines w !! g) as [gr|] eqn:Hg; [|done].
  pose proof (Reached_not_locked _ _ _ _ HR Hg) as Hnl.
  pose proof (Reached_not_inflight _ _ _ _ HR Hg) as Hnf.
  pose proof (reached_inside _ _ HR _ _ Hg) as Hins.
  destruct (pc gr) eqn:Hpc; simpl in *.
  - destruct (RemoteLogFilter _ _ _ _).
    + destruct (RecentBlock _). intros [= <-].
      apply Reached_update with gr; simpl; rewrite ?Hpc; simpl;
        settle Hnl Hnf.
    + intros [= <-].
      apply Reached_update with gr; simpl; rewrite ?Hpc; simpl;
        settle Hnl Hnf.
  - intros [= <-].
    apply Reached_update with gr; simpl; rewrite ?Hpc; simpl; settle Hnl Hnf.
  - destruct (decide (mu g ∈ locked w)); [done|]. intros [= <-].
    apply Reached_update with gr; simpl; rewrite ?Hpc; simpl; settle Hnl Hnf.
  - intros [= <-].
    apply Reached_update with gr; simpl; rewrite ?Hpc; simpl; settle Hnl Hnf.
  - intros [= <-].
    apply Reached_update with gr; simpl; rewrite ?Hpc; simpl; settle Hnl Hnf.
  - destruct err as [msg|]; intros [= <-].
    + rewrite <- (list_insert_id (goroutines w) g gr Hg) at 1.
      apply Reached_update with gr; simpl; rewrite ?Hpc; simpl;
        settle Hnl Hnf.
    + apply Reached_update with gr; simpl; rewrite ?Hpc; simpl;
        settle Hnl Hnf.
  - intros [= <-].
    apply Reached_update with gr; simpl; rewrite ?Hpc; simpl; settle Hnl Hnf.
Qed.

Lemma Reached_run (smartcontracts : list Smartcontract.t)
    (schedule : list nat) (w : World) :
  run schedule (start smartcontracts) = Some w ->
  Reached (length smartcontracts) w.
Proof.
  apply (run_invariant (Reached (length smartcontracts))).
  - intros g w0 w1. apply Reached_step.
  - apply Reached_start.
Qed.

(** X17. Under the mutexes of the code no goroutine ever waits. Whatever the
    schedule so far, as long as no goroutine has panicked, every goroutine
    of [categorize] can take its next step: its own mutex is free whenever
    it comes to [mu.Lock()], because no other goroutine ever locks it. *)
Theorem categorize_never_waits (smartcontracts : list Smartcontract.t)
    (schedule : list nat) (w : World) (g : nat) :
  run schedule (start smartcontracts) = Some w ->
  panicked w = None ->
  (g < length smartcontracts)%nat ->
  exists w', step g w = Some w'.
Proof.
  intros Hrun Hp Hg. pose proof (Reached_run _ _ _ Hrun) as HR.
  destruct (lookup_lt_is_Some_2 (goroutines w) g) as [gr Hgr].
  { by rewrite (reached_size _ _ HR). }
  unfold step, stepWith. rewrite Hp, Hgr.
  destruct (pc gr) eqn:Hpc; eauto.
  - destruct (RemoteLogFilter _ _ _ _); [destruct (RecentBlock _)|]; eauto.
  - rewrite decide_False; [eauto|].
    apply (Reached_not_locked _ _ _ _ HR Hgr). by rewrite Hpc.
  - destruct err; eauto.
Qed.

(** X18. Every send is made under the sender's own mutex. Whatever the
    schedule, a goroutine that is inside [SendMessage] holds the mutex of
    its own call, and every mutex that is held belongs to a goroutine
    between its [Lock] and its [Unlock]. *)
Theorem categorize_sends_under_own_mutex
    (smartcontracts : list Smartcontract.t) (schedule : list nat) (w : World) :
  run schedule (start smartcontracts) = Some w ->
  (forall g, g ∈ inflight w -> mu g ∈ locked w) /\
  (forall m, m ∈ locked w ->
     exists g gr, mu g = m /\ goroutines w !! g = Some gr /\
                  critical (pc gr) = true).
Proof.
  intros Hrun. pose proof (Reached_run _ _ _ Hrun) as HR. split.
  - intros g Hin. destruct (reached_inflight _ _ HR _ Hin) as (gr & Hg & Hs).
    apply (reached_inside _ _ HR _ _ Hg). by destruct (pc gr).
  - intros m Hm. destruct (reached_locked _ _ HR _ Hm) as (gr & Hg & Hc).
    by exists m, gr.
Qed.

(** X19. A goroutine begins at most one send for each fetch. Whatever the
    schedule, among the events observed the sends begun by a goroutine are
    never more than the fetches it has made. *)
Theorem categorize_sends_follow_fetches
    (smartcontracts : list Smartcontract.t) (schedule : list nat) (w : World)
    (g : nat) :
  run schedule (start smartcontracts) = Some w ->
  (g < length smartcontracts)%nat ->
  (occurrences (isSendBegan g) (trace w)
   <= occurrences (isFetched g) (trace w))%nat.
Proof.
  intros Hrun Hg. pose proof (Reached_run _ _ _ Hrun) as HR.
  destruct (lookup_lt_is_Some_2 (goroutines w) g) as [gr Hgr].
  { by rewrite (reached_size _ _ HR). }
  pose proof (reached_sends _ _ HR _ _ Hgr). lia.
Qed.
End ScheduleFacts.

Lemma categorize_never_waits_witness :
  let upstream := sampleUpstream (fun _ _ => inl [(7, 70)]) (fun _ _ => None) in
  exists w w',
    @run upstream [0; 0; 0; 1]%nat (start [nft; coin]) = Some w /\
    @step upstream 1 w = Some w'.
Proof.
  intros upstream.
  destruct (@run upstream [0; 0; 0; 1]%nat (start [nft; coin]))
    as [w|] eqn:Hrun; [|discriminate].
  destruct (@categorize_never_waits upstream [nft; coin] _ w 1 Hrun)
    as [w' Hstep].
  - vm_compute in Hrun. by injection Hrun as <-.
  - simpl. lia.
  - by exists w, w'.
Defined.

Lemma categorize_sends_under_own_mutex_witness :
  let upstream := sampleUpstream (fun _ _ => inl [(7, 70)]) (fun _ _ => None) in
  exists w,
    @run upstream [0; 0; 0; 1; 1; 1]%nat (start [nft; coin]) = Some w /\
    1%nat ∈ inflight w /\ mu 1 ∈ locked w.
Proof.
  intros upstream.
  destruct (@run upstream [0; 0; 0; 1; 1; 1]%nat (start [nft; coin]))
    as [w|] eqn:Hrun; [|discriminate].
  exists w. split; [done|].
  assert (1%nat ∈ inflight w) as Hin.
  { vm_compute in Hrun. injection Hrun as <-. left. }
  split; [exact Hin|].
  by apply (proj1 (@categorize_sends_under_own_mutex upstream _ _ w Hrun)).
Defined.

Lemma categorize_sends_follow_fetches_witness :
  let upstream :=
    sampleUpstream
      (fun _ k => if decide (k < 2)%nat then inr "down" else inl [(7, 70)])
      (fun _ _ => None) in
  exists w,
    @run upstream (repeat 0%nat 10) (start [nft]) = Some w /\
    (occurrences (isSendBegan 0) (trace w)
     <= occurrences (isFetched 0) (trace w))%nat.
Proof.
  intros upstream.
  destruct (@run upstream (repeat 0%nat 10) (start [nft]))
    as [w|] eqn:Hrun; [|discriminate].
  exists w. split; [done|].
  apply (@categorize_sends_follow_fetches upstream [nft] _ w 0 Hrun).
  simpl. lia.
Defined.

(** ** The loop of [categorize], at any turn *)

Section LoopFacts.
Context `{Upstream}.

Lemma filter_out_absent (x : nat) (l : list nat) :
  x ∉ l -> filter (fun m => m ≠ x) l = l.
Proof.
  induction l as [|y l IH]; intros Hx; [done|].
  rewrite filter_cons, decide_True.
  - f_equal. apply IH. intros Hin. apply Hx. by right.
  - intros ->. apply Hx. left.
Qed.

Lemma filter_out_head (x : nat) (l : list nat) :
  x ∉ l -> filter (fun m => m ≠ x) (x :: l) = l.
Proof.
  intros Hx. rewrite filter_cons, decide_False by (intros Hne; by apply Hne).
  by apply filter_out_absent.
Qed.

(** A goroutine that stands at the fetch, in any world, and whose next [n]
    fetches fail: after the [n] failures it stands at the fetch again. *)
Lemma retry_anywhere (g n : nat) (w : World) (gr : Goroutine) :
  panicked w = None -> goroutines w !! g = Some gr -> pc gr = AtFetch ->
  (forall k, (k < n)%nat ->
     exists e, RemoteLogFilter g (fetches gr + k)
                 (Smartcontract.CategorizedBlockTimestamp (sm gr))
                 [Smartcontract.Address (sm gr)] = inr e) ->
  run (repeat g (2 * n)) w
  = Some (mkWorld
            (<[g := mkGoroutine (sm gr) AtFetch (fetches gr + n) (sends gr)]>
               (goroutines w))
            (locked w) (inflight w) None
            (trace w ++ retries g (sm gr) n)).
Proof.
  revert w gr. induction n as [|n IH]; intros w gr Hp Hg Hpc Hfail.
  - simpl. unfold retries. simpl. rewrite Nat.add_0_r, app_nil_r.
    destruct gr as [c p a b]. simpl in *. subst p.
    rewrite list_insert_id by done. destruct w. simpl in *. by subst.
  - replace (2 * S n)%nat with (S (S (2 * n))) by lia.
    destruct (Hfail 0%nat ltac:(lia)) as [e He]. rewrite Nat.add_0_r in He.
    pose proof (lookup_lt_Some _ _ _ Hg) as Hlt.
    cbn [repeat]. unfold run. cbn [runWith]. fold (step g).
    rewrite (step_fetch_fails g w gr e Hp Hg Hpc He).
    unfold step at 1, stepWith at 1.
    cbn [panicked goroutines locked inflight trace].
    rewrite list_lookup_insert_eq by done.
    cbn [pc sm fetches sends]. rewrite list_insert_insert_eq.
    change (runWith mu) with run.
    rewrite IH with (gr := mkGoroutine (sm gr) AtFetch (S (fetches gr)) (sends gr)).
    + cbn [goroutines locked inflight trace sm fetches sends].
      rewrite list_insert_insert_eq.
      unfold retries. cbn [repeat concat].
      rewrite <- !app_assoc. simpl.
      by replace (fetches gr + S n)%nat with (S (fetches gr + n)) by lia.
    + done.
    + cbn [goroutines]. by apply list_lookup_insert_eq.
    + done.
    + intros k Hk. destruct (Hfail (S k) ltac:(lia)) as [e' He'].
      exists e'. cbn [sm fetches].
      by replace (S (fetches gr) + k)%nat with (fetches gr + S k)%nat by lia.
Qed.

(** The rest of a turn, from the lock on, for a goroutine whose own mutex
    is free. *)
Lemma send_turn (g : nat) (gs : list Goroutine) (l f : list nat)
    (t : list Event) (contract : Smartcontract.t) (request_string : string)
    (a b : nat) :
  (g < length gs)%nat -> mu g ∉ l -> g ∉ f ->
  let w :=
    mkWorld (<[g := mkGoroutine contract (AtLock request_string) a b]> gs)
            l f None t in
  let seen :=
    t ++ [Locked g (mu g); SendBegan g request_string;
          SendEnded g request_string; Unlocked g (mu g)] in
  (SendMessage g b request_string = None ->
   run (repeat g 5) w
   = Some (mkWorld (<[g := mkGoroutine contract AtFetch a (S b)]> gs)
                   l f None (seen ++ [Slept g 1]))) /\
  (forall err : string,
     SendMessage g b request_string = Some err ->
     exists w',
       run (repeat g 4) w = Some w' /\
       panicked w' = Some err /\
       trace w' = seen ++ [PanicRaised g err] /\
       forall g', step g' w' = None).
Proof.
  intros Hlt Hl Hf w seen.
  assert (forall rest,
            run (g :: g :: g :: rest) w
            = run rest
                (mkWorld
                   (<[g := mkGoroutine contract
                             (AtUnlock (SendMessage g b request_string))
                             a (S b)]> gs)
                   (mu g :: l) f None
                   (t ++ [Locked g (mu g); SendBegan g request_string;
                          SendEnded g request_string]))) as Hsent.
  { intros rest. subst w. unfold run. cbn [runWith].
    unfold stepWith at 1. cbn [panicked goroutines locked inflight trace].
    rewrite list_lookup_insert_eq by done. cbn [pc sm fetches sends].
    rewrite decide_False by done. rewrite list_insert_insert_eq.
    unfold stepWith at 1. cbn [panicked goroutines locked inflight trace].
    rewrite list_lookup_insert_eq by done. cbn [pc sm fetches sends].
    rewrite list_insert_insert_eq.
    unfold stepWith at 1. cbn [panicked goroutines locked inflight trace].
    rewrite list_lookup_insert_eq by done. cbn [pc sm fetches sends].
    rewrite list_insert_insert_eq, filter_out_head by done.
    by rewrite <- !app_assoc. }
  split.
  - intros Hok. change (repeat g 5) with (g :: g :: g :: [g; g]).
    rewrite Hsent, Hok. unfold run. cbn [runWith].
    unfold stepWith at 1. cbn [panicked goroutines locked inflight trace].
    rewrite list_lookup_insert_eq by done. cbn [pc sm fetches sends].
    rewrite list_insert_insert_eq, filter_out_head by done.
    unfold stepWith at 1. cbn [panicked goroutines locked inflight trace].
    rewrite list_lookup_insert_eq by done. cbn [pc sm fetches sends].
    rewrite list_insert_insert_eq. subst seen.
    by rewrite <- !app_assoc.
  - intros err Herr. change (repeat g 4) with (g :: g :: g :: [g]).
    rewrite Hsent, Herr. unfold run. cbn [runWith].
    unfold stepWith at 1. cbn [panicked goroutines locked inflight trace].
    rewrite list_lookup_insert_eq by done. cbn [pc sm fetches sends].
    eexists. split; [reflexivity|]. split; [reflexivity|]. split.
    + cbn [trace]. subst seen. by rewrite <- !app_assoc.
    + intros g'. reflexivity.
Qed.

(** C6. A goroutine of [categorize] that stands at the fetch, at any turn
    of its loop, among any number of goroutines and after any schedule.
    While its fetches fail it sleeps 10 seconds after each failure and
    fetches again, any number of times, and nothing panics. When [n]
    fetches fail and the next one succeeds, the goroutine has made [n + 1]
    fetches (three for two failures), has slept 10 seconds after each
    failure, and sends the request once, between lock and unlock, before
    it sleeps a second and stands at the fetch again. When that send
    returns an error, whatever the number of failed fetches before it, the
    goroutine panics after unlocking: the process has ended and no
    goroutine moves any more. *)
Theorem categorize_retries_then_sends (smartcontracts : list Smartcontract.t)
    (schedule : list nat) (w : World) (g : nat) (gr : Goroutine) :
  let contract := sm gr in
  let timestamp := Smartcontract.CategorizedBlockTimestamp contract in
  let addresses := [Smartcontract.Address contract] in
  let fetch k := RemoteLogFilter g (fetches gr + k) timestamp addresses in
  run schedule (start smartcontracts) = Some w ->
  panicked w = None ->
  goroutines w !! g = Some gr ->
  pc gr = AtFetch ->
  (forall n : nat,
     (forall k, (k < n)%nat -> exists e, fetch k = inr e) ->
     run (repeat g (2 * n)) w
     = Some (mkWorld
               (<[g := mkGoroutine contract AtFetch (fetches gr + n) (sends gr)]>
                  (goroutines w))
               (locked w) (inflight w) None
               (trace w ++ retries g contract n))) /\
  (forall (n : nat) (new_logs : Logs),
     (forall k, (k < n)%nat -> exists e, fetch k = inr e) ->
     fetch n = inl new_logs ->
     let request_string := pushed contract new_logs in
     let seen :=
       trace w ++ retries g contract n
       ++ [Fetched g timestamp addresses;
           Locked g (mu g);
           SendBegan g request_string; SendEnded g request_string;
           Unlocked g (mu g)] in
     (SendMessage g (sends gr) request_string = None ->
      run (repeat g (2 * n + 6)) w
      = Some (mkWorld
                (<[g := mkGoroutine (updated contract new_logs) AtFetch
                          (fetches gr + n + 1) (sends gr + 1)]>
                   (goroutines w))
                (locked w) (inflight w) None
                (seen ++ [Slept g 1]))) /\
     (forall err : string,
        SendMessage g (sends gr) request_string = Some err ->
        exists w',
          run (repeat g (2 * n + 5)) w = Some w' /\
          panicked w' = Some err /\
          trace w' = seen ++ [PanicRaised g err] /\
          forall g', step g' w' = None)) /\
  (forall new_logs : Logs,
     (forall k, (k < 2)%nat -> exists e, fetch k = inr e) ->
     fetch 2%nat = inl new_logs ->
     SendMessage g (sends gr) (pushed contract new_logs) = None ->
     run (repeat g 10) w
     = Some (mkWorld
               (<[g := mkGoroutine (updated contract new_logs) AtFetch
                         (fetches gr + 3) (sends gr + 1)]>
                  (goroutines w))
               (locked w) (inflight w) None
               (trace w
                ++ [Fetched g timestamp addresses; Slept g 10;
                    Fetched g timestamp addresses; Slept g 10;
                    Fetched g timestamp addresses;
                    Locked g (mu g);
                    SendBegan g (pushed contract new_logs);
                    SendEnded g (pushed contract new_logs);
                    Unlocked g (mu g);
                    Slept g 1]))).
Proof.
  intros contract timestamp addresses fetch Hrun Hp Hg Hpc.
  pose proof (Reached_run _ _ _ Hrun) as HR.
  pose proof (lookup_lt_Some _ _ _ Hg) as Hlt.
  assert (mu g ∉ locked w) as Hfree.
  { apply (Reached_not_locked _ _ _ _ HR Hg). by rewrite Hpc. }
  assert (g ∉ inflight w) as Hout.
  { apply (Reached_not_inflight _ _ _ _ HR Hg). by rewrite Hpc. }
  assert (forall (n : nat) (new_logs : Logs) (rest : list nat),
            (forall k, (k < n)%nat -> exists e, fetch k = inr e) ->
            fetch n = inl new_logs ->
            run (repeat g (2 * n) ++ g :: rest) w
            = run rest
                (mkWorld
                   (<[g := mkGoroutine (updated contract new_logs)
                             (AtLock (pushed contract new_logs))
                             (S (fetches gr + n)) (sends gr)]> (goroutines w))
                   (locked w) (inflight w) None
                   ((trace w ++ retries g contract n)
                    ++ [Fetched g timestamp addresses]))) as Hfetch.
  { intros n new_logs rest Hfail Hok. unfold run at 1. rewrite runWith_app.
    change (runWith mu (repeat g (2 * n)) w) with (run (repeat g (2 * n)) w).
    rewrite (retry_anywhere g n w gr Hp Hg Hpc Hfail).
    cbn [runWith]. fold (step g).
    erewrite step_fetch_succeeds;
      [|done|by apply list_lookup_insert_eq|done|exact Hok].
    cbn [goroutines locked inflight trace sm fetches sends].
    by rewrite list_insert_insert_eq. }
  assert (forall (n : nat) (new_logs : Logs),
            (forall k, (k < n)%nat -> exists e, fetch k = inr e) ->
            fetch n = inl new_logs ->
            let request_string := pushed contract new_logs in
            let seen :=
              trace w ++ retries g contract n
              ++ [Fetched g timestamp addresses;
                  Locked g (mu g);
                  SendBegan g request_string; SendEnded g request_string;
                  Unlocked g (mu g)] in
            (SendMessage g (sends gr) request_string = None ->
             run (repeat g (2 * n + 6)) w
             = Some (mkWorld
                       (<[g := mkGoroutine (updated contract new_logs) AtFetch
                                 (fetches gr + n + 1) (sends gr + 1)]>
                          (goroutines w))
                       (locked w) (inflight w) None
                       (seen ++ [Slept g 1]))) /\
            (forall err : string,
               SendMessage g (sends gr) request_string = Some err ->
               exists w',
                 run (repeat g (2 * n + 5)) w = Some w' /\
                 panicked w' = Some err /\
                 trace w' = seen ++ [PanicRaised g err] /\
                 forall g', step g' w' = None)) as Hturn.
  { intros n new_logs Hfail Hok request_string seen.
    subst seen request_string.
    destruct (send_turn g (goroutines w) (locked w) (inflight w)
                ((trace w ++ retries g contract n)
                 ++ [Fetched g timestamp addresses])
                (updated contract new_logs) (pushed contract new_logs)
                (S (fetches gr + n)) (sends gr) Hlt Hfree Hout)
      as [Hsent Hfailed].
    assert (trace w ++ retries g contract n
            ++ [Fetched g timestamp addresses;
                Locked g (mu g);
                SendBegan g (pushed contract new_logs);
                SendEnded g (pushed contract new_logs);
                Unlocked g (mu g)]
            = ((trace w ++ retries g contract n)
               ++ [Fetched g timestamp addresses])
              ++ [Locked g (mu g); SendBegan g (pushed contract new_logs);
                  SendEnded g (pushed contract new_logs);
                  Unlocked g (mu g)]) as Hseen.
    { by rewrite <- !app_assoc. }
    split.
    - intros Hsend.
      replace (2 * n + 6)%nat with (2 * n + (1 + 5))%nat by lia.
      rewrite repeat_app. change (repeat g (1 + 5)) with (g :: repeat g 5).
      rewrite (Hfetch n new_logs _ Hfail Hok), (Hsent Hsend), Hseen.
      by replace (fetches gr + n + 1)%nat with (S (fetches gr + n)) by lia;
         replace (sends gr + 1)%nat with (S (sends gr)) by lia.
    - intros err Herr.
      replace (2 * n + 5)%nat with (2 * n + (1 + 4))%nat by lia.
      rewrite repeat_app. change (repeat g (1 + 4)) with (g :: repeat g 4).
      rewrite (Hfetch n new_logs _ Hfail Hok), Hseen.
      exact (Hfailed err Herr). }
  split; [|split].
  - intros n Hfail. exact (retry_anywhere g n w gr Hp Hg Hpc Hfail).
  - exact Hturn.
  - intros new_logs Hfail Hok Hsend.
    destruct (Hturn 2%nat new_logs Hfail Hok) as [Hsent _].
    specialize (Hsent Hsend). change (2 * 2 + 6)%nat with 10%nat in Hsent.
    rewrite Hsent. unfold retries. cbn [repeat concat app].
    replace (fetches gr + 2 + 1)%nat with (fetches gr + 3)%nat by lia.
    by rewrite <- !app_assoc.
Qed.
End LoopFacts.

Lemma categorize_retries_then_sends_witness :
  let upstream :=
    sampleUpstream
      (fun _ k => if decide (k < 2)%nat then inr "down" else inl [(7, 70)])
      (fun _ _ => None) in
  @run upstream (repeat 0%nat 10) (start [nft])
  = Some (mkWorld
            [mkGoroutine (Smartcontract.mk "imx" "0xA1" 7 70) AtFetch 3 1]
            [] [] None
            [Fetched 0 0 ["0xA1"]; Slept 0 10;
             Fetched 0 0 ["0xA1"]; Slept 0 10;
             Fetched 0 0 ["0xA1"];
             Locked 0 0; SendBegan 0 "push 0xA1"; SendEnded 0 "push 0xA1";
             Unlocked 0 0; Slept 0 1]).
Proof.
  intros upstream.
  destruct (@categorize_retries_then_sends upstream [nft] [] (start [nft])
              0%nat (mkGoroutine nft AtFetch 0 0))
    as (_ & _ & Hthree); [reflexivity | reflexivity | reflexivity | reflexivity |].
  rewrite (Hthree [(7, 70)]).
  - reflexivity.
  - intros k Hk. exists "down". simpl. by rewrite decide_True.
  - reflexivity.
  - reflexivity.
Defined.

(** ** The vault *)

Section VaultFacts.
Context `{VaultWorld}.

(** X20. [vault.New] returns a vault or an error, never both and never
    neither, and a vault only when the credentials of its mode are there.
    In secure mode both the role id and the file of the secret id must
    exist, the client is made for the [https] address, and the vault
    carries the role id, the file and the token of a login that succeeded
    with a secret. Otherwise the token must exist, the client is made for
    the [http] address and gets that token, and no login takes place. In
    both modes the vault has the two paths of the configuration. *)
Theorem New_needs_credentials (app_config : option AppConfig.t) :
  ((exists v, Vault.New app_config = (Some v, None)) \/
   (exists err, Vault.New app_config = (None, Some err))) /\
  (app_config = None ->
   Vault.New app_config = (None, Some "missing configuration file")) /\
  (forall c v,
     app_config = Some c -> Vault.New app_config = (Some v, None) ->
     let address scheme :=
       scheme +:+ AppConfig.GetString c "SDS_VAULT_HOST" +:+ ":"
       +:+ AppConfig.GetString c "SDS_VAULT_PORT" in
     Vault.path v = AppConfig.GetString c "SDS_VAULT_PATH" /\
     Vault.database_path v = AppConfig.GetString c "SDS_VAULT_DATABASE_PATH" /\
     (AppConfig.GetBool c "SDS_VAULT_SECURE" = true ->
      AppConfig.Exist c "SDS_VAULT_APPROLE_ROLE_ID" = true /\
      AppConfig.Exist c "SDS_VAULT_APPROLE_SECRET_ID_FILE" = true /\
      NewClient (address "https://") = inl (Vault.client v) /\
      Vault.approle_role_id v
      = AppConfig.GetString c "SDS_VAULT_APPROLE_ROLE_ID" /\
      Vault.approle_secret_id_file v
      = AppConfig.GetString c "SDS_VAULT_APPROLE_SECRET_ID_FILE" /\
      exists token, Vault.auth_token v = Some token) /\
     (AppConfig.GetBool c "SDS_VAULT_SECURE" = false ->
      AppConfig.Exist c "SDS_VAULT_TOKEN" = true /\
      (exists made,
         NewClient (address "http://") = inl made /\
         Vault.client v
         = SetToken (AppConfig.GetString c "SDS_VAULT_TOKEN") made) /\
      Vault.auth_token v = None)).
Proof.
  unfold Vault.New, Vault.login. split; [|split].
  - destruct app_config as [c|]; [|eauto].
    destruct (AppConfig.GetBool c _).
    + destruct (AppConfig.Exist c "SDS_VAULT_APPROLE_ROLE_ID"); simpl; [|eauto].
      destruct (AppConfig.Exist c _); simpl; [|eauto].
      destruct (NewClient _); [|eauto]. simpl.
      destruct (NewAppRoleAuth _ _); [|eauto].
      destruct (Login _ _) as [[?|] [?|]]; eauto.
    + destruct (AppConfig.Exist c _); simpl; [|eauto].
      destruct (NewClient _); eauto.
  - by intros ->.
  - intros c v -> Hnew.
    destruct (AppConfig.GetBool c _).
    + destruct (AppConfig.Exist c "SDS_VAULT_APPROLE_ROLE_ID");
        simpl in Hnew; [|done].
      destruct (AppConfig.Exist c "SDS_VAULT_APPROLE_SECRET_ID_FILE");
        simpl in Hnew; [|done].
      destruct (NewClient _) as [made|] eqn:Hc; [|done]. simpl in Hnew.
      destruct (NewAppRoleAuth _ _); [|done].
      destruct (Login _ _) as [[token|] [?|]]; try done.
      injection Hnew as <-. simpl.
      split; [done|]. split; [done|]. split; [|done].
      intros _. repeat split; eauto.
    + destruct (AppConfig.Exist c "SDS_VAULT_TOKEN"); simpl in Hnew; [|done].
      destruct (NewClient _) as [made|] eqn:Hc; [|done].
      injection Hnew as <-. simpl.
      split; [done|]. split; [done|]. split; [done|].
      intros _. repeat split; eauto.
Qed.

(** X21. The errors of the secure mode. With the role id and the file of the
    secret id in place and a client made: [vault.New] returns an error
    whenever the login does not end with a secret and no error, and the
    message starts with [vault login error: ]; a login that returns no
    error and no secret counts as a failure. *)
Theorem New_login_failures (c : AppConfig.t) (made : Client) :
  let address :=
    "https://" +:+ AppConfig.GetString c "SDS_VAULT_HOST" +:+ ":"
    +:+ AppConfig.GetString c "SDS_VAULT_PORT" in
  let role := AppConfig.GetString c "SDS_VAULT_APPROLE_ROLE_ID" in
  let file := AppConfig.GetString c "SDS_VAULT_APPROLE_SECRET_ID_FILE" in
  AppConfig.GetBool c "SDS_VAULT_SECURE" = true ->
  AppConfig.Exist c "SDS_VAULT_APPROLE_ROLE_ID" = true ->
  AppConfig.Exist c "SDS_VAULT_APPROLE_SECRET_ID_FILE" = true ->
  NewClient address = inl made ->
  (forall err, NewAppRoleAuth role file = inr err ->
     Vault.New (Some c)
     = (None,
        Some ("vault login error: unable to initialize approle authentication method: "
              +:+ err))) /\
  (forall auth got err,
     NewAppRoleAuth role file = inl auth -> Login made auth = (got, Some err) ->
     Vault.New (Some c)
     = (None,
        Some ("vault login error: unable to login using approle auth method: "
              +:+ err))) /\
  (forall auth,
     NewAppRoleAuth role file = inl auth -> Login made auth = (None, None) ->
     Vault.New (Some c)
     = (None,
        Some "vault login error: no approle info was returned after login")).
Proof.
  intros address role file Hs Hr Hf Hc. unfold Vault.New, Vault.login.
  rewrite Hs, Hr, Hf. simpl. fold address. rewrite Hc. simpl.
  fold role file. split; [|split].
  - intros err Ha. simpl. rewrite Ha. reflexivity.
  - intros auth got err Ha Hl. simpl. rewrite Ha, Hl. by destruct got.
  - intros auth Ha Hl. simpl. rewrite Ha, Hl. reflexivity.
Qed.

(** X22. [get_string] returns a value and no error exactly when the secret
    of that name can be read and holds a string under the key; the value
    is that string. In every other case (the secret cannot be read, the
    key is missing, the value is not a string) it returns the empty string
    with an error. *)
Theorem get_string_reads_strings (v : Vault.t) (secret_name key : string) :
  (forall value,
     Vault.get_string v secret_name key = (value, None) <->
     exists data,
       KVGet (Vault.client v) (Vault.path v) secret_name = inl data /\
       data !! key = Some (AString value)) /\
  ((exists value, Vault.get_string v secret_name key = (value, None)) \/
   (exists err, Vault.get_string v secret_name key = ("", Some err))).
Proof.
  unfold Vault.get_string.
  destruct (KVGet _ _ _) as [data|err].
  - destruct (data !! key) as [[s|shown]|] eqn:Hk.
    + split; [|eauto]. intros value. split.
      * intros [= <-]. eauto.
      * intros (data' & [= <-] & Hv). rewrite Hk in Hv. by injection Hv as <-.
    + split; [|eauto]. intros value. split; [done|].
      intros (data' & [= <-] & Hv). congruence.
    + split; [|eauto]. intros value. split; [done|].
      intros (data' & [= <-] & Hv). congruence.
  - split; [|eauto]. intros value. split; [done|]. by intros (data' & ? & _).
Qed.

Lemma serve_all (send : nat -> Outgoing -> error) (v : Vault.t)
    (requests : list Incoming) (k : nat) (sent : list Outgoing) :
  (forall request, request ∈ requests ->
     IncomingCommand request = "GetString") ->
  (forall i out, send i out = None) ->
  Vault.serve send v requests k sent
  = (sent ++ map (Vault.answer v) requests, None).
Proof.
  intros Hall Hsend. revert k sent.
  induction requests as [|request rest IH]; intros k sent; simpl.
  - by rewrite app_nil_r.
  - rewrite decide_True by (apply Hall; left). rewrite Hsend.
    rewrite IH by (intros r Hr; apply Hall; by right).
    by rewrite <- app_assoc.
Qed.

(** X23. One reply for each request. When every request received has the
    command [GetString] and every send succeeds, [RunController] (its
    socket made and bound) sends exactly one message for each request, in
    the order received, and does not panic: the reply [OK] with the string
    under [value] when [get_string] found it, and otherwise the failure
    whose text starts with [invalid smartcontract developer request ]. *)
Theorem RunController_replies_once (send : nat -> Outgoing -> error)
    (v : Vault.t) (requests : list Incoming) :
  (forall request, request ∈ requests ->
     IncomingCommand request = "GetString") ->
  (forall i out, send i out = None) ->
  Vault.RunController None None send v requests
  = (map (Vault.answer v) requests, None) /\
  forall request,
    (forall value,
       Vault.get_string v (bucket request) (key request) = (value, None) ->
       Vault.answer v request
       = ReplyOf (mkReply "OK" "" [("value", value)])) /\
    (forall value err,
       Vault.get_string v (bucket request) (key request) = (value, Some err) ->
       Vault.answer v request
       = FailOf ("invalid smartcontract developer request " +:+ err)).
Proof.
  intros Hall Hsend. split.
  - unfold Vault.RunController. by rewrite serve_all.
  - intros request. unfold Vault.answer. split.
    + by intros value ->.
    + by intros value err ->.
Qed.

Lemma serve_stops (send : nat -> Outgoing -> error) (v : Vault.t)
    (before after : list Incoming) (other : Incoming) (k : nat)
    (sent : list Outgoing) :
  (forall request, request ∈ before ->
     IncomingCommand request = "GetString") ->
  (forall i out, send i out = None) ->
  IncomingCommand other ≠ "GetString" ->
  Vault.serve send v (before ++ other :: after) k sent
  = (sent ++ map (Vault.answer v) before,
     Some "vault doesnt support this kind of command").
Proof.
  intros Hall Hsend Hother. revert k sent.
  induction before as [|request rest IH]; intros k sent; simpl.
  - rewrite decide_False by done. by rewrite app_nil_r.
  - rewrite decide_True by (apply Hall; left). rewrite Hsend.
    rewrite IH by (intros r Hr; apply Hall; by right).
    by rewrite <- app_assoc.
Qed.

(** X24. A command other than [GetString] ends the controller. The requests
    before it are answered, one message each; the request itself gets no
    reply, the loop panics, and nothing that comes after it is answered,
    whatever it is. A send that fails ends the loop in the same way, with
    the replies made before it. *)
Theorem RunController_stops (send : nat -> Outgoing -> error) (v : Vault.t)
    (before after : list Incoming) (last : Incoming) :
  (forall request, request ∈ before ->
     IncomingCommand request = "GetString") ->
  (IncomingCommand last ≠ "GetString" ->
   (forall i out, send i out = None) ->
   Vault.RunController None None send v (before ++ last :: after)
   = (map (Vault.answer v) before,
      Some "vault doesnt support this kind of command")) /\
  (forall err,
     IncomingCommand last = "GetString" ->
     (forall i out, (i < length before)%nat -> send i out = None) ->
     send (length before) (Vault.answer v last) = Some err ->
     Vault.RunController None None send v (before ++ last :: after)
     = (map (Vault.answer v) before, Some ("failed to reply: %w" +:+ err))).
Proof.
  intros Hall. unfold Vault.RunController. split.
  - intros Hother Hsend. by rewrite serve_stops.
  - intros err Hlast Hsend Hfail.
    assert (forall k sent,
              (forall i out, (i < length before)%nat -> send (k + i)%nat out = None) ->
              send (k + length before)%nat (Vault.answer v last) = Some err ->
              Vault.serve send v (before ++ last :: after) k sent
              = (sent ++ map (Vault.answer v) before,
                 Some ("failed to reply: %w" +:+ err))) as Hgen.
    { clear Hsend Hfail. induction before as [|request rest IH];
        intros k sent Hsend Hfail; simpl in *.
      - rewrite decide_True by done. rewrite Nat.add_0_r in Hfail.
        by rewrite Hfail, app_nil_r.
      - rewrite decide_True by (apply Hall; left).
        specialize (Hsend 0%nat (Vault.answer v request) ltac:(lia)) as Hk.
        rewrite Nat.add_0_r in Hk. rewrite Hk.
        rewrite IH.
        + by rewrite <- app_assoc.
        + intros r Hr. apply Hall. by right.
        + intros i out Hi. replace (S k + i)%nat with (k + S i)%nat by lia.
          apply Hsend. lia.
        + by replace (S k + length rest)%nat with (k + S (length rest))%nat
            by lia. }
    apply (Hgen 0%nat []); simpl; auto.
Qed.
End VaultFacts.

Lemma New_needs_credentials_witness :
  let world := sampleVaultWorld (Some "lease", None) in
  let c := sampleAppConfig [("SDS_VAULT_HOST", "localhost");
                            ("SDS_VAULT_PORT", "8200");
                            ("SDS_VAULT_PATH", "secret");
                            ("SDS_VAULT_TOKEN", "root")] in
  exists v,
    @Vault.New world (Some c) = (Some v, None) /\
    @Vault.client world v = ("http://localhost:8200", "root").
Proof.
  intros world c.
  destruct (@Vault.New world (Some c)) as [[v|] [err|]] eqn:Hnew;
    try discriminate.
  exists v. split; [reflexivity|].
  destruct (proj2 (proj2 (@New_needs_credentials world (Some c))) c v
              eq_refl Hnew) as (_ & _ & _ & Hplain).
  destruct (Hplain eq_refl) as (_ & (made & Hmade & ->) & _).
  vm_compute in Hmade. injection Hmade as <-. reflexivity.
Defined.

Lemma New_login_failures_witness :
  let world := sampleVaultWorld (None, None) in
  let c := sampleAppConfig [("SDS_VAULT_SECURE", "true");
                            ("SDS_VAULT_HOST", "vault");
                            ("SDS_VAULT_PORT", "8200");
                            ("SDS_VAULT_APPROLE_ROLE_ID", "role");
                            ("SDS_VAULT_APPROLE_SECRET_ID_FILE", "/run/secret")] in
  @Vault.New world (Some c)
  = (None, Some "vault login error: no approle info was returned after login").
Proof.
  intros world c.
  apply (proj2 (proj2 (@New_login_failures world c ("https://vault:8200", "")
                         eq_refl eq_refl eq_refl eq_refl))
           ("role", "/run/secret")); reflexivity.
Defined.

Lemma get_string_reads_strings_witness :
  let world := sampleVaultWorld (None, None) in
  let v := @Vault.mk world ("http://localhost:8200", "root") "secret" "" ""
             "database/creds" None None in
  @Vault.get_string world v "db" "user" = ("admin", None).
Proof.
  intros world v.
  apply (proj1 (@get_string_reads_strings world v "db" "user")).
  eexists. split; reflexivity.
Defined.

Lemma RunController_replies_once_witness :
  let world := sampleVaultWorld (None, None) in
  let v := @Vault.mk world ("http://localhost:8200", "root") "secret" "" ""
             "database/creds" None None in
  @Vault.RunController world None None (fun _ _ => None) v
    [mkIncoming "GetString" "db" "user"; mkIncoming "GetString" "db" "port";
     mkIncoming "GetString" "mail" "user"]
  = ([ReplyOf (mkReply "OK" "" [("value", "admin")]);
      FailOf "invalid smartcontract developer request vault error. failed to get the key int 5432";
      FailOf "invalid smartcontract developer request secret not found"],
     None).
Proof.
  intros world v.
  destruct (@RunController_replies_once world (fun _ _ => None) v
              [mkIncoming "GetString" "db" "user";
               mkIncoming "GetString" "db" "port";
               mkIncoming "GetString" "mail" "user"]) as [Hrun _].
  - intros r Hr.
    repeat (apply elem_of_cons in Hr as [->|Hr]; [reflexivity|]).
    by apply elem_of_nil in Hr.
  - done.
  - rewrite Hrun. vm_compute. reflexivity.
Defined.

Lemma RunController_stops_witness :
  let world := sampleVaultWorld (None, None) in
  let v := @Vault.mk world ("http://localhost:8200", "root") "secret" "" ""
             "database/creds" None None in
  @Vault.RunController world None None (fun _ _ => None) v
    [mkIncoming "GetString" "db" "user"; mkIncoming "SetString" "db" "user";
     mkIncoming "GetString" "db" "user"]
  = ([ReplyOf (mkReply "OK" "" [("value", "admin")])],
     Some "vault doesnt support this kind of command").
Proof.
  intros world v.
  apply (proj1 (@RunController_stops world (fun _ _ => None) v
                  [mkIncoming "GetString" "db" "user"]
                  [mkIncoming "GetString" "db" "user"]
                  (mkIncoming "SetString" "db" "user")
                  ltac:(intros r Hr; apply list_elem_of_singleton in Hr as ->;
                        reflexivity))); [discriminate | done].
Defined.

(** ** Pushing and running *)

Section PushFacts.
Context `{NetworkWorld}.

(** X25. [push_to_network_service] asks the database once. When the
    selection has no smartcontract it returns nil without resolving the
    endpoint or making a request. When it returns nil after a selection
    that is not empty, it has resolved the endpoint of the network and made
    exactly one request, which carries all the smartcontracts selected, in
    their order. When the endpoint cannot be resolved no request is made. *)
Theorem push_in_one_request (network_id : string) :
  (SelectAllByCondition network_id = inl [] ->
   push_to_network_service network_id = (None, [Selected network_id])) /\
  (forall smartcontracts calls,
     SelectAllByCondition network_id = inl smartcontracts ->
     smartcontracts ≠ [] ->
     push_to_network_service network_id = (None, calls) ->
     exists target,
       InprocessFromUrl (CategorizerEndpoint network_id) = inl target /\
       calls = [Selected network_id;
                Resolved (CategorizerEndpoint network_id);
                Requested target smartcontracts]) /\
  (forall smartcontracts err,
     SelectAllByCondition network_id = inl smartcontracts ->
     smartcontracts ≠ [] ->
     InprocessFromUrl (CategorizerEndpoint network_id) = inr err ->
     push_to_network_service network_id
     = (Some ("service.InprocessFromUrl(url): " +:+ err),
        [Selected network_id; Resolved (CategorizerEndpoint network_id)])).
Proof.
  unfold push_to_network_service. split; [|split].
  - by intros ->.
  - intros smartcontracts calls -> Hne.
    rewrite decide_False by (by destruct smartcontracts).
    destruct (InprocessFromUrl _) as [target|]; [|done].
    destruct (RequestRouter _ _); [done|]. intros [= <-]. eauto.
  - intros smartcontracts err -> Hne ->.
    by rewrite decide_False by (by destruct smartcontracts).
Qed.
End PushFacts.

Lemma push_in_one_request_witness :
  let world := sampleNetworkWorld [nft; Smartcontract.mk "eth" "0xC3" 0 0; coin] in
  @push_to_network_service world "imx"
  = (None,
     [@Selected world "imx"; @Resolved world "inproc://categorizer_imx";
      @Requested world "inproc://categorizer_imx" [nft; coin]]).
Proof.
  intros world.
  destruct (@push_to_network_service world "imx") as [result calls] eqn:Hpush.
  assert (result = None) as -> by (vm_compute in Hpush; congruence).
  destruct (proj1 (proj2 (@push_in_one_request world "imx")) [nft; coin] calls
              eq_refl ltac:(discriminate) Hpush) as (target & Htarget & ->).
  vm_compute in Htarget. by injection Htarget as <-.
Defined.

Section RunFacts.
Context `{CommandLine}.

(** X26. The mode that writes the configuration does not serve. When the
    directive to build the configuration is on the command line, [Run]
    never starts the serve loops: it writes one service file and returns,
    or ends the process. It writes exactly when the path and the url are
    given and the writing succeeds, and what it writes, and keeps, is the
    service of the configuration with its url replaced by the url given and
    everything else, the controllers as [Prepare] may have completed them
    included, as it was. Without the directive [Run] serves. *)
Theorem Run_build_mode (service : ProxyService.t) :
  (BuildConfiguration = false -> Run service = Serving) /\
  (BuildConfiguration = true ->
   Run service ≠ Serving /\
   forall service' path written,
     Run service = Generated service' path written <->
     exists url,
       PathValue = inl path /\ UrlValue = inl url /\
       service' = setUrl service url /\
       WriteService path (ProxyService.configuration service') = None /\
       written = Config.Service (ProxyService.configuration service') /\
       Service.Url written = url /\
       Service.Controllers written
       = Service.Controllers
           (Config.Service (ProxyService.configuration service)) /\
       Service.Type_ written
       = Service.Type_ (Config.Service (ProxyService.configuration service)) /\
       ProxyService.source service' = ProxyService.source service).
Proof.
  unfold Run, generateConfiguration. split; [by intros ->|].
  intros ->. split.
  - destruct PathValue; [|done]. destruct UrlValue; [|done].
    by destruct (WriteService _ _).
  - intros service' path written.
    destruct PathValue as [p|e]; [|split; [done | by intros (? & ? & _)]].
    destruct UrlValue as [u|e]; [|split; [done | by intros (? & _ & ? & _)]].
    destruct (WriteService p _) eqn:Hw.
    + split; [done|]. intros (url & [= <-] & [= <-] & -> & Hw' & _).
      congruence.
    + split.
      * intros [= <- <- <-]. exists u. by repeat split.
      * intros (url & [= <-] & [= <-] & -> & _ & -> & _). done.
Qed.
End RunFacts.

Lemma Run_build_mode_witness :
  let declared :=
    Service.mk "proxy" "edge" "" "edge 1"
      [Controller.mk "Replier" "source"
         [ControllerInstance.mk 4000 "source" "source1"]] [] [] [] in
  @Run sampleCommandLine (edge declared)
  = Generated
      (ProxyService.mk
         (Config.mk "edge"
            (Service.mk "proxy" "edge" "github.com/ahmetson/edge" "edge 1"
               [Controller.mk "Replier" "source"
                  [ControllerInstance.mk 4000 "source" "source1"]] [] [] [])
            0)
         (Some (Source.mk "Replier" [])) (ProxyController.mk "Pusher" []))
      "./service.yml"
      (Service.mk "proxy" "edge" "github.com/ahmetson/edge" "edge 1"
         [Controller.mk "Replier" "source"
            [ControllerInstance.mk 4000 "source" "source1"]] [] [] []).
Proof.
  intros declared.
  destruct (proj2 (@Run_build_mode sampleCommandLine (edge declared)) eq_refl)
    as [_ Hwrites].
  apply Hwrites. exists "github.com/ahmetson/edge". by repeat split.
Defined.
